(** * sceptre-cdk-handler: the CDK builders of [cdk_builder.py]

    A shallow embedding of [sceptre_cdk_handler/cdk_builder.py] and the
    properties of its three builders: [BootstrappedCdkBuilder],
    [BootstraplessCdkBuilder] and [NonPythonCdkBuilder].

    Python objects that are mutated in place (the environment [dict]s) live
    in a heap of dictionaries and are passed by reference; the file system,
    the logger and the injected [subprocess_run] are part of an explicit
    world that every method threads through a state-and-exception monad. *)

From stdpp Require Import gmap strings list fin_maps pretty.
From Stdlib Require Import QArith Ascii.

Set Warnings "-register-all".
#[local] Close Scope Q_scope.
#[local] Open Scope string_scope.

(** ** Python values and exceptions *)

(** What [json.load] returns.  Objects are Python [dict]s: finite maps with
    unique string keys.  The code below never depends on the order of the
    keys of an object (a key list is only compared with a one-element list). *)
Inductive json :=
| JNull
| JBool (b : bool)
| JNum (q : Q)
| JStr (s : string)
| JArr (l : list json)
| JObj (m : gmap string json).

(** Python truth value of a parsed JSON value ([if x:]). *)
Definition truthy (j : json) : bool :=
  match j with
  | JNull => false
  | JBool b => b
  | JNum q => negb (Qeq_bool q 0)
  | JStr s => negb (bool_decide (s = ""))
  | JArr l => negb (bool_decide (l = []))
  | JObj m => negb (bool_decide (m = ∅))
  end.

(** [list(d.keys())] *)
Definition keys {V} (d : gmap string V) : list string := (map_to_list d).*1.

(** The exceptions that the module raises or lets through. *)
Inductive exception :=
| SceptreException (msg : string)
| TemplateHandlerArgumentsInvalidError (msg : string)
| TypeError (msg : string)
| AttributeError (attribute : string)
| CalledProcessError (returncode : Z) (command : string)
| FileNotFoundError (filename : string)
| IsADirectoryError (filename : string)
| JSONDecodeError
| ExternalError (class_name msg : string).

Inductive result (A : Type) :=
| Ok (a : A)
| Raise (e : exception).
Arguments Ok {A} a.
Arguments Raise {A} e.

(** ** The world *)

(** *** Paths

    A [pathlib.Path] on POSIX is its root ([""], ["/"] or ["//"]) and its list
    of components; the file system below is keyed by these values. *)
Abbreviation Path := (string * list string)%type.

Definition is_slash (c : Ascii.ascii) : bool := Ascii.eqb c "/"%char.

(** [s.split('/')] *)
Fixpoint split_slash (s : string) : list string :=
  match s with
  | EmptyString => [""]
  | String c s' =>
      if is_slash c then "" :: split_slash s'
      else
        match split_slash s' with
        | x :: r => String c x :: r
        | [] => [String c ""]
        end
  end.

Fixpoint leading_slashes (s : string) : nat :=
  match s with
  | EmptyString => 0
  | String c s' => if is_slash c then S (leading_slashes s') else 0
  end.

(** The root that [posixpath.splitroot] finds: none for a relative path,
    ["//"] for exactly two leading slashes, ["/"] otherwise. *)
Definition path_root (s : string) : string :=
  match leading_slashes s with
  | 0 => ""
  | 2 => "//"
  | _ => "/"
  end.

(** The components of a path: the pieces between slashes, without the empty
    ones and without ["."]. *)
Definition path_parts (s : string) : list string :=
  filter (λ x, x ≠ "" ∧ x ≠ ".") (split_slash s).

(** [Path(s)] *)
Definition parse_path (s : string) : Path := (path_root s, path_parts s).

Fixpoint ends_with_slash (s : string) : bool :=
  match s with
  | EmptyString => false
  | String c EmptyString => is_slash c
  | String _ s' => ends_with_slash s'
  end.

(** [posixpath.join(a, b)]: an absolute [b] replaces [a]. *)
Definition posix_join (a b : string) : string :=
  if bool_decide (0 < leading_slashes b) then b
  else if bool_decide (a = "") || ends_with_slash a then a +:+ b
  else a +:+ "/" +:+ b.

(** [Path(directory, name)] *)
Definition Path_of (directory name : string) : Path :=
  parse_path (posix_join directory name).

(** [str(p)] *)
Definition Path_str (p : Path) : string :=
  if bool_decide (p.1 = "") && bool_decide (p.2 = []) then "."
  else p.1 +:+ String.concat "/" p.2.

(** [p.parent] *)
Definition Path_parent (p : Path) : Path := (p.1, removelast p.2).

(** The entry [name] of the directory [d]. *)
Definition Path_child (d : Path) (name : string) : Path := (d.1, d.2 ++ [name])%list.

(** No slash occurs in [s]. *)
Fixpoint no_slash (s : string) : bool :=
  match s with
  | EmptyString => true
  | String c s' => negb (is_slash c) && no_slash s'
  end.

Inductive stream := sys_stderr.

(** The arguments of one call of the injected [subprocess_run]. *)
Record proc_call := {
  call_command : string;
  call_shell : bool;
  call_check : bool;
  call_env : gmap string string;
  call_stdout : stream;
  call_cwd : option string
}.

Record CompletedProcess := { cp_args : string; cp_returncode : Z }.

Inductive log_level := DEBUG | INFO.

(** What the builders do to the outside, in order: logger calls and calls of
    [subprocess_run]. *)
Inductive event :=
| Log (level : log_level) (msg : string)
| Run (c : proc_call).

(** Directories and files; a file holds text that parses as JSON ([Some j])
    or does not ([None]).  The keys are paths as [pathlib] normalises them:
    a [..] component or a symbolic link is not resolved, so such a path is a
    key of its own. *)
Record filesystem := {
  dirs : gset Path;
  files : gmap Path (option json)
}.

Abbreviation loc := nat.

Record world := {
  heap : gmap loc (gmap string string);
  fs : filesystem;
  tmp_count : nat;
  trace : list event
}.

Definition set_heap (f : gmap loc (gmap string string) → gmap loc (gmap string string))
    (w : world) : world :=
  {| heap := f (heap w); fs := fs w; tmp_count := tmp_count w; trace := trace w |}.

Definition set_fs (f : filesystem → filesystem) (w : world) : world :=
  {| heap := heap w; fs := f (fs w); tmp_count := tmp_count w; trace := trace w |}.

Definition add_event (e : event) (w : world) : world :=
  {| heap := heap w; fs := fs w; tmp_count := tmp_count w; trace := trace w ++ [e] |}.

(** The calls of [subprocess_run] recorded in a trace. *)
Fixpoint runs (t : list event) : list proc_call :=
  match t with
  | [] => []
  | Run c :: t' => c :: runs t'
  | Log _ _ :: t' => runs t'
  end.

(** ** The monad of methods: state plus exceptions *)

Definition M (A : Type) : Type := world → result A * world.

#[global] Instance M_ret : MRet M := λ A a w, (Ok a, w).

#[global] Instance M_bind : MBind M := λ A B f m w,
  match m w with
  | (Ok a, w') => f a w'
  | (Raise e, w') => (Raise e, w')
  end.

#[global] Instance result_ret : MRet result := λ A a, Ok a.

#[global] Instance result_bind : MBind result := λ A B f r,
  match r with
  | Ok a => f a
  | Raise e => Raise e
  end.

Definition raise {A} (e : exception) : M A := λ w, (Raise e, w).

(** An expression that may raise but touches nothing. *)
Definition lift {A} (r : result A) : M A := λ w, (r, w).

Definition get_world : M world := λ w, (Ok w, w).

Definition modify (f : world → world) : M unit := λ w, (Ok tt, f w).

Definition logger_debug (msg : string) : M unit := modify (add_event (Log DEBUG msg)).
Definition logger_info (msg : string) : M unit := modify (add_event (Log INFO msg)).

(** *** Dictionaries on the heap *)

(** [d.copy()]: a new dictionary with the same items. *)
Definition dict_copy (l : loc) : M loc := λ w,
  let l' := fresh (dom (heap w)) in
  (Ok l', set_heap (insert l' (default ∅ (heap w !! l))) w).

(** [d.pop(k, None)], the result dropped. *)
Definition dict_pop (l : loc) (k : string) : M unit :=
  modify (set_heap (alter (delete k) l)).

(** [d.update(k1=v1, ..., kn=vn)] *)
Definition dict_update (l : loc) (kvs : list (string * string)) : M unit :=
  modify (set_heap (alter (λ d, foldl (λ d kv, <[kv.1 := kv.2]> d) d kvs) l)).

(** [d[k] = v] *)
Definition dict_setitem (l : loc) (k v : string) : M unit :=
  modify (set_heap (alter (insert k v) l)).

(** The items of the dictionary behind a reference. *)
Definition deref (w : world) (l : loc) : gmap string string := default ∅ (heap w !! l).

(** *** The file system *)

Definition path_exists (f : filesystem) (p : Path) : bool :=
  bool_decide (is_Some (files f !! p)) || bool_decide (p ∈ dirs f).

(** [with p.open(mode='r') as f: json.load(f)] *)
Definition open_json_load (p : Path) : M json := λ w,
  match files (fs w) !! p with
  | Some (Some j) => (Ok j, w)
  | Some None => (Raise JSONDecodeError, w)
  | None =>
      if bool_decide (p ∈ dirs (fs w))
      then (Raise (IsADirectoryError (Path_str p)), w)
      else (Raise (FileNotFoundError (Path_str p)), w)
  end.

(** Is the path [q] the directory [d] or below it? *)
Definition below (d q : Path) : bool :=
  bool_decide (q.1 = d.1) && bool_decide (d.2 `prefix_of` q.2).

Definition rmtree (d : Path) (f : filesystem) : filesystem :=
  {| dirs := filter (λ q, below d q = false) (dirs f);
     files := filter (λ pv, below d pv.1 = false) (files f) |}.

Definition tmp_name (n : nat) : string := "/tmp/tmp" +:+ pretty n.

(** [TemporaryDirectory().__enter__()]: make a directory and give its name. *)
Definition TemporaryDirectory_enter : M string := λ w,
  let d := tmp_name (tmp_count w) in
  (Ok d,
   {| heap := heap w;
      fs := {| dirs := {[parse_path d]} ∪ dirs (fs w); files := files (fs w) |};
      tmp_count := S (tmp_count w);
      trace := trace w |}).

(** [__exit__]: remove the directory and all that is in it. *)
Definition TemporaryDirectory_exit (d : string) : M unit :=
  modify (set_fs (rmtree (parse_path d))).

(** [with TemporaryDirectory() as d: body]: [__exit__] runs however the body
    ends, and the body's result or exception is what the statement gives. *)
Definition with_TemporaryDirectory {A} (body : string → M A) : M A := λ w,
  match TemporaryDirectory_enter w with
  | (Ok d, w1) =>
      let '(r, w2) := body d w1 in
      (r, (TemporaryDirectory_exit d w2).2)
  | (Raise e, w1) => (Raise e, w1)
  end.

(** *** Subprocesses *)

(** The injected [subprocess_run]: given the call, it changes the file system
    and returns or raises. *)
Definition runner := proc_call → filesystem → result CompletedProcess * filesystem.

(** [self._subprocess_run(...)]: the call is recorded, then made. *)
Definition call_subprocess_run (run : runner) (c : proc_call) : M CompletedProcess := λ w,
  let w1 := add_event (Run c) w in
  let '(r, f) := run c (fs w1) in
  (r, set_fs (λ _, f) w1).

(** [subprocess.run], the default runner, over a process behaviour [exec]
    that gives the exit code: with [check=True] a non-zero code raises. *)
Definition subprocess_run (exec : proc_call → filesystem → Z * filesystem) : runner :=
  λ c f,
    let '(code, f') := exec c f in
    if call_check c && negb (code =? 0)%Z
    then (Raise (CalledProcessError code (call_command c)), f')
    else (Ok {| cp_args := call_command c; cp_returncode := code |}, f').

(** ** The connection manager and its credentials *)

(** Modelled from the spec: [botocore.credentials.Credentials] is not part
    of the source; the session credentials are an access key, a secret key
    and an optional session token. *)
Record Credentials := {
  access_key : string;
  secret_key : string;
  token : option string
}.

(** A [boto3] session: [get_credentials()] returns credentials or [None],
    or raises. *)
Record Session := { get_credentials : result (option Credentials) }.

(** Sceptre's [ConnectionManager], with its method [_get_session]. *)
Record ConnectionManager := {
  profile : option string;
  region : string;
  iam_role : option string;
  _get_session : option string → string → option string → result Session
}.

(** [cm._get_session(cm.profile, cm.region, cm.iam_role).get_credentials()],
    followed by the first attribute access on the result, which raises on
    [None]. *)
Definition session_credentials (cm : ConnectionManager) : M Credentials :=
  session ← lift (_get_session cm (profile cm) (region cm) (iam_role cm));
  credentials ← lift (get_credentials session);
  match credentials with
  | Some c => mret c
  | None => raise (AttributeError "access_key")
  end.

(** ** The CDK library, as far as the builders use it *)

(** Modelled from the spec: [aws_cdk.cloud_assembly_schema.AssetManifest] is
    not part of the source; an asset manifest describes zero or more file
    assets and zero or more container-image assets, each keyed by asset id. *)
Record AssetManifest := {
  manifest_files : gmap string json;
  docker_images : gmap string json
}.

(** [aws_cdk.cx_api.AssetManifestArtifact] *)
Record AssetManifestArtifact := {
  file : string;
  contents : AssetManifest
}.

(** [aws_cdk.cx_api.CloudFormationStackArtifact] *)
Record CloudFormationStackArtifact := {
  stack_name : string;
  template : json
}.

Inductive CloudArtifact :=
| IsAssetManifestArtifact (a : AssetManifestArtifact)
| IsCloudFormationStackArtifact (s : CloudFormationStackArtifact)
| OtherArtifact (id : string).

(** Modelled from the spec: [aws_cdk.cx_api.CloudAssembly] is not part of
    the source; a cloud assembly is the artifacts that synthesis gives, the
    templates of the synthesized stacks and the asset manifest among them. *)
Record CloudAssembly := { artifacts : list CloudArtifact }.

Definition stacks_named (name : string) (l : list CloudArtifact)
    : list CloudFormationStackArtifact :=
  omap (λ a, match a with
             | IsCloudFormationStackArtifact s =>
                 if bool_decide (stack_name s = name) then Some s else None
             | _ => None
             end) l.

(** [CloudAssembly.get_stack_by_name]: the one stack artifact of that name;
    none or several is an error of the library. *)
Definition get_stack_by_name (ca : CloudAssembly) (name : string)
    : result CloudFormationStackArtifact :=
  match stacks_named name (artifacts ca) with
  | [s] => Ok s
  | [] => Raise (ExternalError "JSIIError" ("Unable to find stack with stack name " +:+ name))
  | _ => Raise (ExternalError "JSIIError" ("There are multiple stacks with the stack name " +:+ name))
  end.

(** The rest of [aws_cdk] is opaque: applications, synthesizers, the context
    and the user data are values the builders only pass on. *)
Class AwsCdk := {
  App : Type;
  Synthesizer : Type;
  CdkContext : Type;
  UserData : Type;
  SynthesizerConfig : Type;
  (** [app.synth()] *)
  app_synth : App → result CloudAssembly;
  (** the text of [cdk_context] inside an f-string *)
  format_context : CdkContext → string
}.

(** A subclass of [SceptreCdkStack], called as
    [stack_class(app, id, sceptre_user_data, synthesizer=...)]: it raises or
    leaves the stack inside the application. *)
Definition StackClass `{AwsCdk} : Type :=
  App → string → UserData → option Synthesizer → result App.

(** ** [class CdkBuilder] *)

Module CdkBuilder.
Definition STACK_LOGICAL_ID : string := "CDKStack".
End CdkBuilder.

(** ** [class BootstrappedCdkBuilder(CdkBuilder)] *)

Module BootstrappedCdkBuilder.
Section methods.
Context `{AwsCdk}.

Definition STACK_LOGICAL_ID : string := CdkBuilder.STACK_LOGICAL_ID.

(** The attributes set by [__init__]; the logger is the trace of the world
    and [_environment_variables] is a reference to the ambient mapping. *)
Record t := {
  _connection_manager : ConnectionManager;
  _subprocess_run : runner;
  _app_class : CdkContext → result App;
  _environment_variables : loc
}.

Definition _synthesize (self : t) (stack_class : StackClass)
    (cdk_context : CdkContext) (sceptre_user_data : UserData) : M CloudAssembly :=
  logger_debug "CDK synthesing CdkStack Class";;
  logger_debug ("CDK Context: " +:+ format_context cdk_context);;
  app ← lift (_app_class self cdk_context);
  app ← lift (stack_class app STACK_LOGICAL_ID sceptre_user_data None);
  lift (app_synth app).

(** The [for ... break] loop: the first artifact that is an
    [AssetManifestArtifact], [None] when the loop ends without one. *)
Fixpoint first_asset_manifest (l : list CloudArtifact) : option AssetManifestArtifact :=
  match l with
  | [] => None
  | IsAssetManifestArtifact a :: _ => Some a
  | _ :: l' => first_asset_manifest l'
  end.

Definition _get_assets_manifest (cloud_assembly : CloudAssembly)
    : M AssetManifestArtifact :=
  match first_asset_manifest (artifacts cloud_assembly) with
  | None => raise (SceptreException "CDK Asset manifest artifact not found")
  | Some asset_artifacts => mret asset_artifacts
  end.

Definition _get_template (cloud_assembly : CloudAssembly) : M json :=
  stack ← lift (get_stack_by_name cloud_assembly STACK_LOGICAL_ID);
  mret (template stack).

Definition _run_command (self : t) (command : string) (env : loc) : M CompletedProcess :=
  w ← get_world;
  call_subprocess_run (_subprocess_run self)
    {| call_command := command;
       call_env := deref w env;
       call_shell := true;
       call_stdout := sys_stderr;
       call_check := true;
       call_cwd := None |}.

Definition _get_envs (self : t) : M loc :=
  envs ← dict_copy (_environment_variables self);
  dict_pop envs "AWS_PROFILE";;
  credentials ← session_credentials (_connection_manager self);
  dict_update envs
    [("AWS_ACCESS_KEY_ID", access_key credentials);
     ("AWS_SECRET_ACCESS_KEY", secret_key credentials);
     ("AWS_DEFAULT_REGION", region (_connection_manager self));
     ("CDK_DEFAULT_REGION", region (_connection_manager self));
     ("AWS_REGION", region (_connection_manager self))];;
  match token credentials with
  | None => dict_pop envs "AWS_SESSION_TOKEN"
  | Some tok => dict_setitem envs "AWS_SESSION_TOKEN" tok
  end;;
  mret envs.

Definition _only_asset_is_template (asset_artifacts : AssetManifestArtifact) : bool :=
  let manifest_contents := contents asset_artifacts in
  if negb (bool_decide (docker_images manifest_contents = ∅)) then false
  else
    let keys := keys (manifest_files manifest_contents) in
    let expected_template := STACK_LOGICAL_ID +:+ ".template.json" in
    bool_decide (keys = [expected_template]).

Definition _publish (self : t) (cloud_assembly : CloudAssembly) : M unit :=
  asset_artifacts ← _get_assets_manifest cloud_assembly;
  if _only_asset_is_template asset_artifacts then
    logger_debug "Only asset is template; Skipping asset upload."
  else
    environment_variables ← _get_envs self;
    logger_info "Publishing CDK assets";;
    logger_debug ("Assets manifest file: " +:+ file asset_artifacts);;
    _run_command self
      ("npx cdk-assets -v publish --path " +:+ file asset_artifacts)
      environment_variables;;
    mret tt.

(** [build_template] calls [self._synthesize], which a subclass overrides:
    the method that the call resolves to is the argument [synthesize]. *)
Definition build_template_with (synthesize : M CloudAssembly) (self : t) : M json :=
  assembly ← synthesize;
  _publish self assembly;;
  template ← _get_template assembly;
  mret template.

Definition build_template (self : t) (stack_class : StackClass)
    (cdk_context : CdkContext) (sceptre_user_data : UserData) : M json :=
  build_template_with (_synthesize self stack_class cdk_context sceptre_user_data) self.

End methods.
#[global] Arguments t {_}.
End BootstrappedCdkBuilder.

(** ** [class BootstraplessCdkBuilder(BootstrappedCdkBuilder)] *)

Module BootstraplessCdkBuilder.
Section methods.
Context `{AwsCdk}.

Definition STACK_LOGICAL_ID : string := CdkBuilder.STACK_LOGICAL_ID.

(** The attributes of the base class and the two that [__init__] adds. *)
Record t := {
  base : BootstrappedCdkBuilder.t;
  _synthesizer_config : SynthesizerConfig;
  _synthesizer_class : SynthesizerConfig → result Synthesizer
}.

(** [try: self._synthesizer_class(...) except TypeError as e: raise ...] *)
Definition make_synthesizer (self : t) : M Synthesizer :=
  match _synthesizer_class self (_synthesizer_config self) with
  | Ok synthesizer => mret synthesizer
  | Raise (TypeError e) =>
      raise (TemplateHandlerArgumentsInvalidError
               ("Error encountered attempting to instantiate the BootstraplessSynthesizer with the "
                +:+ "specified deployment config: " +:+ e))
  | Raise e => raise e
  end.

Definition _synthesize (self : t) (stack_class : StackClass)
    (cdk_context : CdkContext) (sceptre_user_data : UserData) : M CloudAssembly :=
  logger_debug "CDK synthesing CdkStack Class";;
  logger_debug ("CDK Context: " +:+ format_context cdk_context);;
  app ← lift (BootstrappedCdkBuilder._app_class (base self) cdk_context);
  synthesizer ← make_synthesizer self;
  app ← lift (stack_class app STACK_LOGICAL_ID sceptre_user_data (Some synthesizer));
  lift (app_synth app).

(** The inherited [build_template], with [_synthesize] overridden. *)
Definition build_template (self : t) (stack_class : StackClass)
    (cdk_context : CdkContext) (sceptre_user_data : UserData) : M json :=
  BootstrappedCdkBuilder.build_template_with
    (_synthesize self stack_class cdk_context sceptre_user_data) (base self).

End methods.
#[global] Arguments t {_}.
End BootstraplessCdkBuilder.

(** ** [class NonPythonCdkBuilder] *)

Module NonPythonCdkBuilder.
Section methods.
(** [Path.resolve()]: the path made absolute, symbolic links followed. *)
Variable resolve : Path → Path.

Record t := {
  _connection_manager : ConnectionManager;
  _subprocess_run : runner;
  _environment_variables : loc
}.

Definition _get_envs (self : t) : M loc :=
  envs ← dict_copy (_environment_variables self);
  dict_pop envs "AWS_PROFILE";;
  credentials ← session_credentials (_connection_manager self);
  dict_update envs
    [("AWS_ACCESS_KEY_ID", access_key credentials);
     ("AWS_SECRET_ACCESS_KEY", secret_key credentials);
     ("AWS_DEFAULT_REGION", region (_connection_manager self));
     ("CDK_DEFAULT_REGION", region (_connection_manager self));
     ("AWS_REGION", region (_connection_manager self))];;
  match token credentials with
  | None => dict_pop envs "AWS_SESSION_TOKEN"
  | Some tok => dict_setitem envs "AWS_SESSION_TOKEN" tok
  end;;
  mret envs.

(** [cdk_context.items()] is walked in the order of the dictionary: the
    context is the list of its items. *)
Definition _create_command (output_dir : string) (cdk_context : list (string * string))
    (stack_logical_id : string) : string :=
  foldl (λ command kv, command +:+ kv.1 +:+ "=" +:+ kv.2 +:+ " ")
        ("npx cdk synth " +:+ stack_logical_id +:+ " -o " +:+ output_dir +:+ " ")
        cdk_context.

Definition _synthesize (self : t) (cdk_json_path : Path) (output_dir : string)
    (cdk_context : list (string * string)) (stack_logical_id : string) : M unit :=
  envs ← _get_envs self;
  let command := _create_command output_dir cdk_context stack_logical_id in
  w ← get_world;
  call_subprocess_run (_subprocess_run self)
    {| call_command := command;
       call_shell := true;
       call_check := true;
       call_env := deref w envs;
       call_stdout := sys_stderr;
       call_cwd := Some (Path_str (resolve (Path_parent cdk_json_path))) |};;
  mret tt.

Definition _get_assets_manifest (assets_filepath : Path) : M json :=
  w ← get_world;
  if negb (path_exists (fs w) assets_filepath) then
    raise (SceptreException "CDK Asset manifest artifact not found")
  else
    assets_dict ← open_json_load assets_filepath;
    mret assets_dict.

(** [x.get(key, {})]: only a [dict] has the method. *)
Definition get_or_empty (x : json) (key : string) : result json :=
  match x with
  | JObj m => Ok (default (JObj ∅) (m !! key))
  | _ => Raise (AttributeError "get")
  end.

(** [list(x.keys())] *)
Definition keys_of (x : json) : result (list string) :=
  match x with
  | JObj m => Ok (keys m)
  | _ => Raise (AttributeError "keys")
  end.

Definition _only_asset_is_template (assets_dict : json) (stack_logical_id : string)
    : result bool :=
  images ← get_or_empty assets_dict "dockerImages";
  if truthy images then mret false
  else
    files ← get_or_empty assets_dict "files";
    keys ← keys_of files;
    let expected_template := stack_logical_id +:+ ".template.json" in
    mret (bool_decide (keys = [expected_template])).

Definition _publish (self : t) (assets_filepath : Path) (stack_logical_id : string)
    : M unit :=
  assets_manifest ← _get_assets_manifest assets_filepath;
  only_template ← lift (_only_asset_is_template assets_manifest stack_logical_id);
  if (only_template : bool) then
    logger_debug "Only asset is template; Skipping asset upload."
  else
    environment_variables ← _get_envs self;
    logger_info "Publishing CDK assets";;
    logger_debug ("Assets manifest file: " +:+ Path_str assets_filepath);;
    w ← get_world;
    call_subprocess_run (_subprocess_run self)
      {| call_command := "npx cdk-assets -v publish --path " +:+ Path_str assets_filepath;
         call_shell := true;
         call_check := true;
         call_env := deref w environment_variables;
         call_stdout := sys_stderr;
         call_cwd := None |};;
    mret tt.

Definition _get_template (template_path : Path) : M json :=
  open_json_load template_path.

(** The body of the [with] statement of [build_template]. *)
Definition build_in (self : t) (cdk_json_path : Path)
    (cdk_context : list (string * string)) (stack_logical_id : string)
    (output_dir : string) : M json :=
  _synthesize self cdk_json_path output_dir cdk_context stack_logical_id;;
  let assets_file : Path := (Path_of output_dir (stack_logical_id +:+ ".assets.json")) in
  _publish self assets_file stack_logical_id;;
  let template_file : Path := (Path_of output_dir (stack_logical_id +:+ ".template.json")) in
  template ← _get_template template_file;
  mret template.

Definition build_template (self : t) (cdk_json_path : Path)
    (cdk_context : list (string * string)) (stack_logical_id : string) : M json :=
  with_TemporaryDirectory (build_in self cdk_json_path cdk_context stack_logical_id).

End methods.
End NonPythonCdkBuilder.

(** ** Reading an asset manifest and a derived environment *)

(** The file assets of a manifest document [{"files": {...},
    "dockerImages": {...}}]: the object under ["files"], no assets when the
    key is missing; [None] when the document has another shape. *)
Definition file_assets (manifest : json) : option (gmap string json) :=
  match manifest with
  | JObj m =>
      match m !! "files" with
      | None => Some ∅
      | Some (JObj f) => Some f
      | Some _ => None
      end
  | _ => None
  end.

(** The container-image assets of a manifest document, likewise. *)
Definition image_assets (manifest : json) : option (gmap string json) :=
  match manifest with
  | JObj m =>
      match m !! "dockerImages" with
      | None => Some ∅
      | Some (JObj i) => Some i
      | Some _ => None
      end
  | _ => None
  end.

(** The items that [_get_envs] leaves in the copy it returns, from the items
    of the ambient mapping, the region and the credentials. *)
Definition envs_after (ambient : gmap string string) (cm : ConnectionManager)
    (c : Credentials) : gmap string string :=
  let e :=
    <["AWS_REGION" := region cm]>
      (<["CDK_DEFAULT_REGION" := region cm]>
         (<["AWS_DEFAULT_REGION" := region cm]>
            (<["AWS_SECRET_ACCESS_KEY" := secret_key c]>
               (<["AWS_ACCESS_KEY_ID" := access_key c]>
                  (delete "AWS_PROFILE" ambient))))) in
  match token c with
  | None => delete "AWS_SESSION_TOKEN" e
  | Some tok => <["AWS_SESSION_TOKEN" := tok]> e
  end.

(** The connection manager resolves to these credentials. *)
Definition resolves (cm : ConnectionManager) (c : Credentials) : Prop :=
  ∃ session,
    _get_session cm (profile cm) (region cm) (iam_role cm) = Ok session ∧
    get_credentials session = Ok (Some c).


(** The classification that the manifest inspector is to compute, for the
    file assets [fls], the image assets [imgs] and the expected template
    file name. *)
Definition classifies (b : bool) (fls imgs : gmap string json) (expected : string)
    : Prop :=
  (imgs ≠ ∅ → b = false) ∧
  (imgs = ∅ → (b = true ↔ dom fls = {[expected]})) ∧
  (imgs = ∅ → fls = ∅ → b = false).

(** What a derived environment [e] is to hold for a region and credentials. *)
Definition credential_environment (e : gmap string string) (rgn : string)
    (c : Credentials) : Prop :=
  e !! "AWS_PROFILE" = None ∧
  e !! "AWS_ACCESS_KEY_ID" = Some (access_key c) ∧
  e !! "AWS_SECRET_ACCESS_KEY" = Some (secret_key c) ∧
  e !! "AWS_DEFAULT_REGION" = Some rgn ∧
  e !! "CDK_DEFAULT_REGION" = Some rgn ∧
  e !! "AWS_REGION" = Some rgn ∧
  e !! "AWS_SESSION_TOKEN" = token c.

(** The call of the asset-publishing tool on the manifest at [path] with the
    environment [e]. *)
Definition publish_call (path : string) (e : gmap string string) : proc_call :=
  {| call_command := "npx cdk-assets -v publish --path " +:+ path;
     call_shell := true;
     call_check := true;
     call_env := e;
     call_stdout := sys_stderr;
     call_cwd := None |}.

(** [build] runs the three steps in order, each in the world the step before
    it leaves: an exception of a step is the outcome of [build], in the world
    where it was raised, and no later step runs; [build] returns a template
    exactly when all three steps return, and then the one of [extract]. *)
Definition pipeline {A T} (synthesize : M A) (publish : A → M unit)
    (extract : A → M T) (build : M T) : Prop :=
  ∀ w,
    (∀ e w1, synthesize w = (Raise e, w1) → build w = (Raise e, w1)) ∧
    (∀ a w1 e w2, synthesize w = (Ok a, w1) → publish a w1 = (Raise e, w2) →
       build w = (Raise e, w2)) ∧
    (∀ a w1 w2, synthesize w = (Ok a, w1) → publish a w1 = (Ok tt, w2) →
       build w = extract a w2) ∧
    (∀ t, (build w).1 = Ok t ↔
          ∃ a w1 w2, synthesize w = (Ok a, w1) ∧ publish a w1 = (Ok tt, w2) ∧
                     (extract a w2).1 = Ok t).

(** The call that [NonPythonCdkBuilder._synthesize] makes: the synthesis
    command, with the environment [e], in the directory [cwd]. *)
Definition synth_call (command : string) (e : gmap string string) (cwd : string)
    : proc_call :=
  {| call_command := command;
     call_shell := true;
     call_check := true;
     call_env := e;
     call_stdout := sys_stderr;
     call_cwd := Some cwd |}.

(** The context of an out-of-process build as it stands on the command
    line: [key=value] and a blank for each item, in order. *)
Fixpoint context_arguments (cdk_context : list (string * string)) : string :=
  match cdk_context with
  | [] => ""
  | kv :: rest => kv.1 +:+ "=" +:+ kv.2 +:+ " " +:+ context_arguments rest
  end.

(** ** Concrete scenarios *)

Module Demo.

Definition credentials : Credentials :=
  {| access_key := "AKIAEXAMPLE"; secret_key := "s3cr3t"; token := None |}.

Definition token_credentials : Credentials :=
  {| access_key := "ASIAEXAMPLE"; secret_key := "s3cr3t"; token := Some "FwoGZXIvYXdz" |}.

Definition connection_manager (c : Credentials) : ConnectionManager :=
  {| profile := Some "dev";
     region := "eu-west-1";
     iam_role := None;
     _get_session := λ _ _ _, Ok {| get_credentials := Ok (Some c) |} |}.

Definition ambient : gmap string string :=
  <["AWS_PROFILE" := "dev"]> (<["PATH" := "/usr/bin"]> ∅).

(** A world whose dictionary [0] is the ambient environment. *)
Definition world0 : world :=
  {| heap := <[0 := ambient]> ∅;
     fs := {| dirs := ∅; files := ∅ |};
     tmp_count := 0;
     trace := [] |}.

Definition template_only : gmap string json :=
  <["CDKStack.template.json" := JObj ∅]> ∅.

Definition with_zip : gmap string json :=
  <["asset123.zip" := JObj ∅]> template_only.

Definition manifest_doc (fls imgs : gmap string json) : json :=
  JObj (<["files" := JObj fls]> (<["dockerImages" := JObj imgs]> ∅)).

Definition artifact (fls : gmap string json) : AssetManifestArtifact :=
  {| file := "cdk.out/CDKStack.assets.json";
     contents := {| manifest_files := fls; docker_images := ∅ |} |}.

(** A small CDK: an application is the list of artifacts that its stacks
    have added so far, and synthesis emits them. *)
Definition cdk : AwsCdk :=
  {| App := list CloudArtifact;
     Synthesizer := string;
     CdkContext := list (string * string);
     UserData := unit;
     SynthesizerConfig := list (string * string);
     app_synth := λ app, Ok {| artifacts := app |};
     format_context := λ _, "{...}" |}.

(** A stack class that adds an asset manifest with the file assets [fls]
    and the stack's template. *)
Definition stack_class (fls : gmap string json) : @StackClass cdk :=
  λ app id _ _,
    Ok (app ++ [IsAssetManifestArtifact (artifact fls);
                IsCloudFormationStackArtifact
                  {| stack_name := id; template := JObj ∅ |}])%list.

(** A process that exits with [code] and changes nothing. *)
Definition exits_with (code : Z) : proc_call → filesystem → Z * filesystem :=
  λ _ f, (code, f).

Definition bootstrapped (c : Credentials) (run : runner) : @BootstrappedCdkBuilder.t cdk :=
  {| BootstrappedCdkBuilder._connection_manager := connection_manager c;
     BootstrappedCdkBuilder._subprocess_run := run;
     BootstrappedCdkBuilder._app_class := λ _, Ok ([] : @App cdk);
     BootstrappedCdkBuilder._environment_variables := 0 |}.

Definition non_python (c : Credentials) (run : runner) : NonPythonCdkBuilder.t :=
  {| NonPythonCdkBuilder._connection_manager := connection_manager c;
     NonPythonCdkBuilder._subprocess_run := run;
     NonPythonCdkBuilder._environment_variables := 0 |}.

(** What synthesis of [stack_class fls] gives. *)
Definition assembly (fls : gmap string json) : CloudAssembly :=
  {| artifacts :=
       [IsAssetManifestArtifact (artifact fls);
        IsCloudFormationStackArtifact {| stack_name := "CDKStack"; template := JObj ∅ |}] |}.

Definition assets_path : Path := Path_of "/tmp/tmp0" "CDKStack.assets.json".

(** [world0] with a manifest file for the file assets [fls]. *)
Definition world_with_manifest (fls : gmap string json) : world :=
  {| heap := <[0 := ambient]> ∅;
     fs := {| dirs := {[parse_path "/tmp/tmp0"]};
              files := <[assets_path := Some (manifest_doc fls ∅)]> ∅ |};
     tmp_count := 1;
     trace := [] |}.

(** A stack class that adds the template but no asset manifest. *)
Definition stack_without_manifest : @StackClass cdk :=
  λ app id _ _,
    Ok (app ++ [IsCloudFormationStackArtifact
                  {| stack_name := id; template := JObj ∅ |}])%list.

(** A synthesizer class with one keyword argument. *)
Definition synthesizer_class (config : list (string * string)) : result string :=
  match config with
  | [] => Ok "bootstrapless"
  | (k, v) :: _ =>
      if bool_decide (k = "file_asset_bucket_name") then Ok v
      else Raise (TypeError ("__init__() got an unexpected keyword argument " +:+ k))
  end.

Definition bootstrapless (c : Credentials) (run : runner)
    (config : list (string * string)) : @BootstraplessCdkBuilder.t cdk :=
  {| BootstraplessCdkBuilder.base := bootstrapped c run;
     BootstraplessCdkBuilder._synthesizer_config := config;
     BootstraplessCdkBuilder._synthesizer_class := synthesizer_class |}.

Definition cdk_json_path : Path := Path_of "/project" "cdk.json".

(** A stack class that only knows the identifier [CDKStack]. *)
Definition strict_stack_class (fls : gmap string json) : @StackClass cdk :=
  λ app id data synthesizer,
    if bool_decide (id = "CDKStack") then stack_class fls app id data synthesizer
    else Raise (ExternalError "ValueError" id).

Definition other_template : json := JObj (<["Description" := JStr "other"]> ∅).

(** A toolchain that, on a synthesis command, writes into [/tmp/tmp0] a
    template-only manifest and a template for [CDKStack] and for
    [OtherStack], and that otherwise does nothing. *)
Definition synth_writes : proc_call → filesystem → Z * filesystem :=
  λ c f,
    if String.prefix "npx cdk synth " (call_command c) then
      (0%Z,
       {| dirs := dirs f;
          files :=
            <[(Path_of "/tmp/tmp0" "CDKStack.assets.json") := Some (manifest_doc template_only ∅)]>
              (<[(Path_of "/tmp/tmp0" "CDKStack.template.json") := Some (JObj ∅)]>
                 (<[(Path_of "/tmp/tmp0" "OtherStack.assets.json") :=
                      Some (manifest_doc (<["OtherStack.template.json" := JObj ∅]> ∅) ∅)]>
                    (<[(Path_of "/tmp/tmp0" "OtherStack.template.json") := Some other_template]>
                       (files f)))) |})
    else (0%Z, f).

End Demo.

(** ** Notions for further properties *)

(** The variables that [_get_envs] removes or sets. *)
Definition credential_variables : list string :=
  ["AWS_PROFILE"; "AWS_ACCESS_KEY_ID"; "AWS_SECRET_ACCESS_KEY"; "AWS_DEFAULT_REGION";
   "CDK_DEFAULT_REGION"; "AWS_REGION"; "AWS_SESSION_TOKEN"].

(** A call of [subprocess_run] as the builders make it: through the shell,
    checked, with the output on [sys.stderr], and with an environment derived
    from credentials that the connection manager resolves to. *)
Definition builder_call (cm : ConnectionManager) (call : proc_call) : Prop :=
  call_shell call = true ∧
  call_check call = true ∧
  call_stdout call = sys_stderr ∧
  ∃ c, resolves cm c ∧ credential_environment (call_env call) (region cm) c.

(** What [_get_envs] is to give when the credentials do not resolve: the
    exception of [_get_session] or of [get_credentials], or the
    [AttributeError] of the attribute access on [None]. *)
Definition resolution_errors_pass (cm : ConnectionManager) (r : result loc) : Prop :=
  (∀ e, _get_session cm (profile cm) (region cm) (iam_role cm) = Raise e → r = Raise e) ∧
  (∀ session e,
     _get_session cm (profile cm) (region cm) (iam_role cm) = Ok session →
     get_credentials session = Raise e → r = Raise e) ∧
  (∀ session,
     _get_session cm (profile cm) (region cm) (iam_role cm) = Ok session →
     get_credentials session = Ok None → r = Raise (AttributeError "access_key")).

(** Nothing outside the heap has changed from [w] to [w']. *)
Definition same_outside (w w' : world) : Prop :=
  fs w' = fs w ∧ trace w' = trace w ∧ tmp_count w' = tmp_count w.

(** A synthesis call of an out-of-process build: a builder's call of the
    synthesis command for the stack, the output directory and the context,
    made in the resolved directory of [cdk.json]. *)
Definition is_synth_call (resolve : Path → Path) (cm : ConnectionManager)
    (cdk_json_path : Path) (output_dir : string) (cdk_context : list (string * string))
    (stack_logical_id : string) (call : proc_call) : Prop :=
  builder_call cm call ∧
  call_command call =
    "npx cdk synth " +:+ stack_logical_id +:+ " -o " +:+ output_dir +:+ " "
      +:+ context_arguments cdk_context ∧
  call_cwd call = Some (Path_str (resolve (Path_parent cdk_json_path))).

(** A publish call: a builder's call of the asset-publishing tool on the
    manifest at [path], made in the current directory. *)
Definition is_publish_call (cm : ConnectionManager) (path : string) (call : proc_call)
    : Prop :=
  builder_call cm call ∧
  call_command call = "npx cdk-assets -v publish --path " +:+ path ∧
  call_cwd call = None.

(** The heap of [w'] has every dictionary of [w], with the same items. *)
Definition heap_grows (w w' : world) : Prop := heap w ⊆ heap w'.

(** Every run of [m] takes a world to one that [R] relates to it. *)
Definition keeps {A} (R : world → world → Prop) (m : M A) : Prop :=
  ∀ w, R w (m w).2.

(** The outcome of a step that makes one checked call and drops what the
    call returns. *)
Definition call_outcome (r : result CompletedProcess) : result unit :=
  match r with
  | Ok _ => Ok tt
  | Raise e => Raise e
  end.

(** ** More scenarios *)

Module Scenario.

(** A synthesizer class that fails inside the library, not with a
    [TypeError]. *)
Definition rejecting_synthesizer_class (config : list (string * string)) : result string :=
  Raise (ExternalError "JSIIError" "bucket name must be lower case").

Definition bootstrapless_with (synthesizer_class : list (string * string) → result string)
    : @BootstraplessCdkBuilder.t Demo.cdk :=
  {| BootstraplessCdkBuilder.base :=
       Demo.bootstrapped Demo.credentials (subprocess_run (Demo.exits_with 0));
     BootstraplessCdkBuilder._synthesizer_config := [("file_asset_bucket_name", "assets")];
     BootstraplessCdkBuilder._synthesizer_class := synthesizer_class |}.

(** A toolchain whose synthesis command writes into [/tmp/tmp0] the manifest
    with the file assets [fls] and a template for [CDKStack], and whose other
    commands exit with [publish_code]. *)
Definition toolchain (fls : gmap string json) (publish_code : Z)
    : proc_call → filesystem → Z * filesystem :=
  λ c f,
    if String.prefix "npx cdk synth " (call_command c) then
      (0%Z,
       {| dirs := dirs f;
          files :=
            <[(Path_of "/tmp/tmp0" "CDKStack.assets.json") := Some (Demo.manifest_doc fls ∅)]>
              (<[(Path_of "/tmp/tmp0" "CDKStack.template.json") := Some Demo.other_template]>
                 (files f)) |})
    else (publish_code, f).

End Scenario.

(** * Properties *)

(** ** Running the monad *)

Lemma bind_run {A B} (m : M A) (f : A → M B) (w : world) :
  (m ≫= f) w =
  match m w with
  | (Ok a, w') => f a w'
  | (Raise e, w') => (Raise e, w')
  end.
Proof. reflexivity. Qed.

Lemma runs_app (t1 t2 : list event) : runs (t1 ++ t2) = (runs t1 ++ runs t2)%list.
Proof.
  induction t1 as [|[lv msg|c] t1 IH]; simpl; [reflexivity|exact IH|].
  by rewrite IH.
Qed.

(** ** Paths *)

Lemma string_app_assoc (a b c : string) : (a +:+ b) +:+ c = a +:+ (b +:+ c).
Proof.
  induction a as [|x a IH]; [reflexivity|].
  change (String x ((a +:+ b) +:+ c) = String x (a +:+ (b +:+ c))).
  by f_equal.
Qed.

Lemma string_app_nil_r (a : string) : a +:+ "" = a.
Proof.
  induction a as [|x a IH]; [reflexivity|].
  change (String x (a +:+ "") = String x a). by f_equal.
Qed.

Lemma string_app_cons (x : Ascii.ascii) (a b : string) :
  String x a +:+ b = String x (a +:+ b).
Proof. reflexivity. Qed.

Lemma split_slash_nonempty (s : string) : split_slash s ≠ [].
Proof.
  induction s as [|c s IH]; [done|]. cbn [split_slash].
  destruct (is_slash c); [done|]. by destruct (split_slash s).
Qed.

Lemma split_slash_app (a b : string) :
  split_slash (a +:+ String "/" b) = (split_slash a ++ split_slash b)%list.
Proof.
  induction a as [|c a IH]; [reflexivity|].
  rewrite string_app_cons. cbn [split_slash]. rewrite IH.
  destruct (is_slash c); [reflexivity|].
  pose proof (split_slash_nonempty a) as Ha.
  by destruct (split_slash a).
Qed.

Lemma split_slash_no_slash (s : string) : no_slash s = true → split_slash s = [s].
Proof.
  induction s as [|c s IH]; [done|]. cbn [no_slash split_slash].
  intros [Hc Hs]%andb_true_iff. apply negb_true_iff in Hc. rewrite Hc.
  by rewrite IH.
Qed.

Lemma no_slash_app (a b : string) : no_slash (a +:+ b) = no_slash a && no_slash b.
Proof.
  induction a as [|c a IH]; [reflexivity|].
  rewrite string_app_cons. cbn [no_slash]. rewrite IH. by rewrite andb_assoc.
Qed.

Lemma no_slash_leading (s : string) : no_slash s = true → leading_slashes s = 0.
Proof.
  destruct s as [|c s]; [done|]. cbn [no_slash leading_slashes].
  intros [Hc _]%andb_true_iff. apply negb_true_iff in Hc. by rewrite Hc.
Qed.

Lemma leading_slashes_app_l (d x : string) :
  leading_slashes x = 0 → leading_slashes (d +:+ x) = leading_slashes d.
Proof.
  intros Hx. induction d as [|c d IH]; [done|].
  rewrite string_app_cons. cbn [leading_slashes]. rewrite IH. reflexivity.
Qed.

Lemma leading_slashes_app_r (d x : string) :
  d ≠ "" → ends_with_slash d = false →
  leading_slashes (d +:+ x) = leading_slashes d.
Proof.
  induction d as [|c d IH]; [done|]. intros _ He.
  rewrite string_app_cons. cbn [leading_slashes].
  destruct d as [|c' d].
  - cbn [ends_with_slash] in He. by rewrite He.
  - rewrite IH; [reflexivity|done|exact He].
Qed.

Lemma ends_with_slash_inv (d : string) :
  ends_with_slash d = true → ∃ d', d = d' +:+ "/".
Proof.
  induction d as [|c d IH]; [done|]. destruct d as [|c' d].
  - cbn [ends_with_slash]. unfold is_slash. intros Hc.
    apply Ascii.eqb_eq in Hc as ->. by exists "".
  - intros He. destruct (IH He) as [d' Hd']. exists (String c d').
    rewrite string_app_cons. by rewrite <- Hd'.
Qed.

(** For a name without a slash, [Path(directory, name)] is the entry of that
    name in [Path(directory)]. *)
Lemma Path_of_plain (directory name : string) :
  no_slash name = true → name ≠ "" → name ≠ "." →
  Path_of directory name = Path_child (parse_path directory) name.
Proof.
  intros Hn Hne Hdot.
  assert (filter (λ x : string, x ≠ "" ∧ x ≠ ".") [name] = [name]) as Hf.
  { rewrite filter_cons_True by done. by rewrite filter_nil. }
  assert (filter (λ x : string, x ≠ "" ∧ x ≠ ".") [""] = []) as Hf0.
  { rewrite filter_cons_False by (by intros [? _]). by rewrite filter_nil. }
  pose proof (no_slash_leading name Hn) as Hl.
  unfold Path_of, posix_join, Path_child, parse_path, path_parts, path_root.
  rewrite Hl. rewrite bool_decide_eq_false_2 by lia. cbn [fst snd].
  destruct (bool_decide (directory = "")) eqn:Hd; cbn [orb].
  - apply bool_decide_eq_true in Hd as ->.
    change ("" +:+ name) with name.
    rewrite Hl, (split_slash_no_slash name), Hf by done. cbn [split_slash leading_slashes].
    by rewrite Hf0.
  - apply bool_decide_eq_false in Hd.
    destruct (ends_with_slash directory) eqn:He.
    + rewrite leading_slashes_app_l by done. f_equal.
      destruct (ends_with_slash_inv directory He) as [d' ->].
      rewrite string_app_assoc. change ("/" +:+ name) with (String "/" name).
      rewrite !split_slash_app, !filter_app, (split_slash_no_slash name) by done.
      rewrite Hf. cbn [split_slash]. by rewrite Hf0, app_nil_r.
    + rewrite leading_slashes_app_r by done. f_equal.
      change ("/" +:+ name) with (String "/" name).
      by rewrite split_slash_app, filter_app, (split_slash_no_slash name), Hf.
Qed.

Lemma no_slash_suffix (id suffix : string) :
  no_slash id = true → no_slash suffix = true → no_slash (id +:+ suffix) = true.
Proof. intros Hi Hs. by rewrite no_slash_app, Hi, Hs. Qed.

Lemma app_suffix_not_dot (id : string) (c1 c2 : Ascii.ascii) (rest : string) :
  id +:+ String c1 (String c2 rest) ≠ "" ∧ id +:+ String c1 (String c2 rest) ≠ ".".
Proof.
  destruct id as [|x [|y id]]; split; try done.
Qed.

(** The manifest and the template of an identifier without a slash are the
    files of those names in the output directory. *)
Lemma Path_of_artifact (directory id : string) :
  no_slash id = true →
  Path_of directory (id +:+ ".assets.json") =
    Path_child (parse_path directory) (id +:+ ".assets.json") ∧
  Path_of directory (id +:+ ".template.json") =
    Path_child (parse_path directory) (id +:+ ".template.json").
Proof.
  intros Hid. split; apply Path_of_plain;
    try (by apply no_slash_suffix);
    apply app_suffix_not_dot.
Qed.

Lemma below_child (d : Path) (name : string) : below d (Path_child d name) = true.
Proof.
  unfold below, Path_child. cbn [fst snd].
  rewrite !bool_decide_eq_true_2; [done| |done]. by apply prefix_app_r.
Qed.

(** ** Key lists *)

Lemma keys_singleton {V} (d : gmap string V) (k : string) :
  keys d = [k] ↔ dom d = {[k]}.
Proof.
  unfold keys. split.
  - intros Hk.
    destruct (map_to_list d) as [|[k' v] [|? ?]] eqn:E; try discriminate.
    injection Hk as ->.
    rewrite <- (list_to_map_to_list d), E. simpl.
    by rewrite dom_insert_L, dom_empty_L, union_empty_r_L.
  - intros Hd. apply dom_singleton_inv_L in Hd as [v ->].
    by rewrite map_to_list_singleton.
Qed.

Lemma keys_empty {V} : keys (∅ : gmap string V) = [].
Proof. unfold keys. by rewrite map_to_list_empty. Qed.

(** ** The only-template classification *)

Lemma Bootstrapped_only_asset_is_template_images (a : AssetManifestArtifact) :
  docker_images (contents a) ≠ ∅ →
  BootstrappedCdkBuilder._only_asset_is_template a = false.
Proof.
  intros Hi. unfold BootstrappedCdkBuilder._only_asset_is_template.
  by rewrite bool_decide_eq_false_2.
Qed.

Lemma Bootstrapped_only_asset_is_template_files (a : AssetManifestArtifact) :
  docker_images (contents a) = ∅ →
  BootstrappedCdkBuilder._only_asset_is_template a = true ↔
  dom (manifest_files (contents a)) = {["CDKStack.template.json"]}.
Proof.
  intros Hi. unfold BootstrappedCdkBuilder._only_asset_is_template.
  rewrite Hi, bool_decide_eq_true_2 by done. simpl.
  rewrite bool_decide_eq_true. apply keys_singleton.
Qed.

Lemma NonPython_only_asset_is_template_run (manifest : json) (id : string)
    (fls imgs : gmap string json) :
  file_assets manifest = Some fls →
  image_assets manifest = Some imgs →
  NonPythonCdkBuilder._only_asset_is_template manifest id =
  Ok (if bool_decide (imgs = ∅)
      then bool_decide (keys fls = [id +:+ ".template.json"])
      else false).
Proof.
  unfold file_assets, image_assets, NonPythonCdkBuilder._only_asset_is_template.
  destruct manifest as [| | | | |m]; try done.
  intros Hf Hi. simpl.
  assert (default (JObj ∅) (m !! "dockerImages") = JObj imgs) as ->.
  { destruct (m !! "dockerImages") as [[]|]; try discriminate; by simplify_eq. }
  assert (default (JObj ∅) (m !! "files") = JObj fls) as ->.
  { destruct (m !! "files") as [[]|]; try discriminate; by simplify_eq. }
  simpl. by destruct (bool_decide (imgs = ∅)).
Qed.

(** C1.  The only-template classification of both builders: false when the
    manifest has a container-image asset; otherwise true exactly when the
    keys of the file assets are the one expected template name
    ([CDKStack.template.json] in process, [<stack_logical_id>.template.json]
    out of process); hence false for a manifest with no assets at all. *)
Theorem only_asset_is_template_classification
    (a : AssetManifestArtifact) (manifest : json) (id : string)
    (fls imgs : gmap string json)
    (Hfiles : file_assets manifest = Some fls)
    (Himages : image_assets manifest = Some imgs) :
  classifies (BootstrappedCdkBuilder._only_asset_is_template a)
    (manifest_files (contents a)) (docker_images (contents a))
    (CdkBuilder.STACK_LOGICAL_ID +:+ ".template.json") ∧
  ∃ b, NonPythonCdkBuilder._only_asset_is_template manifest id = Ok b ∧
       classifies b fls imgs (id +:+ ".template.json").
Proof.
  split.
  - repeat split.
    + apply Bootstrapped_only_asset_is_template_images.
    + by apply Bootstrapped_only_asset_is_template_files.
    + by apply Bootstrapped_only_asset_is_template_files.
    + intros Hi Hf.
      destruct (BootstrappedCdkBuilder._only_asset_is_template a) eqn:E; [|done].
      apply Bootstrapped_only_asset_is_template_files in E; [|done].
      rewrite Hf, dom_empty_L in E. set_solver.
  - eexists. split; [by apply NonPython_only_asset_is_template_run|].
    repeat split.
    + intros Hi. by rewrite bool_decide_eq_false_2.
    + rewrite bool_decide_eq_true_2 by done.
      rewrite bool_decide_eq_true. apply keys_singleton.
    + rewrite bool_decide_eq_true_2 by done.
      rewrite bool_decide_eq_true. apply keys_singleton.
    + intros -> ->. rewrite bool_decide_eq_true_2 by done.
      by rewrite keys_empty.
Qed.

Lemma only_asset_is_template_classification_witness :
  file_assets (Demo.manifest_doc Demo.template_only ∅) = Some Demo.template_only ∧
  image_assets (Demo.manifest_doc Demo.template_only ∅) = Some ∅ ∧
  classifies (BootstrappedCdkBuilder._only_asset_is_template (Demo.artifact Demo.with_zip))
    Demo.with_zip ∅ "CDKStack.template.json" ∧
  ∃ b, NonPythonCdkBuilder._only_asset_is_template
         (Demo.manifest_doc Demo.template_only ∅) "CDKStack" = Ok b ∧
       classifies b Demo.template_only ∅ "CDKStack.template.json".
Proof.
  split; [reflexivity|]. split; [reflexivity|].
  apply (only_asset_is_template_classification
           (Demo.artifact Demo.with_zip)
           (Demo.manifest_doc Demo.template_only ∅) "CDKStack"
           Demo.template_only ∅); reflexivity.
Defined.

(** ** Deriving the credential environment *)

Lemma session_credentials_run (cm : ConnectionManager) (c : Credentials) (w : world) :
  resolves cm c → session_credentials cm w = (Ok c, w).
Proof.
  intros (session & Hs & Hc). unfold session_credentials, lift.
  rewrite bind_run, Hs. rewrite bind_run, Hc. reflexivity.
Qed.

(** However credential resolution ends, [session_credentials] leaves the
    world as it is. *)
Lemma session_credentials_world (cm : ConnectionManager) (w : world) :
  (session_credentials cm w).2 = w.
Proof.
  unfold session_credentials, lift. rewrite bind_run.
  destruct (_get_session cm _ _ _) as [session|e]; [|reflexivity].
  rewrite bind_run. destruct (get_credentials session) as [[c|]|e]; reflexivity.
Qed.

Lemma envs_after_holds (ambient : gmap string string) (cm : ConnectionManager)
    (c : Credentials) :
  credential_environment (envs_after ambient cm c) (region cm) c.
Proof.
  unfold credential_environment, envs_after.
  destruct (token c) as [tok|]; repeat split; by simplify_map_eq.
Qed.

(** The two [_get_envs] have the same text; so have the proofs. *)
Ltac get_envs_start :=
  rewrite bind_run; unfold dict_copy at 1; cbv beta zeta;
  rewrite bind_run; unfold dict_pop at 1, modify at 1;
  rewrite bind_run.

Ltac get_envs_finish c :=
  rewrite bind_run; unfold dict_update at 1, modify at 1;
  destruct (token c); rewrite bind_run;
  unfold dict_setitem, dict_pop, modify, mret, M_ret, set_heap; simpl;
  rewrite !alter_insert_eq.

Ltac get_envs_frame cm env w :=
  get_envs_start;
  let Hw := fresh "Hw" in
  pose proof (session_credentials_world cm
                (set_heap (alter (delete "AWS_PROFILE") (fresh (dom (heap w))))
                   (set_heap (insert (fresh (dom (heap w)))
                      (default ∅ (heap w !! env))) w))) as Hw;
  let c := fresh "c" in
  let w1 := fresh "w" in
  destruct (session_credentials _ _) as [[c|?] w1]; simpl in Hw; subst w1;
  [ get_envs_finish c; do 2 eexists; (split; [reflexivity|]);
    let Heq := fresh "Heq" in intros ? [= Heq]; by rewrite <- Heq
  | unfold set_heap; simpl; rewrite alter_insert_eq;
    do 2 eexists; split; [reflexivity|]; intros ? [=] ].

Section get_envs.
Context `{AwsCdk}.

Lemma Bootstrapped_get_envs_run (self : BootstrappedCdkBuilder.t) (c : Credentials)
    (w : world) :
  resolves (BootstrappedCdkBuilder._connection_manager self) c →
  BootstrappedCdkBuilder._get_envs self w =
  (Ok (fresh (dom (heap w))),
   set_heap (insert (fresh (dom (heap w)))
               (envs_after (deref w (BootstrappedCdkBuilder._environment_variables self))
                  (BootstrappedCdkBuilder._connection_manager self) c)) w).
Proof.
  intros Hc. unfold BootstrappedCdkBuilder._get_envs.
  get_envs_start. rewrite (session_credentials_run _ c) by done.
  unfold envs_after, deref. get_envs_finish c; reflexivity.
Qed.

(** On every path [_get_envs] only adds one dictionary, at a fresh
    reference, and gives that reference when it returns. *)
Lemma Bootstrapped_get_envs_frame (self : BootstrappedCdkBuilder.t) (w : world) :
  ∃ d r, BootstrappedCdkBuilder._get_envs self w =
         (r, set_heap (insert (fresh (dom (heap w))) d) w) ∧
         ∀ envs, r = Ok envs → envs = fresh (dom (heap w)).
Proof.
  unfold BootstrappedCdkBuilder._get_envs.
  get_envs_frame (BootstrappedCdkBuilder._connection_manager self)
                 (BootstrappedCdkBuilder._environment_variables self) w.
Qed.

End get_envs.

Lemma NonPython_get_envs_run (self : NonPythonCdkBuilder.t) (c : Credentials)
    (w : world) :
  resolves (NonPythonCdkBuilder._connection_manager self) c →
  NonPythonCdkBuilder._get_envs self w =
  (Ok (fresh (dom (heap w))),
   set_heap (insert (fresh (dom (heap w)))
               (envs_after (deref w (NonPythonCdkBuilder._environment_variables self))
                  (NonPythonCdkBuilder._connection_manager self) c)) w).
Proof.
  intros Hc. unfold NonPythonCdkBuilder._get_envs.
  get_envs_start. rewrite (session_credentials_run _ c) by done.
  unfold envs_after, deref. get_envs_finish c; reflexivity.
Qed.

Lemma NonPython_get_envs_frame (self : NonPythonCdkBuilder.t) (w : world) :
  ∃ d r, NonPythonCdkBuilder._get_envs self w =
         (r, set_heap (insert (fresh (dom (heap w))) d) w) ∧
         ∀ envs, r = Ok envs → envs = fresh (dom (heap w)).
Proof.
  unfold NonPythonCdkBuilder._get_envs.
  get_envs_frame (NonPythonCdkBuilder._connection_manager self)
                 (NonPythonCdkBuilder._environment_variables self) w.
Qed.

Lemma deref_set_heap_insert (w : world) (l : loc) (d : gmap string string) :
  deref (set_heap (insert l d) w) l = d.
Proof. unfold deref, set_heap. simpl. by rewrite lookup_insert_eq. Qed.

Lemma fresh_ref_ne (w : world) (l : loc) :
  is_Some (heap w !! l) → fresh (dom (heap w)) ≠ l.
Proof.
  intros Hl Heq. apply elem_of_dom in Hl. rewrite <- Heq in Hl.
  by apply is_fresh in Hl.
Qed.

(** C2.  For every world (hence every ambient mapping) and every connection
    manager that resolves to credentials, [_get_envs] of either builder
    returns a mapping without [AWS_PROFILE], with the access key and the
    secret key of the credentials, with the three region variables equal to
    the region, and with [AWS_SESSION_TOKEN] bound exactly when the
    credentials have a token, and then to that token. *)
Theorem get_envs_credential_environment `{AwsCdk}
    (b : BootstrappedCdkBuilder.t) (n : NonPythonCdkBuilder.t)
    (cb cn : Credentials) (w : world)
    (Hb : resolves (BootstrappedCdkBuilder._connection_manager b) cb)
    (Hn : resolves (NonPythonCdkBuilder._connection_manager n) cn) :
  (∃ envs w', BootstrappedCdkBuilder._get_envs b w = (Ok envs, w') ∧
     credential_environment (deref w' envs)
       (region (BootstrappedCdkBuilder._connection_manager b)) cb) ∧
  (∃ envs w', NonPythonCdkBuilder._get_envs n w = (Ok envs, w') ∧
     credential_environment (deref w' envs)
       (region (NonPythonCdkBuilder._connection_manager n)) cn).
Proof.
  split; do 2 eexists.
  - split; [by apply Bootstrapped_get_envs_run|].
    rewrite deref_set_heap_insert. apply envs_after_holds.
  - split; [by apply NonPython_get_envs_run|].
    rewrite deref_set_heap_insert. apply envs_after_holds.
Qed.

Lemma get_envs_credential_environment_witness :
  resolves (Demo.connection_manager Demo.credentials) Demo.credentials ∧
  resolves (Demo.connection_manager Demo.token_credentials) Demo.token_credentials ∧
  (∃ envs w',
     BootstrappedCdkBuilder._get_envs
       (Demo.bootstrapped Demo.credentials (subprocess_run (Demo.exits_with 0)))
       Demo.world0 = (Ok envs, w') ∧
     credential_environment (deref w' envs) "eu-west-1" Demo.credentials) ∧
  (∃ envs w',
     NonPythonCdkBuilder._get_envs
       (Demo.non_python Demo.token_credentials (subprocess_run (Demo.exits_with 0)))
       Demo.world0 = (Ok envs, w') ∧
     credential_environment (deref w' envs) "eu-west-1" Demo.token_credentials).
Proof.
  assert (∀ c, resolves (Demo.connection_manager c) c) as Hr.
  { intros c. eexists. split; reflexivity. }
  split; [apply Hr|]. split; [apply Hr|].
  apply (get_envs_credential_environment (H := Demo.cdk)
           (Demo.bootstrapped Demo.credentials (subprocess_run (Demo.exits_with 0)))
           (Demo.non_python Demo.token_credentials (subprocess_run (Demo.exits_with 0)))
           Demo.credentials Demo.token_credentials Demo.world0); apply Hr.
Defined.

(** C9.  [_get_envs] works on a copy: whatever it returns or raises, every
    dictionary that was on the heap before, the ambient mapping among them,
    has the same items afterwards, and the reference it returns is not the
    reference of the ambient mapping. *)
Theorem get_envs_leaves_ambient_unchanged `{AwsCdk}
    (b : BootstrappedCdkBuilder.t) (n : NonPythonCdkBuilder.t) (w : world)
    (Hb : is_Some (heap w !! BootstrappedCdkBuilder._environment_variables b))
    (Hn : is_Some (heap w !! NonPythonCdkBuilder._environment_variables n)) :
  (∀ r w', BootstrappedCdkBuilder._get_envs b w = (r, w') →
     heap w' !! BootstrappedCdkBuilder._environment_variables b =
       heap w !! BootstrappedCdkBuilder._environment_variables b ∧
     (∀ l, is_Some (heap w !! l) → heap w' !! l = heap w !! l) ∧
     (∀ envs, r = Ok envs → envs ≠ BootstrappedCdkBuilder._environment_variables b)) ∧
  (∀ r w', NonPythonCdkBuilder._get_envs n w = (r, w') →
     heap w' !! NonPythonCdkBuilder._environment_variables n =
       heap w !! NonPythonCdkBuilder._environment_variables n ∧
     (∀ l, is_Some (heap w !! l) → heap w' !! l = heap w !! l) ∧
     (∀ envs, r = Ok envs → envs ≠ NonPythonCdkBuilder._environment_variables n)).
Proof.
  assert (∀ d l, is_Some (heap w !! l) →
            heap (set_heap (insert (fresh (dom (heap w))) d) w) !! l = heap w !! l)
    as Hframe.
  { intros d l Hl. unfold set_heap. simpl.
    apply lookup_insert_ne. by apply fresh_ref_ne. }
  split; intros r w' Hrun.
  - destruct (Bootstrapped_get_envs_frame b w) as (d & r0 & Hrun0 & Hret).
    rewrite Hrun0 in Hrun. injection Hrun as <- <-.
    split; [by apply Hframe|]. split; [by apply Hframe|].
    intros envs ->%Hret. by apply fresh_ref_ne.
  - destruct (NonPython_get_envs_frame n w) as (d & r0 & Hrun0 & Hret).
    rewrite Hrun0 in Hrun. injection Hrun as <- <-.
    split; [by apply Hframe|]. split; [by apply Hframe|].
    intros envs ->%Hret. by apply fresh_ref_ne.
Qed.

Lemma get_envs_leaves_ambient_unchanged_witness :
  is_Some (heap Demo.world0 !! 0) ∧
  ∀ r w',
    NonPythonCdkBuilder._get_envs
      (Demo.non_python Demo.credentials (subprocess_run (Demo.exits_with 0)))
      Demo.world0 = (r, w') →
    heap w' !! 0 = heap Demo.world0 !! 0 ∧
    (∀ l, is_Some (heap Demo.world0 !! l) → heap w' !! l = heap Demo.world0 !! l) ∧
    (∀ envs, r = Ok envs → envs ≠ 0).
Proof.
  assert (is_Some (heap Demo.world0 !! 0)) as Hs.
  { exists Demo.ambient. reflexivity. }
  split; [exact Hs|].
  apply (get_envs_leaves_ambient_unchanged (H := Demo.cdk)
           (Demo.bootstrapped Demo.credentials (subprocess_run (Demo.exits_with 0)))
           (Demo.non_python Demo.credentials (subprocess_run (Demo.exits_with 0)))
           Demo.world0 Hs Hs).
Defined.

(** C10.  The two [_get_envs] agree: for builders with the same connection
    manager and the same ambient mapping they give the same result and leave
    the same world, so the mappings they return are equal. *)
Theorem get_envs_equivalent `{AwsCdk}
    (b : BootstrappedCdkBuilder.t) (n : NonPythonCdkBuilder.t) (w : world)
    (Hcm : BootstrappedCdkBuilder._connection_manager b =
           NonPythonCdkBuilder._connection_manager n)
    (Henv : BootstrappedCdkBuilder._environment_variables b =
            NonPythonCdkBuilder._environment_variables n) :
  BootstrappedCdkBuilder._get_envs b w = NonPythonCdkBuilder._get_envs n w ∧
  ∀ eb wb en wn,
    BootstrappedCdkBuilder._get_envs b w = (Ok eb, wb) →
    NonPythonCdkBuilder._get_envs n w = (Ok en, wn) →
    deref wb eb = deref wn en.
Proof.
  assert (BootstrappedCdkBuilder._get_envs b w = NonPythonCdkBuilder._get_envs n w)
    as Heq.
  { unfold BootstrappedCdkBuilder._get_envs, NonPythonCdkBuilder._get_envs.
    rewrite Hcm, Henv. reflexivity. }
  split; [exact Heq|].
  intros eb wb en wn Hb Hn. rewrite Heq, Hn in Hb. by injection Hb as -> ->.
Qed.

Lemma get_envs_equivalent_witness :
  let b := Demo.bootstrapped Demo.token_credentials (subprocess_run (Demo.exits_with 0)) in
  let n := Demo.non_python Demo.token_credentials (subprocess_run (Demo.exits_with 1)) in
  BootstrappedCdkBuilder._connection_manager b = NonPythonCdkBuilder._connection_manager n ∧
  BootstrappedCdkBuilder._environment_variables b =
    NonPythonCdkBuilder._environment_variables n ∧
  BootstrappedCdkBuilder._get_envs b Demo.world0 = NonPythonCdkBuilder._get_envs n Demo.world0.
Proof.
  intros b n. split; [reflexivity|]. split; [reflexivity|].
  apply (get_envs_equivalent (H := Demo.cdk) b n Demo.world0); reflexivity.
Defined.

(** ** The publish step *)

Lemma call_subprocess_run_trace (run : runner) (c : proc_call) (w : world) :
  trace (call_subprocess_run run c w).2 = (trace w ++ [Run c])%list.
Proof.
  unfold call_subprocess_run. cbv zeta.
  destruct (run c (fs (add_event (Run c) w))) as [r f]. reflexivity.
Qed.

Lemma deref_add_event (e : event) (w : world) (l : loc) :
  deref (add_event e w) l = deref w l.
Proof. reflexivity. Qed.

Lemma trace_add_event (e : event) (w : world) :
  trace (add_event e w) = (trace w ++ [e])%list.
Proof. reflexivity. Qed.

Lemma runs_add_log (lv : log_level) (msg : string) (w : world) :
  runs (trace (add_event (Log lv msg) w)) = runs (trace w).
Proof. rewrite trace_add_event, runs_app. cbn [runs]. apply app_nil_r. Qed.

Section publish.
Context `{AwsCdk}.

Lemma Bootstrapped_publish_skip (self : BootstrappedCdkBuilder.t) (ca : CloudAssembly)
    (a : AssetManifestArtifact) (w : world) :
  BootstrappedCdkBuilder.first_asset_manifest (artifacts ca) = Some a →
  BootstrappedCdkBuilder._only_asset_is_template a = true →
  BootstrappedCdkBuilder._publish self ca w =
  (Ok tt, add_event (Log DEBUG "Only asset is template; Skipping asset upload.") w).
Proof.
  intros Ha Ho. unfold BootstrappedCdkBuilder._publish.
  rewrite bind_run. unfold BootstrappedCdkBuilder._get_assets_manifest.
  rewrite Ha. unfold mret at 1, M_ret at 1. rewrite Ho. reflexivity.
Qed.

Lemma Bootstrapped_publish_trace (self : BootstrappedCdkBuilder.t) (ca : CloudAssembly)
    (a : AssetManifestArtifact) (c : Credentials) (w : world) :
  BootstrappedCdkBuilder.first_asset_manifest (artifacts ca) = Some a →
  BootstrappedCdkBuilder._only_asset_is_template a = false →
  resolves (BootstrappedCdkBuilder._connection_manager self) c →
  trace (BootstrappedCdkBuilder._publish self ca w).2 =
  (trace w ++
   [Log INFO "Publishing CDK assets";
    Log DEBUG ("Assets manifest file: " +:+ file a);
    Run (publish_call (file a)
           (envs_after (deref w (BootstrappedCdkBuilder._environment_variables self))
              (BootstrappedCdkBuilder._connection_manager self) c))])%list.
Proof.
  intros Ha Ho Hc. unfold BootstrappedCdkBuilder._publish.
  rewrite bind_run. unfold BootstrappedCdkBuilder._get_assets_manifest.
  rewrite Ha. unfold mret at 1, M_ret at 1. rewrite Ho.
  rewrite bind_run, (Bootstrapped_get_envs_run self c w Hc).
  rewrite bind_run. unfold logger_info at 1, modify at 1.
  rewrite bind_run. unfold logger_debug at 1, modify at 1.
  rewrite bind_run. unfold BootstrappedCdkBuilder._run_command.
  rewrite bind_run. unfold get_world at 1.
  match goal with
  | |- context [call_subprocess_run ?r ?c ?w0] =>
      pose proof (call_subprocess_run_trace r c w0) as Ht;
      destruct (call_subprocess_run r c w0) as [[cp|e] w1]
  end; cbn [snd] in Ht; unfold mret, M_ret; cbn [snd]; rewrite Ht;
    rewrite !deref_add_event, deref_set_heap_insert, !trace_add_event;
    rewrite <- !app_assoc; reflexivity.
Qed.

End publish.

Lemma Bootstrapped_get_assets_manifest_inv (ca : CloudAssembly)
    (a : AssetManifestArtifact) (w w' : world) :
  BootstrappedCdkBuilder._get_assets_manifest ca w = (Ok a, w') →
  BootstrappedCdkBuilder.first_asset_manifest (artifacts ca) = Some a.
Proof.
  unfold BootstrappedCdkBuilder._get_assets_manifest.
  destruct (BootstrappedCdkBuilder.first_asset_manifest (artifacts ca)); [|done].
  by intros [= -> _].
Qed.

Lemma NonPython_get_assets_manifest_run (path : Path) (manifest : json) (w : world) :
  files (fs w) !! path = Some (Some manifest) →
  NonPythonCdkBuilder._get_assets_manifest path w = (Ok manifest, w).
Proof.
  intros Hm. unfold NonPythonCdkBuilder._get_assets_manifest.
  rewrite bind_run. unfold get_world at 1. unfold path_exists.
  rewrite Hm, bool_decide_eq_true_2 by eauto. cbn [orb negb].
  rewrite bind_run. unfold open_json_load. rewrite Hm. reflexivity.
Qed.

Lemma NonPython_publish_skip (self : NonPythonCdkBuilder.t) (path : Path)
    (id : string) (manifest : json) (w : world) :
  files (fs w) !! path = Some (Some manifest) →
  NonPythonCdkBuilder._only_asset_is_template manifest id = Ok true →
  NonPythonCdkBuilder._publish self path id w =
  (Ok tt, add_event (Log DEBUG "Only asset is template; Skipping asset upload.") w).
Proof.
  intros Hm Ho. unfold NonPythonCdkBuilder._publish.
  rewrite bind_run, (NonPython_get_assets_manifest_run path manifest w Hm).
  rewrite bind_run. unfold lift at 1. rewrite Ho. reflexivity.
Qed.

Lemma NonPython_publish_trace (self : NonPythonCdkBuilder.t) (path : Path)
    (id : string) (manifest : json) (c : Credentials) (w : world) :
  files (fs w) !! path = Some (Some manifest) →
  NonPythonCdkBuilder._only_asset_is_template manifest id = Ok false →
  resolves (NonPythonCdkBuilder._connection_manager self) c →
  trace (NonPythonCdkBuilder._publish self path id w).2 =
  (trace w ++
   [Log INFO "Publishing CDK assets";
    Log DEBUG ("Assets manifest file: " +:+ Path_str path);
    Run (publish_call (Path_str path)
           (envs_after (deref w (NonPythonCdkBuilder._environment_variables self))
              (NonPythonCdkBuilder._connection_manager self) c))])%list.
Proof.
  intros Hm Ho Hc. unfold NonPythonCdkBuilder._publish.
  rewrite bind_run, (NonPython_get_assets_manifest_run path manifest w Hm).
  rewrite bind_run. unfold lift at 1. rewrite Ho.
  rewrite bind_run, (NonPython_get_envs_run self c w Hc).
  rewrite bind_run. unfold logger_info at 1, modify at 1.
  rewrite bind_run. unfold logger_debug at 1, modify at 1.
  rewrite bind_run. unfold get_world at 1.
  rewrite bind_run.
  match goal with
  | |- context [call_subprocess_run ?r ?c ?w0] =>
      pose proof (call_subprocess_run_trace r c w0) as Ht;
      destruct (call_subprocess_run r c w0) as [[cp|e] w1]
  end; cbn [snd] in Ht; unfold mret, M_ret; cbn [snd]; rewrite Ht;
    rewrite !deref_add_event, deref_set_heap_insert, !trace_add_event;
    rewrite <- !app_assoc; reflexivity.
Qed.

(** C3.  The publish step of either builder, taken on its own.  In process,
    for an assembly with an asset manifest; out of process, for a manifest
    file that can be read and classified: when the manifest is only-template
    the step returns without a call of [subprocess_run]; otherwise, with
    credentials that resolve, it makes exactly one call, the publish command
    on the path of the manifest, with the environment that [_get_envs]
    derives at that moment. *)
Theorem publish_runs_publish_command_once `{AwsCdk}
    (b : BootstrappedCdkBuilder.t) (n : NonPythonCdkBuilder.t) :
  (∀ (ca : CloudAssembly) (a : AssetManifestArtifact) (w : world),
     BootstrappedCdkBuilder._get_assets_manifest ca w = (Ok a, w) →
     (BootstrappedCdkBuilder._only_asset_is_template a = true →
      (BootstrappedCdkBuilder._publish b ca w).1 = Ok tt ∧
      runs (trace (BootstrappedCdkBuilder._publish b ca w).2) = runs (trace w)) ∧
     (BootstrappedCdkBuilder._only_asset_is_template a = false →
      ∀ c, resolves (BootstrappedCdkBuilder._connection_manager b) c →
      ∃ envs w1,
        BootstrappedCdkBuilder._get_envs b w = (Ok envs, w1) ∧
        runs (trace (BootstrappedCdkBuilder._publish b ca w).2) =
        (runs (trace w) ++ [publish_call (file a) (deref w1 envs)])%list)) ∧
  (∀ (path : Path) (id : string) (manifest : json) (w : world),
     files (fs w) !! path = Some (Some manifest) →
     (NonPythonCdkBuilder._only_asset_is_template manifest id = Ok true →
      (NonPythonCdkBuilder._publish n path id w).1 = Ok tt ∧
      runs (trace (NonPythonCdkBuilder._publish n path id w).2) = runs (trace w)) ∧
     (NonPythonCdkBuilder._only_asset_is_template manifest id = Ok false →
      ∀ c, resolves (NonPythonCdkBuilder._connection_manager n) c →
      ∃ envs w1,
        NonPythonCdkBuilder._get_envs n w = (Ok envs, w1) ∧
        runs (trace (NonPythonCdkBuilder._publish n path id w).2) =
        (runs (trace w) ++ [publish_call (Path_str path) (deref w1 envs)])%list)).
Proof.
  split.
  - intros ca a w Ha. apply Bootstrapped_get_assets_manifest_inv in Ha. split.
    + intros E. rewrite (Bootstrapped_publish_skip b ca a w Ha E). cbn [fst snd].
      split; [reflexivity|].
      rewrite trace_add_event, runs_app. cbn [runs]. by rewrite app_nil_r.
    + intros E c Hc. do 2 eexists. split; [by apply Bootstrapped_get_envs_run|].
      rewrite (Bootstrapped_publish_trace b ca a c w Ha E Hc).
      rewrite runs_app, deref_set_heap_insert. reflexivity.
  - intros path id manifest w Hm. split.
    + intros Ho. rewrite (NonPython_publish_skip n path id manifest w Hm Ho).
      cbn [fst snd]. split; [reflexivity|].
      rewrite trace_add_event, runs_app. cbn [runs]. by rewrite app_nil_r.
    + intros Ho c Hc. do 2 eexists. split; [by apply NonPython_get_envs_run|].
      rewrite (NonPython_publish_trace n path id manifest c w Hm Ho Hc).
      rewrite runs_app, deref_set_heap_insert. reflexivity.
Qed.

Lemma publish_runs_publish_command_once_witness :
  let b := Demo.bootstrapped Demo.credentials (subprocess_run (Demo.exits_with 0)) in
  let n := Demo.non_python Demo.token_credentials (subprocess_run (Demo.exits_with 0)) in
  let w := Demo.world_with_manifest Demo.with_zip in
  ((BootstrappedCdkBuilder._publish b (Demo.assembly Demo.template_only) Demo.world0).1 =
     Ok tt ∧
   runs (trace (BootstrappedCdkBuilder._publish b (Demo.assembly Demo.template_only)
                  Demo.world0).2) = runs (trace Demo.world0)) ∧
  (∃ envs w1,
     BootstrappedCdkBuilder._get_envs b Demo.world0 = (Ok envs, w1) ∧
     runs (trace (BootstrappedCdkBuilder._publish b (Demo.assembly Demo.with_zip)
                    Demo.world0).2) =
     (runs (trace Demo.world0) ++
      [publish_call (file (Demo.artifact Demo.with_zip)) (deref w1 envs)])%list) ∧
  (∃ envs w1,
     NonPythonCdkBuilder._get_envs n w = (Ok envs, w1) ∧
     runs (trace (NonPythonCdkBuilder._publish n Demo.assets_path "CDKStack" w).2) =
     (runs (trace w) ++ [publish_call (Path_str Demo.assets_path) (deref w1 envs)])%list).
Proof.
  intros b n w.
  assert (∀ c, resolves (Demo.connection_manager c) c) as Hr.
  { intros c. eexists. split; reflexivity. }
  pose proof (publish_runs_publish_command_once (H := Demo.cdk) b n) as [Hb Hn].
  split; [|split].
  - apply (proj1 (Hb (Demo.assembly Demo.template_only) (Demo.artifact Demo.template_only)
                    Demo.world0 eq_refl)).
    vm_compute. reflexivity.
  - apply (proj2 (Hb (Demo.assembly Demo.with_zip) (Demo.artifact Demo.with_zip)
                    Demo.world0 eq_refl)) with Demo.credentials.
    + vm_compute. reflexivity.
    + apply Hr.
  - assert (files (fs w) !! Demo.assets_path = Some (Some (Demo.manifest_doc Demo.with_zip ∅)))
      as Hm by (vm_compute; reflexivity).
    apply (proj2 (Hn Demo.assets_path "CDKStack" (Demo.manifest_doc Demo.with_zip ∅) w Hm))
      with Demo.token_credentials.
    + vm_compute. reflexivity.
    + apply Hr.
Defined.

(** ** The order of the steps *)

Lemma bind_mret {A} (m : M A) (w : world) : (m ≫= mret) w = m w.
Proof. rewrite bind_run. by destruct (m w) as [[a|e] w']. Qed.

Lemma pipeline_of_binds {A T} (synthesize : M A) (publish : A → M unit)
    (extract : A → M T) (build : M T) :
  (∀ w, build w = (synthesize ≫= λ a, publish a ≫= λ _, extract a) w) →
  pipeline synthesize publish extract build.
Proof.
  intros Hb w. rewrite Hb, bind_run.
  destruct (synthesize w) as [[a|e] w1] eqn:Es.
  - rewrite bind_run. destruct (publish a w1) as [[[]|e] w2] eqn:Ep.
    + split_and!.
      * intros e w1' [=].
      * intros a' w1' e w2' [= <- <-]. rewrite Ep. intros [=].
      * intros a' w1' w2' [= <- <-]. rewrite Ep. by intros [= <-].
      * intros t. split.
        -- intros Ht. by exists a, w1, w2.
        -- intros (a' & w1' & w2' & [= <- <-] & Hp & Ht). rewrite Ep in Hp.
           by injection Hp as <-.
    + split_and!.
      * intros e' w1' [=].
      * intros a' w1' e' w2' [= <- <-]. rewrite Ep. by intros [= <- <-].
      * intros a' w1' w2' [= <- <-]. rewrite Ep. intros [=].
      * intros t. split; [intros [=]|].
        intros (a' & w1' & w2' & [= <- <-] & Hp & _). by rewrite Ep in Hp.
  - split_and!.
    + by intros e' w1' [= <- <-].
    + intros a' w1' e' w2' [=].
    + intros a' w1' w2' [=].
    + intros t. split; [intros [=]|].
      intros (a' & w1' & w2' & [=] & _).
Qed.

(** C4.  [build_template] of each of the three builders runs synthesize,
    publish-if-needed and extract-template in that order; it returns the
    extracted template exactly when all three return, and an exception of any
    step is its outcome, unchanged, with no template.  For the out-of-process
    builder the steps are the body of the [with] statement, whose outcome is
    the outcome of [build_template]. *)
Theorem build_template_runs_steps_in_order `{AwsCdk}
    (b : BootstrappedCdkBuilder.t) (bl : BootstraplessCdkBuilder.t)
    (stack_class : StackClass) (cdk_context : CdkContext) (sceptre_user_data : UserData)
    (resolve : Path → Path) (n : NonPythonCdkBuilder.t) (cdk_json_path : Path)
    (context : list (string * string)) (stack_logical_id : string) :
  pipeline
    (BootstrappedCdkBuilder._synthesize b stack_class cdk_context sceptre_user_data)
    (BootstrappedCdkBuilder._publish b)
    BootstrappedCdkBuilder._get_template
    (BootstrappedCdkBuilder.build_template b stack_class cdk_context sceptre_user_data) ∧
  pipeline
    (BootstraplessCdkBuilder._synthesize bl stack_class cdk_context sceptre_user_data)
    (BootstrappedCdkBuilder._publish (BootstraplessCdkBuilder.base bl))
    BootstrappedCdkBuilder._get_template
    (BootstraplessCdkBuilder.build_template bl stack_class cdk_context sceptre_user_data) ∧
  (∀ output_dir,
     pipeline
       (NonPythonCdkBuilder._synthesize resolve n cdk_json_path output_dir context
          stack_logical_id)
       (λ _, NonPythonCdkBuilder._publish n
               (Path_of output_dir (stack_logical_id +:+ ".assets.json")) stack_logical_id)
       (λ _, NonPythonCdkBuilder._get_template
               (Path_of output_dir (stack_logical_id +:+ ".template.json")))
       (NonPythonCdkBuilder.build_in resolve n cdk_json_path context stack_logical_id
          output_dir)) ∧
  (∀ w,
     (NonPythonCdkBuilder.build_template resolve n cdk_json_path context
        stack_logical_id w).1 =
     (NonPythonCdkBuilder.build_in resolve n cdk_json_path context stack_logical_id
        (tmp_name (tmp_count w)) (TemporaryDirectory_enter w).2).1).
Proof.
  split_and!; [| |intros output_dir|].
  1-3: apply pipeline_of_binds; intros w.
  - unfold BootstrappedCdkBuilder.build_template,
      BootstrappedCdkBuilder.build_template_with.
    rewrite !bind_run. destruct (BootstrappedCdkBuilder._synthesize _ _ _ _ w)
      as [[a|e] w1]; [|done].
    rewrite !bind_run. destruct (BootstrappedCdkBuilder._publish _ _ w1)
      as [[[]|e] w2]; [|done].
    apply bind_mret.
  - unfold BootstraplessCdkBuilder.build_template,
      BootstrappedCdkBuilder.build_template_with.
    rewrite !bind_run. destruct (BootstraplessCdkBuilder._synthesize _ _ _ _ w)
      as [[a|e] w1]; [|done].
    rewrite !bind_run. destruct (BootstrappedCdkBuilder._publish _ _ w1)
      as [[[]|e] w2]; [|done].
    apply bind_mret.
  - unfold NonPythonCdkBuilder.build_in.
    rewrite !bind_run. destruct (NonPythonCdkBuilder._synthesize _ _ _ _ _ _ w)
      as [[a|e] w1]; [|done].
    rewrite !bind_run. destruct (NonPythonCdkBuilder._publish _ _ _ w1)
      as [[[]|e] w2]; [|done].
    apply bind_mret.
  - intros w. unfold NonPythonCdkBuilder.build_template, with_TemporaryDirectory.
    unfold TemporaryDirectory_enter at 1. cbv zeta. cbn [snd].
    unfold TemporaryDirectory_enter.
    by destruct (NonPythonCdkBuilder.build_in _ _ _ _ _ _ _) as [r w2].
Qed.

(** ** A missing asset manifest *)

Lemma first_asset_manifest_None (l : list CloudArtifact) :
  (∀ a, IsAssetManifestArtifact a ∉ l) →
  BootstrappedCdkBuilder.first_asset_manifest l = None.
Proof.
  induction l as [|x l IH]; intros Hl; [reflexivity|].
  destruct x as [a|s|id]; simpl.
  - destruct (Hl a). left.
  - apply IH. intros a Ha. apply (Hl a). by right.
  - apply IH. intros a Ha. apply (Hl a). by right.
Qed.

Section missing_manifest.
Context `{AwsCdk}.

Lemma Bootstrapped_publish_without_manifest (self : BootstrappedCdkBuilder.t)
    (ca : CloudAssembly) (w : world) :
  (∀ a, IsAssetManifestArtifact a ∉ artifacts ca) →
  BootstrappedCdkBuilder._publish self ca w =
  (Raise (SceptreException "CDK Asset manifest artifact not found"), w).
Proof.
  intros Hca. unfold BootstrappedCdkBuilder._publish.
  rewrite bind_run. unfold BootstrappedCdkBuilder._get_assets_manifest.
  by rewrite first_asset_manifest_None.
Qed.

Lemma build_template_with_without_manifest (synthesize : M CloudAssembly)
    (self : BootstrappedCdkBuilder.t) (ca : CloudAssembly) (w w1 : world) :
  synthesize w = (Ok ca, w1) →
  (∀ a, IsAssetManifestArtifact a ∉ artifacts ca) →
  BootstrappedCdkBuilder.build_template_with synthesize self w =
  (Raise (SceptreException "CDK Asset manifest artifact not found"), w1).
Proof.
  intros Hs Hca. unfold BootstrappedCdkBuilder.build_template_with.
  rewrite bind_run, Hs, bind_run.
  by rewrite Bootstrapped_publish_without_manifest.
Qed.

End missing_manifest.

Lemma NonPython_publish_without_manifest (self : NonPythonCdkBuilder.t)
    (path : Path) (id : string) (w : world) :
  path_exists (fs w) path = false →
  NonPythonCdkBuilder._publish self path id w =
  (Raise (SceptreException "CDK Asset manifest artifact not found"), w).
Proof.
  intros Hp. unfold NonPythonCdkBuilder._publish.
  rewrite bind_run. unfold NonPythonCdkBuilder._get_assets_manifest.
  rewrite bind_run. unfold get_world at 1. by rewrite Hp.
Qed.

(** C5.  When synthesis returns but the asset manifest is missing, the build
    raises [SceptreException]; each builder on its own.  In process,
    bootstrapped or bootstrapless: when no artifact of the cloud assembly is
    an asset-manifest artifact.  Out of process: when the path
    [Path(output_dir, "<stack_logical_id>.assets.json")] does not exist after
    the synthesis command; for an identifier without a slash that path is
    the file [<stack_logical_id>.assets.json] in the output directory. *)
Theorem build_raises_without_asset_manifest `{AwsCdk} :
  (∀ (b : BootstrappedCdkBuilder.t) (stack_class : StackClass) (cdk_context : CdkContext)
     (sceptre_user_data : UserData) (ca : CloudAssembly) (w w1 : world),
     BootstrappedCdkBuilder._synthesize b stack_class cdk_context sceptre_user_data w =
       (Ok ca, w1) →
     (∀ a, IsAssetManifestArtifact a ∉ artifacts ca) →
     BootstrappedCdkBuilder.build_template b stack_class cdk_context sceptre_user_data w =
       (Raise (SceptreException "CDK Asset manifest artifact not found"), w1)) ∧
  (∀ (bl : BootstraplessCdkBuilder.t) (stack_class : StackClass) (cdk_context : CdkContext)
     (sceptre_user_data : UserData) (ca : CloudAssembly) (w w1 : world),
     BootstraplessCdkBuilder._synthesize bl stack_class cdk_context sceptre_user_data w =
       (Ok ca, w1) →
     (∀ a, IsAssetManifestArtifact a ∉ artifacts ca) →
     BootstraplessCdkBuilder.build_template bl stack_class cdk_context sceptre_user_data w =
       (Raise (SceptreException "CDK Asset manifest artifact not found"), w1)) ∧
  (∀ (resolve : Path → Path) (n : NonPythonCdkBuilder.t) (cdk_json_path : Path)
     (context : list (string * string)) (stack_logical_id : string) (w w1 : world),
     NonPythonCdkBuilder._synthesize resolve n cdk_json_path (tmp_name (tmp_count w))
       context stack_logical_id (TemporaryDirectory_enter w).2 = (Ok tt, w1) →
     path_exists (fs w1)
       (Path_of (tmp_name (tmp_count w)) (stack_logical_id +:+ ".assets.json")) = false →
     (NonPythonCdkBuilder.build_template resolve n cdk_json_path context
        stack_logical_id w).1 =
       Raise (SceptreException "CDK Asset manifest artifact not found")) ∧
  (∀ output_dir stack_logical_id : string,
     no_slash stack_logical_id = true →
     Path_of output_dir (stack_logical_id +:+ ".assets.json") =
     Path_child (parse_path output_dir) (stack_logical_id +:+ ".assets.json")).
Proof.
  split_and!.
  - intros b stack_class cdk_context sceptre_user_data ca w w1 Hs Hca.
    by apply build_template_with_without_manifest with ca.
  - intros bl stack_class cdk_context sceptre_user_data ca w w1 Hs Hca.
    by apply build_template_with_without_manifest with ca.
  - intros resolve n cdk_json_path context stack_logical_id w w1 Hn Hfile.
    unfold NonPythonCdkBuilder.build_template, with_TemporaryDirectory.
    unfold TemporaryDirectory_enter at 1. cbv zeta.
    unfold NonPythonCdkBuilder.build_in at 1.
    unfold TemporaryDirectory_enter in Hn. cbn [snd] in Hn.
    rewrite bind_run, Hn, bind_run.
    by rewrite NonPython_publish_without_manifest.
  - intros output_dir stack_logical_id Hid. by apply Path_of_artifact.
Qed.

Lemma build_raises_without_asset_manifest_witness :
  let run := subprocess_run (Demo.exits_with 0) in
  let b := Demo.bootstrapped Demo.credentials run in
  let bl := Demo.bootstrapless Demo.credentials run [] in
  let n := Demo.non_python Demo.credentials run in
  BootstrappedCdkBuilder.build_template b Demo.stack_without_manifest [] tt Demo.world0 =
    (Raise (SceptreException "CDK Asset manifest artifact not found"),
     (BootstrappedCdkBuilder._synthesize b Demo.stack_without_manifest [] tt Demo.world0).2) ∧
  BootstraplessCdkBuilder.build_template bl Demo.stack_without_manifest [] tt Demo.world0 =
    (Raise (SceptreException "CDK Asset manifest artifact not found"),
     (BootstraplessCdkBuilder._synthesize bl Demo.stack_without_manifest [] tt Demo.world0).2) ∧
  (NonPythonCdkBuilder.build_template id n Demo.cdk_json_path [] "CDKStack" Demo.world0).1 =
    Raise (SceptreException "CDK Asset manifest artifact not found").
Proof.
  intros run b bl n.
  assert (∀ a, IsAssetManifestArtifact a ∉
                 [IsCloudFormationStackArtifact
                    {| stack_name := "CDKStack"; template := JObj ∅ |}]) as Hca.
  { intros a [=]%list_elem_of_singleton. }
  pose proof (build_raises_without_asset_manifest (H := Demo.cdk)) as (Hb & Hbl & Hn & _).
  split; [|split].
  - eapply (Hb b Demo.stack_without_manifest [] tt _ Demo.world0); [reflexivity|exact Hca].
  - eapply (Hbl bl Demo.stack_without_manifest [] tt _ Demo.world0); [reflexivity|exact Hca].
  - eapply (Hn id n Demo.cdk_json_path [] "CDKStack" Demo.world0).
    + vm_compute. reflexivity.
    + vm_compute. reflexivity.
Defined.

(** ** The temporary directory *)

Lemma below_refl (d : Path) : below d d = true.
Proof. unfold below. by rewrite !bool_decide_eq_true_2. Qed.

Lemma rmtree_dirs (d s : Path) (f : filesystem) :
  below d s = true → s ∉ dirs (rmtree d f).
Proof.
  intros Hb. unfold rmtree. cbn [dirs].
  rewrite elem_of_filter. intros [Hf _]. congruence.
Qed.

Lemma rmtree_files (d q : Path) (f : filesystem) :
  below d q = true → files (rmtree d f) !! q = None.
Proof.
  intros Hb. unfold rmtree. cbn [files].
  apply map_lookup_filter_None. right. intros v _. cbn [fst]. congruence.
Qed.

Lemma NonPython_synthesize_exit_code (resolve : Path → Path)
    (self : NonPythonCdkBuilder.t) (cdk_json_path : Path) (output_dir : string)
    (context : list (string * string)) (id : string) (w : world)
    (exec : proc_call → filesystem → Z * filesystem) (c : Credentials)
    (code : Z) (f : filesystem) :
  NonPythonCdkBuilder._subprocess_run self = subprocess_run exec →
  resolves (NonPythonCdkBuilder._connection_manager self) c →
  exec (synth_call (NonPythonCdkBuilder._create_command output_dir context id)
          (envs_after (deref w (NonPythonCdkBuilder._environment_variables self))
             (NonPythonCdkBuilder._connection_manager self) c)
          (Path_str (resolve (Path_parent cdk_json_path))))
       (fs w) = (code, f) →
  code ≠ 0%Z →
  (NonPythonCdkBuilder._synthesize resolve self cdk_json_path output_dir context id w).1 =
  Raise (CalledProcessError code (NonPythonCdkBuilder._create_command output_dir context id)).
Proof.
  intros Hrun Hc Hexec Hcode. unfold NonPythonCdkBuilder._synthesize.
  rewrite bind_run, (NonPython_get_envs_run self c w Hc).
  cbv zeta. rewrite bind_run. unfold get_world at 1.
  rewrite bind_run, Hrun. unfold call_subprocess_run. cbv zeta.
  rewrite deref_set_heap_insert. unfold subprocess_run.
  change (fs (add_event _ (set_heap _ w))) with (fs w).
  unfold synth_call in Hexec. rewrite Hexec. cbn [call_check call_command andb].
  destruct (code =? 0)%Z eqn:E; [apply Z.eqb_eq in E; done|]. reflexivity.
Qed.

(** C6.  [NonPythonCdkBuilder.build_template] makes its output directory and
    removes it on every exit path: whatever the body of the [with] statement
    returns or raises is the outcome of the build, and in the world the build
    leaves the directory, everything below it and every file in it are gone.
    A synthesis subprocess that exits non-zero is one such path: the build
    raises [CalledProcessError] and the directory is removed all the same. *)
Theorem build_template_removes_temporary_directory
    (resolve : Path → Path) (n : NonPythonCdkBuilder.t) (cdk_json_path : Path)
    (context : list (string * string)) (stack_logical_id : string) (w : world) :
  let output_dir := tmp_name (tmp_count w) in
  let entered := (TemporaryDirectory_enter w).2 in
  let body :=
    NonPythonCdkBuilder.build_in resolve n cdk_json_path context stack_logical_id
      output_dir entered in
  let out :=
    NonPythonCdkBuilder.build_template resolve n cdk_json_path context stack_logical_id w in
  parse_path output_dir ∈ dirs (fs entered) ∧
  out = (fst body, set_fs (rmtree (parse_path output_dir)) (snd body)) ∧
  (parse_path output_dir ∉ dirs (fs (snd out))) ∧
  (∀ s, below (parse_path output_dir) s = true → s ∉ dirs (fs (snd out))) ∧
  (∀ q : Path, below (parse_path output_dir) q = true → files (fs (snd out)) !! q = None) ∧
  (∀ exec c code f,
     NonPythonCdkBuilder._subprocess_run n = subprocess_run exec →
     resolves (NonPythonCdkBuilder._connection_manager n) c →
     exec (synth_call
             (NonPythonCdkBuilder._create_command output_dir context stack_logical_id)
             (envs_after (deref w (NonPythonCdkBuilder._environment_variables n))
                (NonPythonCdkBuilder._connection_manager n) c)
             (Path_str (resolve (Path_parent cdk_json_path))))
          (fs entered) = (code, f) →
     code ≠ 0%Z →
     fst out = Raise (CalledProcessError code
                      (NonPythonCdkBuilder._create_command output_dir context
                         stack_logical_id)) ∧
     parse_path output_dir ∉ dirs (fs (snd out))).
Proof.
  intros output_dir entered body out.
  assert (out = (fst body, set_fs (rmtree (parse_path output_dir)) (snd body))) as Hout.
  { unfold out, NonPythonCdkBuilder.build_template, with_TemporaryDirectory.
    unfold TemporaryDirectory_enter at 1. cbv zeta.
    fold output_dir. unfold body, entered, TemporaryDirectory_enter. cbn [snd].
    fold output_dir.
    by destruct (NonPythonCdkBuilder.build_in _ _ _ _ _ _ _) as [r w2]. }
  assert (∀ s, below (parse_path output_dir) s = true → s ∉ dirs (fs (snd out))) as Hdirs.
  { intros s Hs. rewrite Hout. cbn [snd]. by apply rmtree_dirs. }
  split_and!.
  - unfold entered, TemporaryDirectory_enter. cbn [snd fs dirs]. set_solver.
  - exact Hout.
  - apply Hdirs, below_refl.
  - exact Hdirs.
  - intros q Hq. rewrite Hout. cbn [snd]. by apply rmtree_files.
  - intros exec c code f Hrun Hc Hexec Hcode.
    split; [|apply Hdirs, below_refl].
    rewrite Hout. cbn [fst]. unfold body, NonPythonCdkBuilder.build_in.
    rewrite bind_run.
    pose proof (NonPython_synthesize_exit_code resolve n cdk_json_path output_dir
                  context stack_logical_id entered exec c code f Hrun Hc Hexec Hcode)
      as Hs.
    destruct (NonPythonCdkBuilder._synthesize _ _ _ _ _ _ _) as [[[]|e] w1];
      cbn [fst] in Hs; [done|]. by injection Hs as ->.
Qed.

(** ** An invalid synthesizer configuration *)




(** ** The logical identifier of the stack *)

Lemma create_command_shape (output_dir : string) (cdk_context : list (string * string))
    (id : string) :
  NonPythonCdkBuilder._create_command output_dir cdk_context id =
  "npx cdk synth " +:+ id +:+ " -o " +:+ output_dir +:+ " "
    +:+ context_arguments cdk_context.
Proof.
  unfold NonPythonCdkBuilder._create_command.
  assert (∀ acc, foldl (λ command kv, command +:+ kv.1 +:+ "=" +:+ kv.2 +:+ " ")
                   acc cdk_context = acc +:+ context_arguments cdk_context) as Hfold.
  { induction cdk_context as [|kv l IH]; intros acc; cbn [foldl context_arguments].
    - by rewrite string_app_nil_r.
    - rewrite IH. by rewrite !string_app_assoc. }
  rewrite Hfold. by rewrite !string_app_assoc.
Qed.

Lemma NonPython_synthesize_trace (resolve : Path → Path)
    (self : NonPythonCdkBuilder.t) (cdk_json_path : Path) (output_dir : string)
    (context : list (string * string)) (id : string) (c : Credentials) (w : world) :
  resolves (NonPythonCdkBuilder._connection_manager self) c →
  trace (NonPythonCdkBuilder._synthesize resolve self cdk_json_path output_dir context id w).2 =
  (trace w ++
   [Run (synth_call (NonPythonCdkBuilder._create_command output_dir context id)
           (envs_after (deref w (NonPythonCdkBuilder._environment_variables self))
              (NonPythonCdkBuilder._connection_manager self) c)
           (Path_str (resolve (Path_parent cdk_json_path))))])%list.
Proof.
  intros Hc. unfold NonPythonCdkBuilder._synthesize.
  rewrite bind_run, (NonPython_get_envs_run self c w Hc).
  cbv zeta. rewrite bind_run. unfold get_world at 1.
  rewrite bind_run.
  match goal with
  | |- context [call_subprocess_run ?r ?c ?w0] =>
      pose proof (call_subprocess_run_trace r c w0) as Ht;
      destruct (call_subprocess_run r c w0) as [[cp|e] w1]
  end; cbn [snd] in Ht; unfold mret, M_ret; cbn [snd]; rewrite Ht;
    rewrite deref_set_heap_insert; reflexivity.
Qed.

Lemma NonPython_build_in_binds (resolve : Path → Path)
    (self : NonPythonCdkBuilder.t) (cdk_json_path : Path)
    (context : list (string * string)) (id output_dir : string) (w : world) :
  NonPythonCdkBuilder.build_in resolve self cdk_json_path context id output_dir w =
  (NonPythonCdkBuilder._synthesize resolve self cdk_json_path output_dir context id ≫= λ _,
   NonPythonCdkBuilder._publish self (Path_of output_dir (id +:+ ".assets.json")) id ≫= λ _,
   NonPythonCdkBuilder._get_template (Path_of output_dir (id +:+ ".template.json"))) w.
Proof.
  unfold NonPythonCdkBuilder.build_in.
  rewrite !bind_run. destruct (NonPythonCdkBuilder._synthesize _ _ _ _ _ _ w)
    as [[a|e] w1]; [|done].
  rewrite !bind_run. destruct (NonPythonCdkBuilder._publish _ _ _ w1)
    as [[[]|e] w2]; [|done].
  apply bind_mret.
Qed.

Lemma NonPython_build_template_body (resolve : Path → Path)
    (self : NonPythonCdkBuilder.t) (cdk_json_path : Path)
    (context : list (string * string)) (id : string) (w : world) :
  NonPythonCdkBuilder.build_template resolve self cdk_json_path context id w =
  (fst (NonPythonCdkBuilder.build_in resolve self cdk_json_path context id
          (tmp_name (tmp_count w)) (TemporaryDirectory_enter w).2),
   set_fs (rmtree (parse_path (tmp_name (tmp_count w))))
     (snd (NonPythonCdkBuilder.build_in resolve self cdk_json_path context id
             (tmp_name (tmp_count w)) (TemporaryDirectory_enter w).2))).
Proof.
  unfold NonPythonCdkBuilder.build_template, with_TemporaryDirectory.
  unfold TemporaryDirectory_enter. cbv zeta. cbn [snd].
  by destruct (NonPythonCdkBuilder.build_in _ _ _ _ _ _ _) as [r w2].
Qed.

Lemma NonPython_publish_ok_exists (self : NonPythonCdkBuilder.t) (path : Path)
    (id : string) (w w' : world) :
  NonPythonCdkBuilder._publish self path id w = (Ok tt, w') →
  path_exists (fs w) path = true.
Proof.
  unfold NonPythonCdkBuilder._publish. rewrite bind_run.
  unfold NonPythonCdkBuilder._get_assets_manifest. rewrite bind_run.
  unfold get_world at 1. by destruct (path_exists (fs w) path).
Qed.

Lemma open_json_load_ok (path : Path) (t : json) (w : world) :
  (open_json_load path w).1 = Ok t → files (fs w) !! path = Some (Some t).
Proof.
  unfold open_json_load.
  destruct (files (fs w) !! path) as [[j|]|]; [by intros [= ->]|done|].
  by destruct (bool_decide _).
Qed.

Section stack_class_identifier.
Context `{AwsCdk}.

(** The in-process builders call the stack class with the constant
    identifier only. *)
Lemma Bootstrapped_synthesize_identifier (self : BootstrappedCdkBuilder.t)
    (sc sc' : StackClass) (cdk_context : CdkContext) (data : UserData) (w : world) :
  (∀ app d syn, sc app CdkBuilder.STACK_LOGICAL_ID d syn =
                sc' app CdkBuilder.STACK_LOGICAL_ID d syn) →
  BootstrappedCdkBuilder._synthesize self sc cdk_context data w =
  BootstrappedCdkBuilder._synthesize self sc' cdk_context data w.
Proof.
  intros Hsc.
  unfold BootstrappedCdkBuilder._synthesize, BootstrappedCdkBuilder.STACK_LOGICAL_ID,
    mbind, M_bind, logger_debug, modify, lift.
  cbv beta iota.
  destruct (BootstrappedCdkBuilder._app_class self cdk_context) as [app|e]; [|done].
  by rewrite Hsc.
Qed.

Lemma Bootstrapless_synthesize_identifier (self : BootstraplessCdkBuilder.t)
    (sc sc' : StackClass) (cdk_context : CdkContext) (data : UserData) (w : world) :
  (∀ app d syn, sc app CdkBuilder.STACK_LOGICAL_ID d syn =
                sc' app CdkBuilder.STACK_LOGICAL_ID d syn) →
  BootstraplessCdkBuilder._synthesize self sc cdk_context data w =
  BootstraplessCdkBuilder._synthesize self sc' cdk_context data w.
Proof.
  intros Hsc.
  unfold BootstraplessCdkBuilder._synthesize, BootstraplessCdkBuilder.STACK_LOGICAL_ID,
    mbind, M_bind, logger_debug, modify, lift.
  cbv beta iota.
  destruct (BootstrappedCdkBuilder._app_class _ cdk_context) as [app|e]; [|done].
  destruct (BootstraplessCdkBuilder.make_synthesizer self _) as [[syn|e] w1]; [|done].
  by rewrite Hsc.
Qed.

Lemma build_template_with_ext (s1 s2 : M CloudAssembly)
    (self : BootstrappedCdkBuilder.t) (w : world) :
  s1 w = s2 w →
  BootstrappedCdkBuilder.build_template_with s1 self w =
  BootstrappedCdkBuilder.build_template_with s2 self w.
Proof.
  intros Hs. unfold BootstrappedCdkBuilder.build_template_with.
  by rewrite !(bind_run s1), !(bind_run s2), Hs.
Qed.

End stack_class_identifier.

(** C8, as stated, fails out of process: the identifier of an out-of-process
    build is the argument [stack_logical_id].  A build for [OtherStack] names
    that stack on the command line and returns the template stored under
    [OtherStack.template.json], not the one of [CDKStack]. *)
Lemma stack_logical_id_is_an_argument_out_of_process :
  let n := Demo.non_python Demo.credentials (subprocess_run Demo.synth_writes) in
  let other :=
    NonPythonCdkBuilder.build_template id n Demo.cdk_json_path [] "OtherStack" Demo.world0 in
  let fixed :=
    NonPythonCdkBuilder.build_template id n Demo.cdk_json_path []
      CdkBuilder.STACK_LOGICAL_ID Demo.world0 in
  "OtherStack" ≠ CdkBuilder.STACK_LOGICAL_ID ∧
  map call_command (runs (trace (snd other))) = ["npx cdk synth OtherStack -o /tmp/tmp0 "] ∧
  map call_command (runs (trace (snd fixed))) = ["npx cdk synth CDKStack -o /tmp/tmp0 "] ∧
  fst other = Ok Demo.other_template ∧
  fst fixed = Ok (JObj ∅) ∧
  fst other ≠ fst fixed.
Proof.
  intros n other fixed.
  assert (fst other = Ok Demo.other_template) as Ho by (vm_compute; reflexivity).
  assert (fst fixed = Ok (JObj ∅)) as Hf by (vm_compute; reflexivity).
  split_and!; [done|vm_compute; reflexivity|vm_compute; reflexivity|done|done|].
  rewrite Ho, Hf. vm_compute. intros [=].
Qed.

Section stack_class_call.
Context `{AwsCdk}.

(** What the in-process [_synthesize] returns once the application object is
    made: the stack class is called on it with the constant identifier and
    the result is synthesized. *)
Lemma Bootstrapped_synthesize_calls_stack_class (self : BootstrappedCdkBuilder.t)
    (sc : StackClass) (cdk_context : CdkContext) (data : UserData) (w : world)
    (app : App) :
  BootstrappedCdkBuilder._app_class self cdk_context = Ok app →
  (BootstrappedCdkBuilder._synthesize self sc cdk_context data w).1 =
  (app' ← sc app "CDKStack" data None; app_synth app').
Proof.
  intros Happ.
  unfold BootstrappedCdkBuilder._synthesize, BootstrappedCdkBuilder.STACK_LOGICAL_ID,
    CdkBuilder.STACK_LOGICAL_ID, mbind at 1 2 3 4, M_bind, logger_debug, modify, lift.
  cbv beta iota. rewrite Happ.
  by destruct (sc app "CDKStack" data None).
Qed.

Lemma Bootstrapless_synthesize_calls_stack_class (self : BootstraplessCdkBuilder.t)
    (sc : StackClass) (cdk_context : CdkContext) (data : UserData) (w : world)
    (app : App) (synthesizer : Synthesizer) :
  BootstrappedCdkBuilder._app_class (BootstraplessCdkBuilder.base self) cdk_context =
    Ok app →
  BootstraplessCdkBuilder._synthesizer_class self
    (BootstraplessCdkBuilder._synthesizer_config self) = Ok synthesizer →
  (BootstraplessCdkBuilder._synthesize self sc cdk_context data w).1 =
  (app' ← sc app "CDKStack" data (Some synthesizer); app_synth app').
Proof.
  intros Happ Hsyn.
  unfold BootstraplessCdkBuilder._synthesize, BootstraplessCdkBuilder.make_synthesizer,
    BootstraplessCdkBuilder.STACK_LOGICAL_ID, CdkBuilder.STACK_LOGICAL_ID,
    mbind at 1 2 3 4 5, M_bind, logger_debug, modify, lift, mret, M_ret.
  cbv beta iota. rewrite Happ, Hsyn.
  by destruct (sc app "CDKStack" data (Some synthesizer)).
Qed.

End stack_class_call.

(** C8, amended.  The two in-process builders use the one constant
    [CDKStack]: once the application object (and, bootstrapless, the
    synthesizer) is made, they call the stack class with it, the build does
    not depend on what the stack class does at any other identifier, and the
    template is looked up under it.  The out-of-process builder uses the
    argument [stack_logical_id] of the build instead: the synthesis command
    names it, and a build that returns has found the manifest at
    [Path(output_dir, "<stack_logical_id>.assets.json")] and returns the
    content of [Path(output_dir, "<stack_logical_id>.template.json")]; for an
    identifier without a slash these are the files of those names in the
    output directory. *)
Theorem stack_logical_id_of_each_builder `{AwsCdk} :
  CdkBuilder.STACK_LOGICAL_ID = "CDKStack" ∧
  (∀ (b : BootstrappedCdkBuilder.t) (sc : StackClass) (cdk_context : CdkContext)
     (data : UserData) (w : world) (app : App),
     BootstrappedCdkBuilder._app_class b cdk_context = Ok app →
     (BootstrappedCdkBuilder._synthesize b sc cdk_context data w).1 =
     (app' ← sc app "CDKStack" data None; app_synth app')) ∧
  (∀ (bl : BootstraplessCdkBuilder.t) (sc : StackClass) (cdk_context : CdkContext)
     (data : UserData) (w : world) (app : App) (synthesizer : Synthesizer),
     BootstrappedCdkBuilder._app_class (BootstraplessCdkBuilder.base bl) cdk_context =
       Ok app →
     BootstraplessCdkBuilder._synthesizer_class bl
       (BootstraplessCdkBuilder._synthesizer_config bl) = Ok synthesizer →
     (BootstraplessCdkBuilder._synthesize bl sc cdk_context data w).1 =
     (app' ← sc app "CDKStack" data (Some synthesizer); app_synth app')) ∧
  (∀ (b : BootstrappedCdkBuilder.t) (bl : BootstraplessCdkBuilder.t) (sc sc' : StackClass)
     (cdk_context : CdkContext) (data : UserData) (w : world),
     (∀ app d synthesizer,
        sc app "CDKStack" d synthesizer = sc' app "CDKStack" d synthesizer) →
     BootstrappedCdkBuilder.build_template b sc cdk_context data w =
       BootstrappedCdkBuilder.build_template b sc' cdk_context data w ∧
     BootstraplessCdkBuilder.build_template bl sc cdk_context data w =
       BootstraplessCdkBuilder.build_template bl sc' cdk_context data w) ∧
  (∀ (ca : CloudAssembly) (w : world),
     BootstrappedCdkBuilder._get_template ca w =
     (stack ← get_stack_by_name ca "CDKStack"; Ok (template stack), w)) ∧
  (∀ (resolve : Path → Path) (n : NonPythonCdkBuilder.t) (cdk_json_path : Path)
     (context : list (string * string)) (stack_logical_id : string) (c : Credentials)
     (w : world),
     resolves (NonPythonCdkBuilder._connection_manager n) c →
     runs (trace (NonPythonCdkBuilder._synthesize resolve n cdk_json_path
                    (tmp_name (tmp_count w)) context stack_logical_id
                    (TemporaryDirectory_enter w).2).2) =
     (runs (trace w) ++
      [synth_call
         ("npx cdk synth " +:+ stack_logical_id +:+ " -o " +:+ tmp_name (tmp_count w)
            +:+ " " +:+ context_arguments context)
         (envs_after (deref w (NonPythonCdkBuilder._environment_variables n))
            (NonPythonCdkBuilder._connection_manager n) c)
         (Path_str (resolve (Path_parent cdk_json_path)))])%list) ∧
  (∀ (resolve : Path → Path) (n : NonPythonCdkBuilder.t) (cdk_json_path : Path)
     (context : list (string * string)) (stack_logical_id : string) (w : world) (t : json),
     (NonPythonCdkBuilder.build_template resolve n cdk_json_path context
        stack_logical_id w).1 = Ok t →
     ∃ w1 w2,
       NonPythonCdkBuilder._synthesize resolve n cdk_json_path (tmp_name (tmp_count w))
         context stack_logical_id (TemporaryDirectory_enter w).2 = (Ok tt, w1) ∧
       NonPythonCdkBuilder._publish n
         (Path_of (tmp_name (tmp_count w)) (stack_logical_id +:+ ".assets.json"))
         stack_logical_id w1 = (Ok tt, w2) ∧
       path_exists (fs w1)
         (Path_of (tmp_name (tmp_count w)) (stack_logical_id +:+ ".assets.json")) = true ∧
       files (fs w2)
         !! Path_of (tmp_name (tmp_count w)) (stack_logical_id +:+ ".template.json") =
         Some (Some t)) ∧
  (∀ output_dir stack_logical_id : string,
     no_slash stack_logical_id = true →
     Path_of output_dir (stack_logical_id +:+ ".assets.json") =
       Path_child (parse_path output_dir) (stack_logical_id +:+ ".assets.json") ∧
     Path_of output_dir (stack_logical_id +:+ ".template.json") =
       Path_child (parse_path output_dir) (stack_logical_id +:+ ".template.json")).
Proof.
  split_and!.
  - reflexivity.
  - intros b sc cdk_context data w app Happ.
    by apply Bootstrapped_synthesize_calls_stack_class.
  - intros bl sc cdk_context data w app synthesizer Happ Hsyn.
    by apply Bootstrapless_synthesize_calls_stack_class.
  - intros b bl sc sc' cdk_context data w Hsc. split.
    + apply build_template_with_ext. by apply Bootstrapped_synthesize_identifier.
    + apply build_template_with_ext. by apply Bootstrapless_synthesize_identifier.
  - intros ca w. unfold BootstrappedCdkBuilder._get_template, lift. rewrite bind_run.
    unfold BootstrappedCdkBuilder.STACK_LOGICAL_ID, CdkBuilder.STACK_LOGICAL_ID.
    by destruct (get_stack_by_name ca "CDKStack").
  - intros resolve n cdk_json_path context stack_logical_id c w Hc.
    rewrite (NonPython_synthesize_trace _ _ _ _ _ _ c) by done.
    rewrite runs_app, create_command_shape. reflexivity.
  - intros resolve n cdk_json_path context stack_logical_id w t Ht.
    rewrite NonPython_build_template_body in Ht. cbn [fst] in Ht.
    pose proof (pipeline_of_binds _ _ _ _
                  (NonPython_build_in_binds resolve n cdk_json_path context
                     stack_logical_id (tmp_name (tmp_count w)))
                  (TemporaryDirectory_enter w).2) as (_ & _ & _ & Hiff).
    apply Hiff in Ht as ([] & w1 & w2 & Hs & Hp & Hg).
    exists w1, w2. split_and!; [done|done| |].
    + by apply NonPython_publish_ok_exists in Hp.
    + by apply open_json_load_ok.
  - intros output_dir stack_logical_id Hid. by apply Path_of_artifact.
Qed.

Lemma stack_logical_id_of_each_builder_witness :
  let run := subprocess_run Demo.synth_writes in
  let b := Demo.bootstrapped Demo.credentials run in
  let bl := Demo.bootstrapless Demo.credentials run [] in
  let n := Demo.non_python Demo.credentials run in
  let sc := Demo.stack_class Demo.with_zip in
  let sc' := Demo.strict_stack_class Demo.with_zip in
  let w := Demo.world0 in
  (BootstrappedCdkBuilder._synthesize b sc [] tt w).1 =
    (app' ← sc [] "CDKStack" tt None; @app_synth Demo.cdk app') ∧
  (BootstraplessCdkBuilder._synthesize bl sc [] tt w).1 =
    (app' ← sc [] "CDKStack" tt (Some "bootstrapless"); @app_synth Demo.cdk app') ∧
  BootstrappedCdkBuilder.build_template b sc [] tt w =
    BootstrappedCdkBuilder.build_template b sc' [] tt w ∧
  BootstraplessCdkBuilder.build_template bl sc [] tt w =
    BootstraplessCdkBuilder.build_template bl sc' [] tt w ∧
  (∃ w1 w2,
     NonPythonCdkBuilder._synthesize id n Demo.cdk_json_path (tmp_name (tmp_count w)) []
       "OtherStack" (TemporaryDirectory_enter w).2 = (Ok tt, w1) ∧
     NonPythonCdkBuilder._publish n
       (Path_of (tmp_name (tmp_count w)) ("OtherStack" +:+ ".assets.json"))
       "OtherStack" w1 = (Ok tt, w2) ∧
     path_exists (fs w1)
       (Path_of (tmp_name (tmp_count w)) ("OtherStack" +:+ ".assets.json")) = true ∧
     files (fs w2) !! Path_of (tmp_name (tmp_count w)) ("OtherStack" +:+ ".template.json") =
       Some (Some Demo.other_template)) ∧
  Path_of "/tmp/tmp0" ("OtherStack" +:+ ".template.json") =
    Path_child (parse_path "/tmp/tmp0") ("OtherStack" +:+ ".template.json").
Proof.
  intros run b bl n sc sc' w.
  pose proof (stack_logical_id_of_each_builder (H := Demo.cdk))
    as (_ & Hb & Hbl & Hsame & _ & _ & Hn & Hpath).
  split_and!.
  - apply (Hb b sc [] tt w []). reflexivity.
  - apply (Hbl bl sc [] tt w [] "bootstrapless"); reflexivity.
  - apply (Hsame b bl sc sc' [] tt w). intros app d synthesizer. reflexivity.
  - apply (Hsame b bl sc sc' [] tt w). intros app d synthesizer. reflexivity.
  - apply (Hn id n Demo.cdk_json_path [] "OtherStack" w Demo.other_template).
    vm_compute. reflexivity.
  - apply (Hpath "/tmp/tmp0" "OtherStack"). reflexivity.
Defined.

(** ** The scenarios of the specification, run *)

(** A manifest with the template as its only file asset: the in-process
    build makes no call of [subprocess_run] and returns the template. *)
Example scenario_template_only :
  let out :=
    BootstrappedCdkBuilder.build_template
      (Demo.bootstrapped Demo.credentials (subprocess_run (Demo.exits_with 0)))
      (Demo.stack_class Demo.template_only) [] tt Demo.world0 in
  fst out = Ok (JObj ∅) ∧ runs (trace (snd out)) = [].
Proof. vm_compute. done. Qed.

(** A manifest with the template and a zip file: one call, the publish
    command on the path of the manifest. *)
Example scenario_template_and_zip :
  let out :=
    BootstrappedCdkBuilder.build_template
      (Demo.bootstrapped Demo.credentials (subprocess_run (Demo.exits_with 0)))
      (Demo.stack_class Demo.with_zip) [] tt Demo.world0 in
  fst out = Ok (JObj ∅) ∧
  map call_command (runs (trace (snd out))) =
    ["npx cdk-assets -v publish --path cdk.out/CDKStack.assets.json"] ∧
  map (λ c, call_env c !! "AWS_PROFILE") (runs (trace (snd out))) = [None] ∧
  map (λ c, call_env c !! "AWS_REGION") (runs (trace (snd out))) = [Some "eu-west-1"].
Proof. vm_compute. done. Qed.

(** The synthesis subprocess exits with code 1: the out-of-process build
    raises [CalledProcessError], and no directory is left. *)
Example scenario_synthesis_exits_1 :
  let out :=
    NonPythonCdkBuilder.build_template id
      (Demo.non_python Demo.credentials (subprocess_run (Demo.exits_with 1)))
      Demo.cdk_json_path [("env", "dev")] "CDKStack" Demo.world0 in
  fst out = Raise (CalledProcessError 1 "npx cdk synth CDKStack -o /tmp/tmp0 env=dev ") ∧
  dirs (fs (snd out)) = ∅.
Proof. vm_compute. done. Qed.

(** The out-of-process build on a toolchain that writes a template-only
    manifest: one call, the synthesis command, and the template comes back. *)
Example scenario_out_of_process :
  let out :=
    NonPythonCdkBuilder.build_template id
      (Demo.non_python Demo.token_credentials (subprocess_run Demo.synth_writes))
      Demo.cdk_json_path [] "CDKStack" Demo.world0 in
  fst out = Ok (JObj ∅) ∧
  map call_command (runs (trace (snd out))) = ["npx cdk synth CDKStack -o /tmp/tmp0 "] ∧
  map (λ c, call_env c !! "AWS_SESSION_TOKEN") (runs (trace (snd out))) =
    [Some "FwoGZXIvYXdz"] ∧
  map call_cwd (runs (trace (snd out))) = [Some "/project"] ∧
  files (fs (snd out)) = ∅.
Proof. vm_compute. done. Qed.

(** * Further properties of the builders *)

(** ** More on [_get_envs] *)

Lemma session_credentials_ok_inv (cm : ConnectionManager) (c : Credentials) (w w' : world) :
  session_credentials cm w = (Ok c, w') → resolves cm c.
Proof.
  unfold session_credentials, lift, resolves. rewrite bind_run.
  destruct (_get_session cm _ _ _) as [session|e]; [|done].
  rewrite bind_run. destruct (get_credentials session) as [[c'|]|e] eqn:Hc; try done.
  intros [= <- _]. by exists session.
Qed.

Lemma envs_after_other (ambient : gmap string string) (cm : ConnectionManager)
    (c : Credentials) (k : string) :
  k ∉ credential_variables → envs_after ambient cm c !! k = ambient !! k.
Proof.
  unfold credential_variables. intros Hk.
  repeat (apply not_elem_of_cons in Hk as [? Hk]).
  unfold envs_after. destruct (token c) as [tok|]; by simplify_map_eq.
Qed.

(** X1.  [_get_envs] of either builder inherits the ambient environment:
    every variable other than the seven credential variables has in the
    returned mapping the value, or the absence, it has in the ambient one. *)
Theorem get_envs_inherits_other_variables `{AwsCdk}
    (b : BootstrappedCdkBuilder.t) (n : NonPythonCdkBuilder.t)
    (cb cn : Credentials) (w : world) (k : string)
    (Hb : resolves (BootstrappedCdkBuilder._connection_manager b) cb)
    (Hn : resolves (NonPythonCdkBuilder._connection_manager n) cn)
    (Hk : k ∉ credential_variables) :
  (∃ envs w', BootstrappedCdkBuilder._get_envs b w = (Ok envs, w') ∧
     deref w' envs !! k = deref w (BootstrappedCdkBuilder._environment_variables b) !! k) ∧
  (∃ envs w', NonPythonCdkBuilder._get_envs n w = (Ok envs, w') ∧
     deref w' envs !! k = deref w (NonPythonCdkBuilder._environment_variables n) !! k).
Proof.
  split; do 2 eexists.
  - split; [by apply Bootstrapped_get_envs_run|].
    rewrite deref_set_heap_insert. by apply envs_after_other.
  - split; [by apply NonPython_get_envs_run|].
    rewrite deref_set_heap_insert. by apply envs_after_other.
Qed.

Lemma get_envs_inherits_other_variables_witness :
  resolves (Demo.connection_manager Demo.credentials) Demo.credentials ∧
  ("PATH" ∉ credential_variables) ∧
  (∃ envs w',
     BootstrappedCdkBuilder._get_envs
       (Demo.bootstrapped Demo.credentials (subprocess_run (Demo.exits_with 0)))
       Demo.world0 = (Ok envs, w') ∧
     deref w' envs !! "PATH" = deref Demo.world0 0 !! "PATH") ∧
  (∃ envs w',
     NonPythonCdkBuilder._get_envs
       (Demo.non_python Demo.credentials (subprocess_run (Demo.exits_with 0)))
       Demo.world0 = (Ok envs, w') ∧
     deref w' envs !! "PATH" = deref Demo.world0 0 !! "PATH").
Proof.
  assert (resolves (Demo.connection_manager Demo.credentials) Demo.credentials) as Hr.
  { eexists. split; reflexivity. }
  assert ("PATH" ∉ credential_variables) as Hk.
  { unfold credential_variables. by repeat (apply not_elem_of_cons; split; [done|]);
      apply not_elem_of_nil. }
  split; [exact Hr|]. split; [exact Hk|].
  exact (get_envs_inherits_other_variables (H := Demo.cdk)
           (Demo.bootstrapped Demo.credentials (subprocess_run (Demo.exits_with 0)))
           (Demo.non_python Demo.credentials (subprocess_run (Demo.exits_with 0)))
           Demo.credentials Demo.credentials Demo.world0 "PATH" Hr Hr Hk).
Defined.

Lemma session_credentials_at (cm : ConnectionManager) (w w' : world) :
  session_credentials cm w' = ((session_credentials cm w).1, w').
Proof.
  unfold session_credentials, lift. rewrite !bind_run.
  destruct (_get_session cm _ _ _) as [session|e]; [|reflexivity].
  rewrite !bind_run. destruct (get_credentials session) as [[c|]|e]; reflexivity.
Qed.

Ltac get_envs_raise cm env w e He :=
  get_envs_start;
  rewrite (session_credentials_at cm w), He;
  unfold set_heap; cbn [heap fs tmp_count trace]; rewrite alter_insert_eq; reflexivity.

Section get_envs_cases.
Context `{AwsCdk}.

Lemma Bootstrapped_get_envs_raise (self : BootstrappedCdkBuilder.t) (e : exception)
    (w : world) :
  (session_credentials (BootstrappedCdkBuilder._connection_manager self) w).1 = Raise e →
  BootstrappedCdkBuilder._get_envs self w =
  (Raise e,
   set_heap (insert (fresh (dom (heap w)))
               (delete "AWS_PROFILE"
                  (deref w (BootstrappedCdkBuilder._environment_variables self)))) w).
Proof.
  intros He. unfold BootstrappedCdkBuilder._get_envs, deref.
  get_envs_raise (BootstrappedCdkBuilder._connection_manager self)
                 (BootstrappedCdkBuilder._environment_variables self) w e He.
Qed.

(** Every run of [_get_envs]: with credentials it returns the fresh copy,
    without them it raises what the resolution raised. *)
Lemma Bootstrapped_get_envs_cases (self : BootstrappedCdkBuilder.t) (w : world) :
  (∃ c, resolves (BootstrappedCdkBuilder._connection_manager self) c ∧
        BootstrappedCdkBuilder._get_envs self w =
        (Ok (fresh (dom (heap w))),
         set_heap (insert (fresh (dom (heap w)))
                     (envs_after (deref w (BootstrappedCdkBuilder._environment_variables self))
                        (BootstrappedCdkBuilder._connection_manager self) c)) w)) ∨
  (∃ e d, (session_credentials (BootstrappedCdkBuilder._connection_manager self) w).1 =
            Raise e ∧
          BootstrappedCdkBuilder._get_envs self w =
          (Raise e, set_heap (insert (fresh (dom (heap w))) d) w)).
Proof.
  destruct (session_credentials (BootstrappedCdkBuilder._connection_manager self) w)
    as [[c|e] w1] eqn:Hs.
  - left. exists c. apply session_credentials_ok_inv in Hs.
    split; [done|]. by apply Bootstrapped_get_envs_run.
  - right. do 2 eexists. split; [reflexivity|].
    apply Bootstrapped_get_envs_raise. by rewrite Hs.
Qed.

End get_envs_cases.

Lemma NonPython_get_envs_raise (self : NonPythonCdkBuilder.t) (e : exception)
    (w : world) :
  (session_credentials (NonPythonCdkBuilder._connection_manager self) w).1 = Raise e →
  NonPythonCdkBuilder._get_envs self w =
  (Raise e,
   set_heap (insert (fresh (dom (heap w)))
               (delete "AWS_PROFILE"
                  (deref w (NonPythonCdkBuilder._environment_variables self)))) w).
Proof.
  intros He. unfold NonPythonCdkBuilder._get_envs, deref.
  get_envs_raise (NonPythonCdkBuilder._connection_manager self)
                 (NonPythonCdkBuilder._environment_variables self) w e He.
Qed.

Lemma NonPython_get_envs_cases (self : NonPythonCdkBuilder.t) (w : world) :
  (∃ c, resolves (NonPythonCdkBuilder._connection_manager self) c ∧
        NonPythonCdkBuilder._get_envs self w =
        (Ok (fresh (dom (heap w))),
         set_heap (insert (fresh (dom (heap w)))
                     (envs_after (deref w (NonPythonCdkBuilder._environment_variables self))
                        (NonPythonCdkBuilder._connection_manager self) c)) w)) ∨
  (∃ e d, (session_credentials (NonPythonCdkBuilder._connection_manager self) w).1 =
            Raise e ∧
          NonPythonCdkBuilder._get_envs self w =
          (Raise e, set_heap (insert (fresh (dom (heap w))) d) w)).
Proof.
  destruct (session_credentials (NonPythonCdkBuilder._connection_manager self) w)
    as [[c|e] w1] eqn:Hs.
  - left. exists c. apply session_credentials_ok_inv in Hs.
    split; [done|]. by apply NonPython_get_envs_run.
  - right. do 2 eexists. split; [reflexivity|].
    apply NonPython_get_envs_raise. by rewrite Hs.
Qed.

Lemma session_credentials_result (cm : ConnectionManager) (w : world) :
  resolution_errors_pass cm
    (match (session_credentials cm w).1 with
     | Ok _ => Ok 0
     | Raise e => Raise e
     end).
Proof.
  unfold resolution_errors_pass, session_credentials, lift. rewrite bind_run.
  split_and!.
  - by intros e ->.
  - intros session e -> Hc. by rewrite bind_run, Hc.
  - intros session -> Hc. by rewrite bind_run, Hc.
Qed.

Lemma resolution_errors_pass_raise (cm : ConnectionManager) (w : world) (e : exception) :
  (session_credentials cm w).1 = Raise e → resolution_errors_pass cm (Raise e).
Proof.
  intros He. pose proof (session_credentials_result cm w) as Hr. by rewrite He in Hr.
Qed.

Lemma resolution_errors_pass_ok (cm : ConnectionManager) (c : Credentials) (l : loc) :
  resolves cm c → resolution_errors_pass cm (Ok l).
Proof.
  intros (session & Hs & Hc). split_and!.
  - intros e He. congruence.
  - intros session' e Hs' Hc'. congruence.
  - intros session' Hs' Hc'. congruence.
Qed.

(** X2.  When the credentials do not resolve, [_get_envs] of either builder
    raises the exception of the step that failed, unchanged ([_get_session],
    [get_credentials], or the attribute access on [None]); and however it
    ends, it leaves the file system, the trace of logger and subprocess
    calls and the temporary-directory counter as they were. *)
Theorem get_envs_passes_resolution_errors `{AwsCdk}
    (b : BootstrappedCdkBuilder.t) (n : NonPythonCdkBuilder.t) (w : world) :
  (resolution_errors_pass (BootstrappedCdkBuilder._connection_manager b)
     (BootstrappedCdkBuilder._get_envs b w).1 ∧
   same_outside w (BootstrappedCdkBuilder._get_envs b w).2) ∧
  (resolution_errors_pass (NonPythonCdkBuilder._connection_manager n)
     (NonPythonCdkBuilder._get_envs n w).1 ∧
   same_outside w (NonPythonCdkBuilder._get_envs n w).2).
Proof.
  split.
  - destruct (Bootstrapped_get_envs_cases b w) as [(c & Hc & ->)|(e & d & He & ->)];
      cbn [fst snd]; (split; [|done]).
    + by apply resolution_errors_pass_ok with c.
    + by apply resolution_errors_pass_raise with w.
  - destruct (NonPython_get_envs_cases n w) as [(c & Hc & ->)|(e & d & He & ->)];
      cbn [fst snd]; (split; [|done]).
    + by apply resolution_errors_pass_ok with c.
    + by apply resolution_errors_pass_raise with w.
Qed.

(** Two runs of a [_get_envs] in a row, from its equation. *)
Lemma get_envs_twice (g : M loc) (env : loc) (cm : ConnectionManager) (c : Credentials)
    (w : world) :
  (∀ w0, g w0 = (Ok (fresh (dom (heap w0))),
                 set_heap (insert (fresh (dom (heap w0)))
                             (envs_after (deref w0 env) cm c)) w0)) →
  is_Some (heap w !! env) →
  ∃ l1 w1 l2 w2,
    g w = (Ok l1, w1) ∧ g w1 = (Ok l2, w2) ∧
    l1 ≠ l2 ∧
    deref w2 l1 = deref w1 l1 ∧
    deref w2 l2 = deref w1 l1 ∧
    deref w2 env = deref w env.
Proof.
  intros Hg Henv. do 4 eexists. split; [apply Hg|]. split; [apply Hg|].
  set (l1 := fresh (dom (heap w))).
  set (w1 := set_heap (insert l1 (envs_after (deref w env) cm c)) w).
  set (l2 := fresh (dom (heap w1))).
  assert (l1 ≠ env) as Hne1 by by apply fresh_ref_ne.
  assert (heap w1 !! l1 = Some (envs_after (deref w env) cm c)) as Hl1.
  { unfold w1, set_heap. cbn [heap]. apply lookup_insert_eq. }
  assert (l2 ≠ l1) as Hne2 by (apply fresh_ref_ne; eauto).
  assert (deref w1 env = deref w env) as Henv1.
  { unfold deref, w1, set_heap. cbn [heap]. by rewrite lookup_insert_ne. }
  assert (l2 ≠ env) as Hne3.
  { apply fresh_ref_ne. unfold w1, set_heap. cbn [heap]. by rewrite lookup_insert_ne. }
  split_and!.
  - done.
  - unfold deref at 1, set_heap. cbn [heap]. by rewrite lookup_insert_ne.
  - rewrite deref_set_heap_insert, Henv1. unfold deref. by rewrite Hl1.
  - unfold deref at 1, set_heap. cbn [heap]. rewrite lookup_insert_ne by done.
    exact Henv1.
Qed.

(** X3.  [_get_envs] caches nothing and shares nothing: called twice in a
    row, with credentials that resolve, it returns two different
    dictionaries with the same items; the second call leaves the first
    dictionary and the ambient mapping as they were. *)
Theorem get_envs_returns_a_new_dictionary_each_time `{AwsCdk}
    (b : BootstrappedCdkBuilder.t) (n : NonPythonCdkBuilder.t)
    (cb cn : Credentials) (w : world)
    (Hb : resolves (BootstrappedCdkBuilder._connection_manager b) cb)
    (Hn : resolves (NonPythonCdkBuilder._connection_manager n) cn)
    (Hbe : is_Some (heap w !! BootstrappedCdkBuilder._environment_variables b))
    (Hne : is_Some (heap w !! NonPythonCdkBuilder._environment_variables n)) :
  (∃ l1 w1 l2 w2,
     BootstrappedCdkBuilder._get_envs b w = (Ok l1, w1) ∧
     BootstrappedCdkBuilder._get_envs b w1 = (Ok l2, w2) ∧
     l1 ≠ l2 ∧
     deref w2 l1 = deref w1 l1 ∧
     deref w2 l2 = deref w1 l1 ∧
     deref w2 (BootstrappedCdkBuilder._environment_variables b) =
       deref w (BootstrappedCdkBuilder._environment_variables b)) ∧
  (∃ l1 w1 l2 w2,
     NonPythonCdkBuilder._get_envs n w = (Ok l1, w1) ∧
     NonPythonCdkBuilder._get_envs n w1 = (Ok l2, w2) ∧
     l1 ≠ l2 ∧
     deref w2 l1 = deref w1 l1 ∧
     deref w2 l2 = deref w1 l1 ∧
     deref w2 (NonPythonCdkBuilder._environment_variables n) =
       deref w (NonPythonCdkBuilder._environment_variables n)).
Proof.
  split.
  - apply (get_envs_twice _ _ (BootstrappedCdkBuilder._connection_manager b) cb);
      [|done]. intros w0. by apply Bootstrapped_get_envs_run.
  - apply (get_envs_twice _ _ (NonPythonCdkBuilder._connection_manager n) cn);
      [|done]. intros w0. by apply NonPython_get_envs_run.
Qed.

Lemma get_envs_returns_a_new_dictionary_each_time_witness :
  let b := Demo.bootstrapped Demo.token_credentials (subprocess_run (Demo.exits_with 0)) in
  resolves (Demo.connection_manager Demo.token_credentials) Demo.token_credentials ∧
  is_Some (heap Demo.world0 !! 0) ∧
  ∃ l1 w1 l2 w2,
    BootstrappedCdkBuilder._get_envs b Demo.world0 = (Ok l1, w1) ∧
    BootstrappedCdkBuilder._get_envs b w1 = (Ok l2, w2) ∧
    l1 ≠ l2 ∧
    deref w2 l1 = deref w1 l1 ∧
    deref w2 l2 = deref w1 l1 ∧
    deref w2 0 = deref Demo.world0 0.
Proof.
  intros b.
  assert (resolves (Demo.connection_manager Demo.token_credentials) Demo.token_credentials)
    as Hr.
  { eexists. split; reflexivity. }
  assert (is_Some (heap Demo.world0 !! 0)) as Hs.
  { exists Demo.ambient. reflexivity. }
  split; [exact Hr|]. split; [exact Hs|].
  exact (proj1 (get_envs_returns_a_new_dictionary_each_time (H := Demo.cdk) b
                  (Demo.non_python Demo.token_credentials (subprocess_run (Demo.exits_with 0)))
                  Demo.token_credentials Demo.token_credentials Demo.world0
                  Hr Hr Hs Hs)).
Defined.

(** ** More on the asset manifest *)

Lemma first_asset_manifest_app (pre post : list CloudArtifact) (a : AssetManifestArtifact) :
  (∀ a', IsAssetManifestArtifact a' ∉ pre) →
  BootstrappedCdkBuilder.first_asset_manifest (pre ++ IsAssetManifestArtifact a :: post) =
  Some a.
Proof.
  induction pre as [|x pre IH]; intros Hpre; [reflexivity|].
  destruct x as [a'|s|id]; cbn [app BootstrappedCdkBuilder.first_asset_manifest].
  - destruct (Hpre a'). left.
  - apply IH. intros a' Ha. apply (Hpre a'). by right.
  - apply IH. intros a' Ha. apply (Hpre a'). by right.
Qed.

Lemma first_asset_manifest_Some (l : list CloudArtifact) (a : AssetManifestArtifact) :
  BootstrappedCdkBuilder.first_asset_manifest l = Some a → IsAssetManifestArtifact a ∈ l.
Proof.
  induction l as [|x l IH]; [done|].
  destruct x as [a'|s|id]; cbn [BootstrappedCdkBuilder.first_asset_manifest].
  - intros [= ->]. left.
  - intros Ha. right. by apply IH.
  - intros Ha. right. by apply IH.
Qed.

(** X4.  The in-process [_get_assets_manifest] returns exactly when some
    artifact of the assembly is an asset-manifest artifact, never changes the
    world, and among several manifests it returns the first in the order of
    the artifacts. *)
Theorem get_assets_manifest_returns_first
    (pre post : list CloudArtifact) (a : AssetManifestArtifact)
    (cloud_assembly : CloudAssembly) (w : world)
    (Hpre : ∀ a', IsAssetManifestArtifact a' ∉ pre) :
  BootstrappedCdkBuilder._get_assets_manifest
    {| artifacts := pre ++ IsAssetManifestArtifact a :: post |} w = (Ok a, w) ∧
  ((∃ a', BootstrappedCdkBuilder._get_assets_manifest cloud_assembly w = (Ok a', w)) ↔
   (∃ a', IsAssetManifestArtifact a' ∈ artifacts cloud_assembly)) ∧
  (BootstrappedCdkBuilder._get_assets_manifest cloud_assembly w).2 = w.
Proof.
  unfold BootstrappedCdkBuilder._get_assets_manifest. split_and!.
  - cbn [artifacts]. by rewrite first_asset_manifest_app.
  - split.
    + intros [a' Ha].
      destruct (BootstrappedCdkBuilder.first_asset_manifest (artifacts cloud_assembly))
        as [a''|] eqn:E; [|done].
      exists a''. by apply first_asset_manifest_Some.
    + intros [a' Ha].
      destruct (BootstrappedCdkBuilder.first_asset_manifest (artifacts cloud_assembly))
        as [a''|] eqn:E; [by exists a''|].
      exfalso. revert a' Ha. clear -E.
      induction (artifacts cloud_assembly) as [|x l IH]; intros a' Ha.
      * by apply elem_of_nil in Ha.
      * destruct x as [a''|s|id]; cbn [BootstrappedCdkBuilder.first_asset_manifest] in E;
          [done| |]; apply elem_of_cons in Ha as [[=]|Ha]; eauto.
  - by destruct (BootstrappedCdkBuilder.first_asset_manifest (artifacts cloud_assembly)).
Qed.

Lemma get_assets_manifest_returns_first_witness :
  let stack := IsCloudFormationStackArtifact {| stack_name := "CDKStack"; template := JObj ∅ |} in
  (∀ a', IsAssetManifestArtifact a' ∉ [stack; OtherArtifact "Tree"]) ∧
  BootstrappedCdkBuilder._get_assets_manifest
    {| artifacts :=
         [stack; OtherArtifact "Tree"] ++
         IsAssetManifestArtifact (Demo.artifact Demo.with_zip) ::
         [IsAssetManifestArtifact (Demo.artifact Demo.template_only)] |}
    Demo.world0 = (Ok (Demo.artifact Demo.with_zip), Demo.world0).
Proof.
  intros stack.
  assert (∀ a', IsAssetManifestArtifact a' ∉ [stack; OtherArtifact "Tree"]) as Hpre.
  { intros a' Ha. apply elem_of_cons in Ha as [[=]|Ha].
    apply elem_of_cons in Ha as [[=]|Ha]. by apply elem_of_nil in Ha. }
  split; [exact Hpre|].
  exact (proj1 (get_assets_manifest_returns_first [stack; OtherArtifact "Tree"]
                  [IsAssetManifestArtifact (Demo.artifact Demo.template_only)]
                  (Demo.artifact Demo.with_zip) (Demo.assembly Demo.with_zip)
                  Demo.world0 Hpre)).
Defined.

Lemma Bootstrapped_only_asset_is_template_eq (a : AssetManifestArtifact) :
  BootstrappedCdkBuilder._only_asset_is_template a =
  if bool_decide (docker_images (contents a) = ∅)
  then bool_decide (keys (manifest_files (contents a)) = ["CDKStack.template.json"])
  else false.
Proof.
  unfold BootstrappedCdkBuilder._only_asset_is_template.
  by destruct (bool_decide (docker_images (contents a) = ∅)).
Qed.

(** X5.  The two classifications agree: for a manifest document and the
    in-memory manifest with the same file assets and image assets, the
    out-of-process [_only_asset_is_template] at the identifier [CDKStack]
    returns what the in-process one returns. *)
Theorem only_asset_is_template_agree
    (manifest : json) (fls imgs : gmap string json) (path : string)
    (Hfiles : file_assets manifest = Some fls)
    (Himages : image_assets manifest = Some imgs) :
  NonPythonCdkBuilder._only_asset_is_template manifest CdkBuilder.STACK_LOGICAL_ID =
  Ok (BootstrappedCdkBuilder._only_asset_is_template
        {| file := path;
           contents := {| manifest_files := fls; docker_images := imgs |} |}).
Proof.
  rewrite (NonPython_only_asset_is_template_run manifest _ fls imgs Hfiles Himages).
  by rewrite Bootstrapped_only_asset_is_template_eq.
Qed.

Lemma only_asset_is_template_agree_witness :
  file_assets (Demo.manifest_doc Demo.with_zip ∅) = Some Demo.with_zip ∧
  image_assets (Demo.manifest_doc Demo.with_zip ∅) = Some ∅ ∧
  NonPythonCdkBuilder._only_asset_is_template (Demo.manifest_doc Demo.with_zip ∅)
    CdkBuilder.STACK_LOGICAL_ID =
  Ok (BootstrappedCdkBuilder._only_asset_is_template
        {| file := "cdk.out/CDKStack.assets.json";
           contents := {| manifest_files := Demo.with_zip; docker_images := ∅ |} |}).
Proof.
  split; [reflexivity|]. split; [reflexivity|].
  apply (only_asset_is_template_agree (Demo.manifest_doc Demo.with_zip ∅)
           Demo.with_zip ∅ "cdk.out/CDKStack.assets.json"); reflexivity.
Defined.

(** X6.  The out-of-process classification skips the publish step only on
    firm ground: for any parsed document whatever, it returns [True] only if
    the document is an object whose ["files"] entry is an object with exactly
    the key [<stack_logical_id>.template.json] and whose ["dockerImages"]
    entry is missing or false in Python's sense. *)
Theorem only_asset_is_template_true_only_for_template
    (manifest : json) (stack_logical_id : string)
    (Htrue : NonPythonCdkBuilder._only_asset_is_template manifest stack_logical_id =
             Ok true) :
  ∃ m f,
    manifest = JObj m ∧
    m !! "files" = Some (JObj f) ∧
    dom f = {[stack_logical_id +:+ ".template.json"]} ∧
    truthy (default (JObj ∅) (m !! "dockerImages")) = false.
Proof.
  revert Htrue.
  unfold NonPythonCdkBuilder._only_asset_is_template,
    NonPythonCdkBuilder.get_or_empty, NonPythonCdkBuilder.keys_of.
  destruct manifest as [| | | | |m]; cbn [mbind result_bind]; try done.
  destruct (truthy (default (JObj ∅) (m !! "dockerImages"))) eqn:Ht; [done|].
  destruct (m !! "files") as [x|] eqn:Hf; cbn [default].
  - destruct x as [| | | | |f]; cbn [mbind result_bind]; try done.
    intros [= Hk]. apply bool_decide_eq_true in Hk. apply keys_singleton in Hk.
    by exists m, f.
  - cbn [mbind result_bind]. rewrite keys_empty.
    intros [= Hk]; by apply bool_decide_eq_true in Hk.
Qed.

Lemma only_asset_is_template_true_only_for_template_witness :
  NonPythonCdkBuilder._only_asset_is_template
    (Demo.manifest_doc Demo.template_only ∅) "CDKStack" = Ok true ∧
  ∃ m f,
    Demo.manifest_doc Demo.template_only ∅ = JObj m ∧
    m !! "files" = Some (JObj f) ∧
    dom f = {["CDKStack" +:+ ".template.json"]} ∧
    truthy (default (JObj ∅) (m !! "dockerImages")) = false.
Proof.
  assert (NonPythonCdkBuilder._only_asset_is_template
            (Demo.manifest_doc Demo.template_only ∅) "CDKStack" = Ok true) as Ht
    by (vm_compute; reflexivity).
  split; [exact Ht|].
  exact (only_asset_is_template_true_only_for_template
           (Demo.manifest_doc Demo.template_only ∅) "CDKStack" Ht).
Defined.

(** ** The calls of [subprocess_run] on every path *)

Lemma open_json_load_world (path : Path) (w : world) : (open_json_load path w).2 = w.
Proof.
  unfold open_json_load.
  destruct (files (fs w) !! path) as [[j|]|]; try reflexivity.
  by destruct (bool_decide _).
Qed.

Lemma NonPython_get_assets_manifest_world (path : Path) (w : world) :
  (NonPythonCdkBuilder._get_assets_manifest path w).2 = w.
Proof.
  unfold NonPythonCdkBuilder._get_assets_manifest.
  rewrite bind_run. unfold get_world at 1.
  destruct (path_exists (fs w) path); cbn [negb]; [|reflexivity].
  rewrite bind_run. pose proof (open_json_load_world path w) as Hw.
  destruct (open_json_load path w) as [[j|e] w1]; cbn [snd] in Hw; by subst.
Qed.

Lemma NonPython_get_assets_manifest_ok (path : Path) (manifest : json) (w w' : world) :
  NonPythonCdkBuilder._get_assets_manifest path w = (Ok manifest, w') →
  files (fs w) !! path = Some (Some manifest).
Proof.
  unfold NonPythonCdkBuilder._get_assets_manifest.
  rewrite bind_run. unfold get_world at 1.
  destruct (path_exists (fs w) path); cbn [negb]; [|done].
  rewrite bind_run. pose proof (open_json_load_ok path manifest w) as Ho.
  destruct (open_json_load path w) as [[j|e] w1]; [|done].
  intros [= -> _]. by apply Ho.
Qed.

Lemma builder_call_publish (cm : ConnectionManager) (c : Credentials) (path : string)
    (ambient : gmap string string) :
  resolves cm c → builder_call cm (publish_call path (envs_after ambient cm c)).
Proof.
  intros Hc. split_and!; try reflexivity. exists c. split; [done|].
  apply envs_after_holds.
Qed.

Lemma builder_call_synth (cm : ConnectionManager) (c : Credentials) (command cwd : string)
    (ambient : gmap string string) :
  resolves cm c → builder_call cm (synth_call command (envs_after ambient cm c) cwd).
Proof.
  intros Hc. split_and!; try reflexivity. exists c. split; [done|].
  apply envs_after_holds.
Qed.

(** Every run of the out-of-process [_synthesize]: it raises before any call,
    or it makes one call, the synthesis command. *)
Lemma NonPython_synthesize_runs (resolve : Path → Path)
    (self : NonPythonCdkBuilder.t) (cdk_json_path : Path) (output_dir : string)
    (context : list (string * string)) (id : string) (w : world) :
  (runs (trace (NonPythonCdkBuilder._synthesize resolve self cdk_json_path output_dir
                  context id w).2) = runs (trace w) ∧
   ∃ e, (NonPythonCdkBuilder._synthesize resolve self cdk_json_path output_dir
           context id w).1 = Raise e) ∨
  (∃ c, resolves (NonPythonCdkBuilder._connection_manager self) c ∧
        runs (trace (NonPythonCdkBuilder._synthesize resolve self cdk_json_path output_dir
                       context id w).2) =
        (runs (trace w) ++
         [synth_call (NonPythonCdkBuilder._create_command output_dir context id)
            (envs_after (deref w (NonPythonCdkBuilder._environment_variables self))
               (NonPythonCdkBuilder._connection_manager self) c)
            (Path_str (resolve (Path_parent cdk_json_path)))])%list).
Proof.
  destruct (NonPython_get_envs_cases self w) as [(c & Hc & Hrun)|(e & d & He & Hrun)].
  - right. exists c. split; [done|].
    rewrite (NonPython_synthesize_trace _ _ _ _ _ _ c) by done.
    by rewrite runs_app.
  - left. unfold NonPythonCdkBuilder._synthesize. rewrite bind_run, Hrun.
    cbn [fst snd]. split; [reflexivity|by exists e].
Qed.

(** Every run of the out-of-process [_publish]: no call, or one call, the
    publish command. *)
Lemma NonPython_publish_runs (self : NonPythonCdkBuilder.t) (path : Path) (id : string)
    (w : world) :
  runs (trace (NonPythonCdkBuilder._publish self path id w).2) = runs (trace w) ∨
  (∃ c, resolves (NonPythonCdkBuilder._connection_manager self) c ∧
        runs (trace (NonPythonCdkBuilder._publish self path id w).2) =
        (runs (trace w) ++
         [publish_call (Path_str path)
            (envs_after (deref w (NonPythonCdkBuilder._environment_variables self))
               (NonPythonCdkBuilder._connection_manager self) c)])%list).
Proof.
  destruct (NonPythonCdkBuilder._get_assets_manifest path w) as [[manifest|e] w1] eqn:Hm.
  2:{ left. unfold NonPythonCdkBuilder._publish. rewrite bind_run, Hm.
      pose proof (NonPython_get_assets_manifest_world path w) as Hw.
      rewrite Hm in Hw. cbn [snd] in *. by subst. }
  pose proof (NonPython_get_assets_manifest_world path w) as Hw.
  rewrite Hm in Hw. cbn [snd] in Hw. subst w1.
  pose proof (NonPython_get_assets_manifest_ok _ _ _ _ Hm) as Hfile.
  destruct (NonPythonCdkBuilder._only_asset_is_template manifest id) as [[|]|e] eqn:Ho.
  - left. rewrite (NonPython_publish_skip self path id manifest w Hfile Ho).
    cbn [snd]. apply runs_add_log.
  - destruct (NonPython_get_envs_cases self w) as [(c & Hc & Hrun)|(e & d & He & Hrun)].
    + right. exists c. split; [done|].
      rewrite (NonPython_publish_trace self path id manifest c w Hfile Ho Hc).
      by rewrite runs_app.
    + left. unfold NonPythonCdkBuilder._publish.
      rewrite bind_run, Hm, bind_run. unfold lift at 1. rewrite Ho.
      by rewrite bind_run, Hrun.
  - left. unfold NonPythonCdkBuilder._publish.
    rewrite bind_run, Hm, bind_run. unfold lift at 1. by rewrite Ho.
Qed.

Lemma is_synth_call_intro (resolve : Path → Path) (cm : ConnectionManager)
    (c : Credentials) (cdk_json_path : Path) (output_dir : string)
    (context : list (string * string)) (id : string) (ambient : gmap string string) :
  resolves cm c →
  is_synth_call resolve cm cdk_json_path output_dir context id
    (synth_call (NonPythonCdkBuilder._create_command output_dir context id)
       (envs_after ambient cm c) (Path_str (resolve (Path_parent cdk_json_path)))).
Proof.
  intros Hc. split_and!.
  - by apply builder_call_synth.
  - apply create_command_shape.
  - reflexivity.
Qed.

Lemma is_publish_call_intro (cm : ConnectionManager) (c : Credentials) (path : string)
    (ambient : gmap string string) :
  resolves cm c → is_publish_call cm path (publish_call path (envs_after ambient cm c)).
Proof. intros Hc. split_and!; [by apply builder_call_publish|reflexivity..]. Qed.

(** X7.  The calls of [subprocess_run] of an out-of-process build, on every
    path: none when the credentials do not resolve (the build then raises);
    otherwise the synthesis command, followed by at most one more call, the
    publish command on [Path(output_dir, "<stack_logical_id>.assets.json")].
    Every
    call goes through the shell with [check=True], writes to [sys.stderr] and
    gets a derived credential environment, so none sees [AWS_PROFILE]. *)
Theorem non_python_build_makes_synth_then_publish_calls
    (resolve : Path → Path) (n : NonPythonCdkBuilder.t) (cdk_json_path : Path)
    (context : list (string * string)) (stack_logical_id : string) (w : world) :
  let cm := NonPythonCdkBuilder._connection_manager n in
  let output_dir := tmp_name (tmp_count w) in
  let out :=
    NonPythonCdkBuilder.build_template resolve n cdk_json_path context stack_logical_id w in
  ∃ added,
    runs (trace (snd out)) = (runs (trace w) ++ added)%list ∧
    ((added = [] ∧ ∃ e, fst out = Raise e) ∨
     (∃ s, added = [s] ∧
           is_synth_call resolve cm cdk_json_path output_dir context stack_logical_id s) ∨
     (∃ s q, added = [s; q] ∧
             is_synth_call resolve cm cdk_json_path output_dir context stack_logical_id s ∧
             is_publish_call cm
               (Path_str (Path_of output_dir (stack_logical_id +:+ ".assets.json"))) q)).
Proof.
  intros cm output_dir out. unfold out.
  rewrite NonPython_build_template_body. cbn [fst snd]. fold output_dir.
  set (w0 := (TemporaryDirectory_enter w).2).
  change (trace (set_fs ?f ?x)) with (trace x).
  change (runs (trace w)) with (runs (trace w0)).
  rewrite NonPython_build_in_binds, bind_run.
  destruct (NonPython_synthesize_runs resolve n cdk_json_path output_dir context
              stack_logical_id w0) as [[Hr [e He]]|(c & Hc & Hr)];
    destruct (NonPythonCdkBuilder._synthesize _ _ _ _ _ _ w0) as [[[]|e'] w1];
    cbn [fst snd] in *.
  - done.
  - exists []. rewrite app_nil_r. split; [done|]. left. split; [done|]. by exists e'.
  - rewrite bind_run.
    destruct (NonPython_publish_runs n (Path_of output_dir (stack_logical_id +:+ ".assets.json"))
                stack_logical_id w1) as [Hp|(c2 & Hc2 & Hp)];
      destruct (NonPythonCdkBuilder._publish _ _ _ w1) as [[[]|e2] w2];
      cbn [fst snd] in *;
      try (unfold NonPythonCdkBuilder._get_template;
           rewrite open_json_load_world);
      rewrite Hp, Hr.
    + eexists. split; [reflexivity|]. right. left. eexists. split; [reflexivity|].
      by apply is_synth_call_intro.
    + eexists. split; [reflexivity|]. right. left. eexists. split; [reflexivity|].
      by apply is_synth_call_intro.
    + rewrite <- app_assoc. eexists. split; [reflexivity|]. right. right.
      do 2 eexists. split; [reflexivity|].
      split; [by apply is_synth_call_intro|by apply is_publish_call_intro].
    + rewrite <- app_assoc. eexists. split; [reflexivity|]. right. right.
      do 2 eexists. split; [reflexivity|].
      split; [by apply is_synth_call_intro|by apply is_publish_call_intro].
  - rewrite Hr. eexists. split; [reflexivity|]. right. left.
    eexists. split; [reflexivity|]. by apply is_synth_call_intro.
Qed.

Section in_process_runs.
Context `{AwsCdk}.

(** The in-process [_synthesize] only logs: whatever it returns or raises,
    the world has two more debug messages and nothing else is new. *)
Lemma Bootstrapped_synthesize_world (self : BootstrappedCdkBuilder.t)
    (sc : StackClass) (cdk_context : CdkContext) (data : UserData) (w : world) :
  (BootstrappedCdkBuilder._synthesize self sc cdk_context data w).2 =
  add_event (Log DEBUG ("CDK Context: " +:+ format_context cdk_context))
    (add_event (Log DEBUG "CDK synthesing CdkStack Class") w).
Proof.
  unfold BootstrappedCdkBuilder._synthesize, mbind, M_bind, logger_debug, modify, lift.
  cbv beta iota.
  destruct (BootstrappedCdkBuilder._app_class self cdk_context) as [app|e]; [|done].
  destruct (sc app _ data None) as [app'|e]; [|done].
  by destruct (app_synth app').
Qed.

Lemma Bootstrapless_synthesize_world (self : BootstraplessCdkBuilder.t)
    (sc : StackClass) (cdk_context : CdkContext) (data : UserData) (w : world) :
  (BootstraplessCdkBuilder._synthesize self sc cdk_context data w).2 =
  add_event (Log DEBUG ("CDK Context: " +:+ format_context cdk_context))
    (add_event (Log DEBUG "CDK synthesing CdkStack Class") w).
Proof.
  unfold BootstraplessCdkBuilder._synthesize, BootstraplessCdkBuilder.make_synthesizer,
    mbind, M_bind, logger_debug, modify, lift, raise, mret, M_ret.
  cbv beta iota.
  destruct (BootstrappedCdkBuilder._app_class _ cdk_context) as [app|e]; [|done].
  destruct (BootstraplessCdkBuilder._synthesizer_class self _) as [syn|[]]; try done.
  destruct (sc app _ data (Some syn)) as [app'|e]; [|done].
  by destruct (app_synth app').
Qed.

Lemma Bootstrapped_get_template_world (ca : CloudAssembly) (w : world) :
  (BootstrappedCdkBuilder._get_template ca w).2 = w.
Proof.
  unfold BootstrappedCdkBuilder._get_template, lift. rewrite bind_run.
  by destruct (get_stack_by_name ca _).
Qed.

(** Every run of the in-process [_publish]: no call, or one call, the publish
    command on the file of the first asset manifest, which does not classify
    as only-template. *)
Lemma Bootstrapped_publish_runs (self : BootstrappedCdkBuilder.t) (ca : CloudAssembly)
    (w : world) :
  runs (trace (BootstrappedCdkBuilder._publish self ca w).2) = runs (trace w) ∨
  (∃ a c,
     BootstrappedCdkBuilder.first_asset_manifest (artifacts ca) = Some a ∧
     BootstrappedCdkBuilder._only_asset_is_template a = false ∧
     resolves (BootstrappedCdkBuilder._connection_manager self) c ∧
     runs (trace (BootstrappedCdkBuilder._publish self ca w).2) =
     (runs (trace w) ++
      [publish_call (file a)
         (envs_after (deref w (BootstrappedCdkBuilder._environment_variables self))
            (BootstrappedCdkBuilder._connection_manager self) c)])%list).
Proof.
  destruct (BootstrappedCdkBuilder.first_asset_manifest (artifacts ca)) as [a|] eqn:Ha.
  2:{ left. rewrite Bootstrapped_publish_without_manifest; [done|].
      intros a Hin. clear -Ha Hin.
      induction (artifacts ca) as [|x l IH]; [by apply elem_of_nil in Hin|].
      destruct x as [a'|st|id]; cbn [BootstrappedCdkBuilder.first_asset_manifest] in Ha;
        [done| |]; apply elem_of_cons in Hin as [[=]|Hin]; eauto. }
  destruct (BootstrappedCdkBuilder._only_asset_is_template a) eqn:Ho.
  - left. rewrite (Bootstrapped_publish_skip self ca a w Ha Ho). cbn [snd].
    apply runs_add_log.
  - destruct (Bootstrapped_get_envs_cases self w) as [(c & Hc & Hrun)|(e & d & He & Hrun)].
    + right. exists a, c. split_and!; try done.
      rewrite (Bootstrapped_publish_trace self ca a c w Ha Ho Hc).
      by rewrite runs_app.
    + left. unfold BootstrappedCdkBuilder._publish.
      rewrite bind_run. unfold BootstrappedCdkBuilder._get_assets_manifest.
      rewrite Ha. unfold mret at 1, M_ret at 1. rewrite Ho.
      by rewrite bind_run, Hrun.
Qed.

(** The calls of an inherited [build_template] whose [_synthesize] makes
    none. *)
Lemma build_template_with_runs (synthesize : M CloudAssembly)
    (self : BootstrappedCdkBuilder.t) (w : world) :
  (∀ w0, runs (trace (synthesize w0).2) = runs (trace w0)) →
  ∃ added,
    runs (trace (BootstrappedCdkBuilder.build_template_with synthesize self w).2) =
    (runs (trace w) ++ added)%list ∧
    (added = [] ∨
     ∃ ca w1 a q,
       synthesize w = (Ok ca, w1) ∧
       BootstrappedCdkBuilder.first_asset_manifest (artifacts ca) = Some a ∧
       BootstrappedCdkBuilder._only_asset_is_template a = false ∧
       added = [q] ∧
       is_publish_call (BootstrappedCdkBuilder._connection_manager self) (file a) q).
Proof.
  intros Hs. unfold BootstrappedCdkBuilder.build_template_with.
  rewrite bind_run. pose proof (Hs w) as Hw.
  destruct (synthesize w) as [[ca|e] w1] eqn:Es; cbn [snd] in Hw.
  2:{ exists []. rewrite app_nil_r. by split; [|left]. }
  rewrite bind_run.
  destruct (Bootstrapped_publish_runs self ca w1) as [Hp|(a & c & Ha & Ho & Hc & Hp)];
    destruct (BootstrappedCdkBuilder._publish self ca w1) as [[[]|e] w2];
    cbn [snd] in *;
    try (rewrite bind_run;
         pose proof (Bootstrapped_get_template_world ca w2) as Ht;
         destruct (BootstrappedCdkBuilder._get_template ca w2) as [[t|e] w3];
         cbn [snd] in Ht; subst w3; cbn [snd];
         unfold mret, M_ret; cbn [snd]);
    rewrite Hp, Hw.
  1-3: exists []; rewrite app_nil_r; by split; [|left].
  all: eexists; (split; [reflexivity|]); right; exists ca, w1, a; eexists;
    split_and!; try done; by apply is_publish_call_intro.
Qed.

End in_process_runs.

(** X8.  The calls of [subprocess_run] of an in-process build, bootstrapped
    or bootstrapless, on every path: at most one, and if one, then synthesis
    returned an assembly whose first asset manifest does not classify as
    only-template, and the call is the publish command on the file of that
    manifest, made through the shell with [check=True] and a derived
    credential environment.  Synthesis itself makes no call. *)
Theorem in_process_build_makes_at_most_one_publish_call `{AwsCdk}
    (b : BootstrappedCdkBuilder.t) (bl : BootstraplessCdkBuilder.t)
    (stack_class : StackClass) (cdk_context : CdkContext) (sceptre_user_data : UserData)
    (w : world) :
  (∃ added,
     runs (trace (BootstrappedCdkBuilder.build_template b stack_class cdk_context
                    sceptre_user_data w).2) = (runs (trace w) ++ added)%list ∧
     (added = [] ∨
      ∃ ca w1 a q,
        BootstrappedCdkBuilder._synthesize b stack_class cdk_context sceptre_user_data w =
          (Ok ca, w1) ∧
        BootstrappedCdkBuilder.first_asset_manifest (artifacts ca) = Some a ∧
        BootstrappedCdkBuilder._only_asset_is_template a = false ∧
        added = [q] ∧
        is_publish_call (BootstrappedCdkBuilder._connection_manager b) (file a) q)) ∧
  (∃ added,
     runs (trace (BootstraplessCdkBuilder.build_template bl stack_class cdk_context
                    sceptre_user_data w).2) = (runs (trace w) ++ added)%list ∧
     (added = [] ∨
      ∃ ca w1 a q,
        BootstraplessCdkBuilder._synthesize bl stack_class cdk_context sceptre_user_data w =
          (Ok ca, w1) ∧
        BootstrappedCdkBuilder.first_asset_manifest (artifacts ca) = Some a ∧
        BootstrappedCdkBuilder._only_asset_is_template a = false ∧
        added = [q] ∧
        is_publish_call
          (BootstrappedCdkBuilder._connection_manager (BootstraplessCdkBuilder.base bl))
          (file a) q)).
Proof.
  split.
  - apply build_template_with_runs. intros w0.
    rewrite Bootstrapped_synthesize_world. by rewrite !runs_add_log.
  - apply build_template_with_runs. intros w0.
    rewrite Bootstrapless_synthesize_world. by rewrite !runs_add_log.
Qed.

(** ** No build changes a dictionary it did not make *)

#[local] Instance heap_grows_preorder : PreOrder heap_grows.
Proof.
  split.
  - intros w. unfold heap_grows. done.
  - intros w1 w2 w3. unfold heap_grows. apply transitivity.
Qed.

Lemma keeps_bind {A B} (R : world → world → Prop) `{!Transitive R}
    (m : M A) (f : A → M B) :
  keeps R m → (∀ a, keeps R (f a)) → keeps R (m ≫= f).
Proof.
  intros Hm Hf w. rewrite bind_run. specialize (Hm w).
  destruct (m w) as [[a|e] w1]; cbn [snd] in *; [|done].
  by etransitivity; [|apply Hf].
Qed.

Lemma keeps_mret {A} (a : A) : keeps heap_grows (mret a).
Proof. by intros w. Qed.

Lemma keeps_raise {A} (e : exception) : keeps heap_grows (raise e : M A).
Proof. by intros w. Qed.

Lemma keeps_lift {A} (r : result A) : keeps heap_grows (lift r).
Proof. by intros w. Qed.

Lemma keeps_get_world : keeps heap_grows get_world.
Proof. by intros w. Qed.

Lemma keeps_logger_debug (msg : string) : keeps heap_grows (logger_debug msg).
Proof. intros w. unfold heap_grows. reflexivity. Qed.

Lemma keeps_logger_info (msg : string) : keeps heap_grows (logger_info msg).
Proof. intros w. unfold heap_grows. reflexivity. Qed.

Lemma keeps_open_json_load (path : Path) : keeps heap_grows (open_json_load path).
Proof. intros w. by rewrite open_json_load_world. Qed.

Lemma keeps_call_subprocess_run (run : runner) (c : proc_call) :
  keeps heap_grows (call_subprocess_run run c).
Proof.
  intros w. unfold call_subprocess_run, heap_grows. cbv zeta.
  destruct (run c (fs (add_event (Run c) w))) as [r f]. reflexivity.
Qed.

Lemma heap_grows_insert_fresh (w : world) (d : gmap string string) :
  heap_grows w (set_heap (insert (fresh (dom (heap w))) d) w).
Proof.
  unfold heap_grows, set_heap. cbn [heap]. apply insert_subseteq.
  apply not_elem_of_dom, is_fresh.
Qed.

Lemma keeps_with_TemporaryDirectory {A} (body : string → M A) :
  (∀ d, keeps heap_grows (body d)) → keeps heap_grows (with_TemporaryDirectory body).
Proof.
  intros Hb w. unfold with_TemporaryDirectory, TemporaryDirectory_enter. cbv zeta.
  specialize (Hb (tmp_name (tmp_count w))
                {| heap := heap w;
                   fs := {| dirs := {[parse_path (tmp_name (tmp_count w))]} ∪ dirs (fs w);
                            files := files (fs w) |};
                   tmp_count := S (tmp_count w);
                   trace := trace w |}).
  destruct (body _ _) as [r w2]. exact Hb.
Qed.

Create HintDb keeps.
#[local] Hint Resolve keeps_mret keeps_raise keeps_lift keeps_get_world
  keeps_logger_debug keeps_logger_info keeps_open_json_load
  keeps_call_subprocess_run : keeps.

Ltac keeps_steps :=
  repeat first
    [ apply keeps_bind; [apply _| |intros ?]
    | solve [auto with keeps] ].

Section keeps_in_process.
Context `{AwsCdk}.

Lemma keeps_Bootstrapped_get_envs (self : BootstrappedCdkBuilder.t) :
  keeps heap_grows (BootstrappedCdkBuilder._get_envs self).
Proof.
  intros w. destruct (Bootstrapped_get_envs_frame self w) as (d & r & -> & _).
  apply heap_grows_insert_fresh.
Qed.

Lemma keeps_Bootstrapped_publish (self : BootstrappedCdkBuilder.t) (ca : CloudAssembly) :
  keeps heap_grows (BootstrappedCdkBuilder._publish self ca).
Proof.
  unfold BootstrappedCdkBuilder._publish. apply keeps_bind; [apply _| |intros a].
  - unfold BootstrappedCdkBuilder._get_assets_manifest.
    destruct (BootstrappedCdkBuilder.first_asset_manifest _); auto with keeps.
  - destruct (BootstrappedCdkBuilder._only_asset_is_template a); [auto with keeps|].
    apply keeps_bind; [apply _|apply keeps_Bootstrapped_get_envs|intros envs].
    unfold BootstrappedCdkBuilder._run_command. keeps_steps.
Qed.

Lemma keeps_build_template_with (synthesize : M CloudAssembly)
    (self : BootstrappedCdkBuilder.t) :
  keeps heap_grows synthesize →
  keeps heap_grows (BootstrappedCdkBuilder.build_template_with synthesize self).
Proof.
  intros Hs. unfold BootstrappedCdkBuilder.build_template_with.
  apply keeps_bind; [apply _|done|intros ca].
  apply keeps_bind; [apply _|apply keeps_Bootstrapped_publish|intros _].
  unfold BootstrappedCdkBuilder._get_template. keeps_steps.
Qed.

Lemma keeps_Bootstrapped_synthesize (self : BootstrappedCdkBuilder.t) (sc : StackClass)
    (cdk_context : CdkContext) (data : UserData) :
  keeps heap_grows (BootstrappedCdkBuilder._synthesize self sc cdk_context data).
Proof.
  intros w. rewrite Bootstrapped_synthesize_world. unfold heap_grows. reflexivity.
Qed.

Lemma keeps_Bootstrapless_synthesize (self : BootstraplessCdkBuilder.t) (sc : StackClass)
    (cdk_context : CdkContext) (data : UserData) :
  keeps heap_grows (BootstraplessCdkBuilder._synthesize self sc cdk_context data).
Proof.
  intros w. rewrite Bootstrapless_synthesize_world. unfold heap_grows. reflexivity.
Qed.

End keeps_in_process.

Lemma keeps_NonPython_get_envs (self : NonPythonCdkBuilder.t) :
  keeps heap_grows (NonPythonCdkBuilder._get_envs self).
Proof.
  intros w. destruct (NonPython_get_envs_frame self w) as (d & r & -> & _).
  apply heap_grows_insert_fresh.
Qed.

Lemma keeps_NonPython_build_template (resolve : Path → Path)
    (self : NonPythonCdkBuilder.t) (cdk_json_path : Path)
    (context : list (string * string)) (id : string) :
  keeps heap_grows (NonPythonCdkBuilder.build_template resolve self cdk_json_path context id).
Proof.
  unfold NonPythonCdkBuilder.build_template. apply keeps_with_TemporaryDirectory.
  intros d. unfold NonPythonCdkBuilder.build_in.
  apply keeps_bind; [apply _| |intros _].
  { unfold NonPythonCdkBuilder._synthesize.
    apply keeps_bind; [apply _|apply keeps_NonPython_get_envs|intros envs].
    cbv zeta. keeps_steps. }
  cbv zeta. apply keeps_bind; [apply _| |intros _].
  { unfold NonPythonCdkBuilder._publish. apply keeps_bind; [apply _| |intros manifest].
    - unfold NonPythonCdkBuilder._get_assets_manifest.
      apply keeps_bind; [apply _|auto with keeps|intros w0].
      destruct (negb _); keeps_steps.
    - apply keeps_bind; [apply _|auto with keeps|intros only].
      destruct only; [auto with keeps|].
      apply keeps_bind; [apply _|apply keeps_NonPython_get_envs|intros envs].
      keeps_steps. }
  unfold NonPythonCdkBuilder._get_template. keeps_steps.
Qed.

(** X9.  No build changes a dictionary that it did not make itself: after
    [build_template] of any of the three builders, however it ends, every
    dictionary that was on the heap before, the ambient environment mapping
    among them, has the items it had. *)
Theorem build_template_leaves_dictionaries_unchanged `{AwsCdk}
    (b : BootstrappedCdkBuilder.t) (bl : BootstraplessCdkBuilder.t)
    (stack_class : StackClass) (cdk_context : CdkContext) (sceptre_user_data : UserData)
    (resolve : Path → Path) (n : NonPythonCdkBuilder.t) (cdk_json_path : Path)
    (context : list (string * string)) (stack_logical_id : string)
    (w : world) (l : loc) (d : gmap string string)
    (Hl : heap w !! l = Some d) :
  heap (BootstrappedCdkBuilder.build_template b stack_class cdk_context
          sceptre_user_data w).2 !! l = Some d ∧
  heap (BootstraplessCdkBuilder.build_template bl stack_class cdk_context
          sceptre_user_data w).2 !! l = Some d ∧
  heap (NonPythonCdkBuilder.build_template resolve n cdk_json_path context
          stack_logical_id w).2 !! l = Some d.
Proof.
  split_and!.
  - eapply lookup_weaken; [exact Hl|].
    apply (keeps_build_template_with _ b (keeps_Bootstrapped_synthesize b _ _ _) w).
  - eapply lookup_weaken; [exact Hl|].
    apply (keeps_build_template_with _ _ (keeps_Bootstrapless_synthesize bl _ _ _) w).
  - eapply lookup_weaken; [exact Hl|].
    apply (keeps_NonPython_build_template resolve n cdk_json_path context
             stack_logical_id w).
Qed.

Lemma build_template_leaves_dictionaries_unchanged_witness :
  let run := subprocess_run Demo.synth_writes in
  heap Demo.world0 !! 0 = Some Demo.ambient ∧
  heap (BootstrappedCdkBuilder.build_template (Demo.bootstrapped Demo.credentials run)
          (Demo.stack_class Demo.with_zip) [] tt Demo.world0).2 !! 0 = Some Demo.ambient ∧
  heap (BootstraplessCdkBuilder.build_template (Demo.bootstrapless Demo.credentials run [])
          (Demo.stack_class Demo.with_zip) [] tt Demo.world0).2 !! 0 = Some Demo.ambient ∧
  heap (NonPythonCdkBuilder.build_template id (Demo.non_python Demo.credentials run)
          Demo.cdk_json_path [] "CDKStack" Demo.world0).2 !! 0 = Some Demo.ambient.
Proof.
  intros run.
  assert (heap Demo.world0 !! 0 = Some Demo.ambient) as Hl by reflexivity.
  split; [exact Hl|].
  exact (build_template_leaves_dictionaries_unchanged (H := Demo.cdk)
           (Demo.bootstrapped Demo.credentials run)
           (Demo.bootstrapless Demo.credentials run [])
           (Demo.stack_class Demo.with_zip) [] tt
           id (Demo.non_python Demo.credentials run) Demo.cdk_json_path [] "CDKStack"
           Demo.world0 0 Demo.ambient Hl).
Defined.

(** ** The bootstrapless synthesizer *)

(** X10.  With a configuration that the synthesizer class accepts, the
    bootstrapless [_synthesize], and with it the build, is the bootstrapped
    one on the same application class, except that the stack class gets the
    synthesizer as its [synthesizer] argument. *)
Theorem bootstrapless_is_bootstrapped_with_synthesizer `{AwsCdk}
    (self : BootstraplessCdkBuilder.t) (stack_class : StackClass)
    (cdk_context : CdkContext) (sceptre_user_data : UserData) (w : world)
    (synthesizer : Synthesizer)
    (Hconfig : BootstraplessCdkBuilder._synthesizer_class self
                 (BootstraplessCdkBuilder._synthesizer_config self) = Ok synthesizer) :
  let with_synthesizer : StackClass :=
    λ app id data _, stack_class app id data (Some synthesizer) in
  BootstraplessCdkBuilder._synthesize self stack_class cdk_context sceptre_user_data w =
    BootstrappedCdkBuilder._synthesize (BootstraplessCdkBuilder.base self)
      with_synthesizer cdk_context sceptre_user_data w ∧
  BootstraplessCdkBuilder.build_template self stack_class cdk_context sceptre_user_data w =
    BootstrappedCdkBuilder.build_template (BootstraplessCdkBuilder.base self)
      with_synthesizer cdk_context sceptre_user_data w.
Proof.
  intros with_synthesizer.
  assert (BootstraplessCdkBuilder._synthesize self stack_class cdk_context
            sceptre_user_data w =
          BootstrappedCdkBuilder._synthesize (BootstraplessCdkBuilder.base self)
            with_synthesizer cdk_context sceptre_user_data w) as Hs.
  { unfold BootstraplessCdkBuilder._synthesize, BootstrappedCdkBuilder._synthesize,
      BootstraplessCdkBuilder.make_synthesizer, BootstraplessCdkBuilder.STACK_LOGICAL_ID,
      BootstrappedCdkBuilder.STACK_LOGICAL_ID, with_synthesizer,
      mbind, M_bind, logger_debug, modify, lift, mret, M_ret.
    cbv beta iota. rewrite Hconfig.
    by destruct (BootstrappedCdkBuilder._app_class _ cdk_context) as [app|e]. }
  split; [exact Hs|].
  unfold BootstraplessCdkBuilder.build_template, BootstrappedCdkBuilder.build_template.
  by apply build_template_with_ext.
Qed.

Lemma bootstrapless_is_bootstrapped_with_synthesizer_witness :
  let self :=
    Demo.bootstrapless Demo.credentials (subprocess_run (Demo.exits_with 0))
      [("file_asset_bucket_name", "assets")] in
  BootstraplessCdkBuilder._synthesizer_class self
    (BootstraplessCdkBuilder._synthesizer_config self) = Ok "assets" ∧
  BootstraplessCdkBuilder.build_template self (Demo.stack_class Demo.with_zip) [] tt
    Demo.world0 =
  BootstrappedCdkBuilder.build_template (BootstraplessCdkBuilder.base self)
    (λ app id data _, Demo.stack_class Demo.with_zip app id data (Some "assets")) [] tt
    Demo.world0.
Proof.
  intros self. split; [reflexivity|].
  apply (bootstrapless_is_bootstrapped_with_synthesizer (H := Demo.cdk) self
           (Demo.stack_class Demo.with_zip) [] tt Demo.world0 "assets").
  reflexivity.
Defined.

(** X11.  Only a [TypeError] of the synthesizer class is turned into
    [TemplateHandlerArgumentsInvalidError]: any other exception it raises is
    the outcome of the bootstrapless build, unchanged, and no call of
    [subprocess_run] has been made. *)
Theorem bootstrapless_passes_other_construction_errors `{AwsCdk}
    (self : BootstraplessCdkBuilder.t) (stack_class : StackClass)
    (cdk_context : CdkContext) (sceptre_user_data : UserData) (w : world)
    (app : App) (e : exception)
    (Happ : BootstrappedCdkBuilder._app_class (BootstraplessCdkBuilder.base self)
              cdk_context = Ok app)
    (Hconfig : BootstraplessCdkBuilder._synthesizer_class self
                 (BootstraplessCdkBuilder._synthesizer_config self) = Raise e)
    (Hother : ∀ msg, e ≠ TypeError msg) :
  (BootstraplessCdkBuilder.build_template self stack_class cdk_context
     sceptre_user_data w).1 = Raise e ∧
  runs (trace (BootstraplessCdkBuilder.build_template self stack_class cdk_context
                 sceptre_user_data w).2) = runs (trace w).
Proof.
  unfold BootstraplessCdkBuilder.build_template,
    BootstrappedCdkBuilder.build_template_with.
  rewrite bind_run.
  pose proof (Bootstrapless_synthesize_world self stack_class cdk_context
                sceptre_user_data w) as Hw.
  assert ((BootstraplessCdkBuilder._synthesize self stack_class cdk_context
             sceptre_user_data w).1 = Raise e) as Hr.
  { unfold BootstraplessCdkBuilder._synthesize, BootstraplessCdkBuilder.make_synthesizer,
      mbind, M_bind, logger_debug, modify, lift, raise.
    cbv beta iota. rewrite Happ, Hconfig.
    destruct e; try reflexivity. by destruct (Hother msg). }
  destruct (BootstraplessCdkBuilder._synthesize _ _ _ _ w) as [[ca|e'] w1];
    cbn [fst snd] in *; [done|].
  injection Hr as ->. split; [done|]. rewrite Hw. by rewrite !runs_add_log.
Qed.

Lemma bootstrapless_passes_other_construction_errors_witness :
  let self := Scenario.bootstrapless_with Scenario.rejecting_synthesizer_class in
  let e := ExternalError "JSIIError" "bucket name must be lower case" in
  BootstrappedCdkBuilder._app_class (BootstraplessCdkBuilder.base self) [] = Ok [] ∧
  BootstraplessCdkBuilder._synthesizer_class self
    (BootstraplessCdkBuilder._synthesizer_config self) = Raise e ∧
  (∀ msg, e ≠ TypeError msg) ∧
  (BootstraplessCdkBuilder.build_template self (Demo.stack_class Demo.with_zip) [] tt
     Demo.world0).1 = Raise e ∧
  runs (trace (BootstraplessCdkBuilder.build_template self (Demo.stack_class Demo.with_zip)
                 [] tt Demo.world0).2) = runs (trace Demo.world0).
Proof.
  intros self e.
  assert (∀ msg, e ≠ TypeError msg) as Hother by (intros msg; discriminate).
  split; [reflexivity|]. split; [reflexivity|]. split; [exact Hother|].
  exact (bootstrapless_passes_other_construction_errors (H := Demo.cdk) self
           (Demo.stack_class Demo.with_zip) [] tt Demo.world0 [] e
           eq_refl eq_refl Hother).
Defined.

(** ** The synthesis command *)

Lemma context_arguments_app (c1 c2 : list (string * string)) :
  context_arguments (c1 ++ c2) = context_arguments c1 +:+ context_arguments c2.
Proof.
  induction c1 as [|kv c1 IH]; [reflexivity|].
  cbn [app context_arguments]. rewrite IH. by rewrite !string_app_assoc.
Qed.

(** X12.  [_create_command] gives
    [npx cdk synth <stack_logical_id> -o <output_dir>] followed by a blank
    and by [key=value] and a blank for each context item in the order of the
    context: with no context the command ends after the first blank, and a
    longer context only appends to the command of a shorter one. *)
Theorem create_command_lists_context_in_order
    (output_dir stack_logical_id : string) (c1 c2 : list (string * string))
    (key value : string) :
  NonPythonCdkBuilder._create_command output_dir [] stack_logical_id =
    "npx cdk synth " +:+ stack_logical_id +:+ " -o " +:+ output_dir +:+ " " ∧
  NonPythonCdkBuilder._create_command output_dir (c1 ++ [(key, value)]) stack_logical_id =
    NonPythonCdkBuilder._create_command output_dir c1 stack_logical_id
      +:+ key +:+ "=" +:+ value +:+ " " ∧
  NonPythonCdkBuilder._create_command output_dir (c1 ++ c2) stack_logical_id =
    NonPythonCdkBuilder._create_command output_dir c1 stack_logical_id
      +:+ context_arguments c2.
Proof.
  split_and!.
  - reflexivity.
  - unfold NonPythonCdkBuilder._create_command. by rewrite foldl_app.
  - rewrite !create_command_shape, context_arguments_app.
    by rewrite !string_app_assoc.
Qed.

(** ** Whole builds *)

Lemma call_subprocess_run_run (run : runner) (c : proc_call) (w : world)
    (r : result CompletedProcess) (f : filesystem) :
  run c (fs w) = (r, f) →
  call_subprocess_run run c w = (r, set_fs (λ _, f) (add_event (Run c) w)).
Proof.
  intros Hr. unfold call_subprocess_run. cbv zeta.
  change (fs (add_event (Run c) w)) with (fs w). by rewrite Hr.
Qed.

(** The out-of-process [_synthesize] with credentials: one call, whose
    outcome is the outcome of the step. *)
Lemma NonPython_synthesize_run (resolve : Path → Path)
    (self : NonPythonCdkBuilder.t) (cdk_json_path : Path) (output_dir : string)
    (context : list (string * string)) (id : string) (c : Credentials) (w : world)
    (r : result CompletedProcess) (f : filesystem) :
  let call :=
    synth_call (NonPythonCdkBuilder._create_command output_dir context id)
      (envs_after (deref w (NonPythonCdkBuilder._environment_variables self))
         (NonPythonCdkBuilder._connection_manager self) c)
      (Path_str (resolve (Path_parent cdk_json_path))) in
  resolves (NonPythonCdkBuilder._connection_manager self) c →
  NonPythonCdkBuilder._subprocess_run self call (fs w) = (r, f) →
  NonPythonCdkBuilder._synthesize resolve self cdk_json_path output_dir context id w =
  (call_outcome r,
   set_fs (λ _, f)
     (add_event (Run call)
        (set_heap (insert (fresh (dom (heap w))) (call_env call)) w))).
Proof.
  intros call Hc Hr. unfold NonPythonCdkBuilder._synthesize.
  rewrite bind_run, (NonPython_get_envs_run self c w Hc).
  cbv zeta. rewrite bind_run. unfold get_world at 1.
  rewrite bind_run, deref_set_heap_insert.
  erewrite call_subprocess_run_run by exact Hr.
  by destruct r.
Qed.

(** The out-of-process [_publish] on a manifest with assets, with
    credentials: one call, whose outcome is the outcome of the step. *)
Lemma NonPython_publish_run (self : NonPythonCdkBuilder.t) (path : Path) (id : string)
    (manifest : json) (c : Credentials) (w : world)
    (r : result CompletedProcess) (f : filesystem) :
  let call :=
    publish_call (Path_str path)
      (envs_after (deref w (NonPythonCdkBuilder._environment_variables self))
         (NonPythonCdkBuilder._connection_manager self) c) in
  files (fs w) !! path = Some (Some manifest) →
  NonPythonCdkBuilder._only_asset_is_template manifest id = Ok false →
  resolves (NonPythonCdkBuilder._connection_manager self) c →
  NonPythonCdkBuilder._subprocess_run self call (fs w) = (r, f) →
  (NonPythonCdkBuilder._publish self path id w).1 = call_outcome r ∧
  fs (NonPythonCdkBuilder._publish self path id w).2 = f ∧
  runs (trace (NonPythonCdkBuilder._publish self path id w).2) =
    (runs (trace w) ++ [call])%list.
Proof.
  intros call Hm Ho Hc Hr. split_and!.
  - unfold NonPythonCdkBuilder._publish.
    rewrite bind_run, (NonPython_get_assets_manifest_run path manifest w Hm).
    rewrite bind_run. unfold lift at 1. rewrite Ho.
    rewrite bind_run, (NonPython_get_envs_run self c w Hc).
    rewrite bind_run. unfold logger_info at 1, modify at 1.
    rewrite bind_run. unfold logger_debug at 1, modify at 1.
    rewrite bind_run. unfold get_world at 1.
    rewrite bind_run, !deref_add_event, deref_set_heap_insert.
    erewrite call_subprocess_run_run by exact Hr.
    by destruct r.
  - unfold NonPythonCdkBuilder._publish.
    rewrite bind_run, (NonPython_get_assets_manifest_run path manifest w Hm).
    rewrite bind_run. unfold lift at 1. rewrite Ho.
    rewrite bind_run, (NonPython_get_envs_run self c w Hc).
    rewrite bind_run. unfold logger_info at 1, modify at 1.
    rewrite bind_run. unfold logger_debug at 1, modify at 1.
    rewrite bind_run. unfold get_world at 1.
    rewrite bind_run, !deref_add_event, deref_set_heap_insert.
    erewrite call_subprocess_run_run by exact Hr.
    by destruct r.
  - rewrite (NonPython_publish_trace self path id manifest c w Hm Ho Hc).
    by rewrite runs_app.
Qed.

Lemma open_json_load_run (path : Path) (t : json) (w : world) :
  files (fs w) !! path = Some (Some t) → open_json_load path w = (Ok t, w).
Proof. intros Ht. unfold open_json_load. by rewrite Ht. Qed.

(** X13.  An out-of-process build whose synthesis command succeeds and leaves
    a template-only manifest at
    [Path(output_dir, "<stack_logical_id>.assets.json")]: the build returns the
    content of [Path(output_dir, "<stack_logical_id>.template.json")], the
    synthesis command is
    its only call of [subprocess_run], and the file system it leaves is the
    one the command left, without the output directory. *)
Theorem non_python_build_of_template_only_manifest
    (resolve : Path → Path) (n : NonPythonCdkBuilder.t) (cdk_json_path : Path)
    (context : list (string * string)) (stack_logical_id : string)
    (c : Credentials) (w : world) (cp : CompletedProcess) (f1 : filesystem)
    (manifest t : json)
    (Hc : resolves (NonPythonCdkBuilder._connection_manager n) c)
    (Hrun : NonPythonCdkBuilder._subprocess_run n
              (synth_call
                 (NonPythonCdkBuilder._create_command (tmp_name (tmp_count w)) context
                    stack_logical_id)
                 (envs_after (deref w (NonPythonCdkBuilder._environment_variables n))
                    (NonPythonCdkBuilder._connection_manager n) c)
                 (Path_str (resolve (Path_parent cdk_json_path))))
              (fs (TemporaryDirectory_enter w).2) = (Ok cp, f1))
    (Hm : files f1 !! (Path_of (tmp_name (tmp_count w)) (stack_logical_id +:+ ".assets.json")) =
          Some (Some manifest))
    (Ho : NonPythonCdkBuilder._only_asset_is_template manifest stack_logical_id = Ok true)
    (Ht : files f1 !! (Path_of (tmp_name (tmp_count w)) (stack_logical_id +:+ ".template.json")) =
          Some (Some t)) :
  let out :=
    NonPythonCdkBuilder.build_template resolve n cdk_json_path context stack_logical_id w in
  fst out = Ok t ∧
  runs (trace (snd out)) =
    (runs (trace w) ++
     [synth_call
        (NonPythonCdkBuilder._create_command (tmp_name (tmp_count w)) context
           stack_logical_id)
        (envs_after (deref w (NonPythonCdkBuilder._environment_variables n))
           (NonPythonCdkBuilder._connection_manager n) c)
        (Path_str (resolve (Path_parent cdk_json_path)))])%list ∧
  fs (snd out) = rmtree (parse_path (tmp_name (tmp_count w))) f1.
Proof.
  intros out. unfold out. rewrite NonPython_build_template_body. cbn [fst snd].
  set (w0 := (TemporaryDirectory_enter w).2) in *.
  rewrite NonPython_build_in_binds, bind_run.
  rewrite (NonPython_synthesize_run resolve n cdk_json_path _ context stack_logical_id
             c w0 (Ok cp) f1 Hc Hrun).
  cbn [call_outcome]. rewrite bind_run.
  match goal with
  | |- context [NonPythonCdkBuilder._publish n ?p ?i ?w1] =>
      rewrite (NonPython_publish_skip n p i manifest w1 Hm Ho)
  end.
  unfold NonPythonCdkBuilder._get_template.
  erewrite open_json_load_run by exact Ht.
  cbn [fst snd]. split_and!.
  - reflexivity.
  - unfold set_fs, add_event, set_heap, w0, TemporaryDirectory_enter.
    cbn [trace snd]. rewrite !runs_app. cbn [runs]. by rewrite app_nil_r.
  - reflexivity.
Qed.

Lemma non_python_build_of_template_only_manifest_witness :
  fst (NonPythonCdkBuilder.build_template id
         (Demo.non_python Demo.credentials (subprocess_run Demo.synth_writes))
         Demo.cdk_json_path [] "CDKStack" Demo.world0) = Ok (JObj ∅).
Proof.
  eapply proj1.
  eapply (non_python_build_of_template_only_manifest id
            (Demo.non_python Demo.credentials (subprocess_run Demo.synth_writes))
            Demo.cdk_json_path [] "CDKStack" Demo.credentials Demo.world0).
  - eexists. split; reflexivity.
  - vm_compute. reflexivity.
  - vm_compute. reflexivity.
  - vm_compute. reflexivity.
  - vm_compute. reflexivity.
Defined.

(** X14.  An out-of-process build whose synthesis command succeeds and leaves
    a manifest with assets at [Path(output_dir, "<stack_logical_id>.assets.json")]
    makes two calls: the synthesis command, then the publish command on that
    manifest, each with an environment derived from credentials that the
    connection manager resolves to.  An exception of the publish call is the
    outcome of the build; when the call returns, the build returns the
    template as the file system holds it after publishing.  Either way the
    output directory is removed from what the publish command left. *)
Theorem non_python_build_with_assets_publishes_then_reads
    (resolve : Path → Path) (n : NonPythonCdkBuilder.t) (cdk_json_path : Path)
    (context : list (string * string)) (stack_logical_id : string)
    (c : Credentials) (w : world) (cp : CompletedProcess) (f1 f2 : filesystem)
    (manifest : json) (r2 : result CompletedProcess)
    (Hc : resolves (NonPythonCdkBuilder._connection_manager n) c)
    (Hrun : ∀ s,
       is_synth_call resolve (NonPythonCdkBuilder._connection_manager n) cdk_json_path
         (tmp_name (tmp_count w)) context stack_logical_id s →
       NonPythonCdkBuilder._subprocess_run n s (fs (TemporaryDirectory_enter w).2) =
         (Ok cp, f1))
    (Hm : files f1
            !! Path_of (tmp_name (tmp_count w)) (stack_logical_id +:+ ".assets.json") =
          Some (Some manifest))
    (Ho : NonPythonCdkBuilder._only_asset_is_template manifest stack_logical_id = Ok false)
    (Hpub : ∀ q,
       is_publish_call (NonPythonCdkBuilder._connection_manager n)
         (Path_str (Path_of (tmp_name (tmp_count w)) (stack_logical_id +:+ ".assets.json")))
         q →
       NonPythonCdkBuilder._subprocess_run n q f1 = (r2, f2)) :
  let out :=
    NonPythonCdkBuilder.build_template resolve n cdk_json_path context stack_logical_id w in
  (∃ s q,
     runs (trace (snd out)) = (runs (trace w) ++ [s; q])%list ∧
     is_synth_call resolve (NonPythonCdkBuilder._connection_manager n) cdk_json_path
       (tmp_name (tmp_count w)) context stack_logical_id s ∧
     is_publish_call (NonPythonCdkBuilder._connection_manager n)
       (Path_str (Path_of (tmp_name (tmp_count w)) (stack_logical_id +:+ ".assets.json")))
       q) ∧
  fs (snd out) = rmtree (parse_path (tmp_name (tmp_count w))) f2 ∧
  (∀ e, r2 = Raise e → fst out = Raise e) ∧
  (∀ cp2 t,
     r2 = Ok cp2 →
     files f2 !! Path_of (tmp_name (tmp_count w)) (stack_logical_id +:+ ".template.json") =
       Some (Some t) →
     fst out = Ok t).
Proof.
  intros out. unfold out. rewrite NonPython_build_template_body. cbn [fst snd].
  set (w0 := (TemporaryDirectory_enter w).2) in *.
  set (d := tmp_name (tmp_count w)) in *.
  set (cm := NonPythonCdkBuilder._connection_manager n) in *.
  pose proof (is_synth_call_intro resolve cm c cdk_json_path d context stack_logical_id
                (deref w0 (NonPythonCdkBuilder._environment_variables n)) Hc) as Hs.
  rewrite NonPython_build_in_binds, bind_run.
  rewrite (NonPython_synthesize_run resolve n cdk_json_path _ context stack_logical_id
             c w0 (Ok cp) f1 Hc (Hrun _ Hs)).
  cbn [call_outcome]. rewrite bind_run.
  match goal with
  | |- context [NonPythonCdkBuilder._publish n ?p ?i ?w1] =>
      pose proof (is_publish_call_intro cm c (Path_str p)
                    (deref w1 (NonPythonCdkBuilder._environment_variables n)) Hc) as Hq;
      assert (runs (trace w1) =
              (runs (trace w) ++
               [synth_call (NonPythonCdkBuilder._create_command d context stack_logical_id)
                  (envs_after (deref w0 (NonPythonCdkBuilder._environment_variables n))
                     cm c)
                  (Path_str (resolve (Path_parent cdk_json_path)))])%list) as Hr1
        by (unfold set_fs; cbn [trace]; by rewrite trace_add_event, runs_app);
      destruct (NonPython_publish_run n p i manifest c w1 r2 f2 Hm Ho Hc (Hpub _ Hq))
        as (Hres & Hfs & Hruns);
      rewrite Hr1, <- app_assoc in Hruns;
      destruct (NonPythonCdkBuilder._publish n p i w1) as [[[]|e2] w2]
  end; cbn [fst snd] in *; subst f2.
  - pose proof (open_json_load_world (Path_of d (stack_logical_id +:+ ".template.json")) w2)
      as Hw.
    unfold NonPythonCdkBuilder._get_template. split_and!.
    + rewrite Hw. do 2 eexists. split; [exact Hruns|]. split; [exact Hs|exact Hq].
    + by rewrite Hw.
    + intros e ->. done.
    + intros cp2 t -> Ht. by rewrite (open_json_load_run _ t w2 Ht).
  - split_and!; try done.
    + do 2 eexists. split; [exact Hruns|]. split; [exact Hs|exact Hq].
    + intros e ->. cbn [call_outcome] in Hres. by injection Hres as ->.
    + intros cp2 t ->. done.
Qed.

Lemma non_python_build_with_assets_publishes_then_reads_witness :
  fst (NonPythonCdkBuilder.build_template id
         (Demo.non_python Demo.credentials
            (subprocess_run (Scenario.toolchain Demo.with_zip 2)))
         Demo.cdk_json_path [] "CDKStack" Demo.world0) =
  Raise (CalledProcessError 2
           "npx cdk-assets -v publish --path /tmp/tmp0/CDKStack.assets.json").
Proof.
  eapply (non_python_build_with_assets_publishes_then_reads id
            (Demo.non_python Demo.credentials
               (subprocess_run (Scenario.toolchain Demo.with_zip 2)))
            Demo.cdk_json_path [] "CDKStack" Demo.credentials Demo.world0).
  - eexists. split; reflexivity.
  - intros s ((_ & Hcheck & _) & Hcommand & _).
    unfold NonPythonCdkBuilder._subprocess_run, Demo.non_python, subprocess_run,
      Scenario.toolchain.
    rewrite Hcommand, Hcheck. vm_compute. reflexivity.
  - vm_compute. reflexivity.
  - vm_compute. reflexivity.
  - intros q ((_ & Hcheck & _) & Hcommand & _).
    unfold NonPythonCdkBuilder._subprocess_run, Demo.non_python, subprocess_run,
      Scenario.toolchain.
    rewrite Hcommand, Hcheck. vm_compute. reflexivity.
  - reflexivity.
Defined.

Section in_process_publish.
Context `{AwsCdk}.

(** The in-process [_publish] on a manifest with assets, with credentials:
    the outcome of the one call is the outcome of the step. *)
Lemma Bootstrapped_publish_run (self : BootstrappedCdkBuilder.t) (ca : CloudAssembly)
    (a : AssetManifestArtifact) (c : Credentials) (w : world)
    (r : result CompletedProcess) (f : filesystem) :
  BootstrappedCdkBuilder.first_asset_manifest (artifacts ca) = Some a →
  BootstrappedCdkBuilder._only_asset_is_template a = false →
  resolves (BootstrappedCdkBuilder._connection_manager self) c →
  BootstrappedCdkBuilder._subprocess_run self
    (publish_call (file a)
       (envs_after (deref w (BootstrappedCdkBuilder._environment_variables self))
          (BootstrappedCdkBuilder._connection_manager self) c))
    (fs w) = (r, f) →
  ∃ w', BootstrappedCdkBuilder._publish self ca w = (call_outcome r, w') ∧ fs w' = f.
Proof.
  intros Ha Ho Hc Hr. unfold BootstrappedCdkBuilder._publish.
  rewrite bind_run. unfold BootstrappedCdkBuilder._get_assets_manifest.
  rewrite Ha. unfold mret at 1, M_ret at 1. rewrite Ho.
  rewrite bind_run, (Bootstrapped_get_envs_run self c w Hc).
  rewrite bind_run. unfold logger_info at 1, modify at 1.
  rewrite bind_run. unfold logger_debug at 1, modify at 1.
  rewrite bind_run. unfold BootstrappedCdkBuilder._run_command.
  rewrite bind_run. unfold get_world at 1.
  rewrite !deref_add_event, deref_set_heap_insert.
  erewrite call_subprocess_run_run by exact Hr.
  destruct r; eexists; split; reflexivity.
Qed.

End in_process_publish.

(** X15.  In an in-process build with the default runner, the exit code of
    the publish command decides: a non-zero code makes the build raise
    [CalledProcessError] with that code and the publish command, and no
    template is looked up; with code zero the build gives what the lookup of
    the stack [CDKStack] in the assembly gives. *)
Theorem in_process_publish_exit_code_decides `{AwsCdk}
    (b : BootstrappedCdkBuilder.t) (stack_class : StackClass)
    (cdk_context : CdkContext) (sceptre_user_data : UserData)
    (w w1 : world) (ca : CloudAssembly) (a : AssetManifestArtifact) (c : Credentials)
    (exec : proc_call → filesystem → Z * filesystem) (code : Z) (f : filesystem)
    (Hs : BootstrappedCdkBuilder._synthesize b stack_class cdk_context sceptre_user_data w =
          (Ok ca, w1))
    (Ha : BootstrappedCdkBuilder.first_asset_manifest (artifacts ca) = Some a)
    (Ho : BootstrappedCdkBuilder._only_asset_is_template a = false)
    (Hc : resolves (BootstrappedCdkBuilder._connection_manager b) c)
    (Hrun : BootstrappedCdkBuilder._subprocess_run b = subprocess_run exec)
    (Hexec : exec (publish_call (file a)
                     (envs_after (deref w (BootstrappedCdkBuilder._environment_variables b))
                        (BootstrappedCdkBuilder._connection_manager b) c))
                  (fs w) = (code, f)) :
  let out :=
    BootstrappedCdkBuilder.build_template b stack_class cdk_context sceptre_user_data w in
  (code ≠ 0%Z →
   fst out = Raise (CalledProcessError code
                      ("npx cdk-assets -v publish --path " +:+ file a))) ∧
  (code = 0%Z →
   fst out = (stack ← get_stack_by_name ca "CDKStack"; Ok (template stack))) ∧
  fs (snd out) = f.
Proof.
  intros out. unfold out, BootstrappedCdkBuilder.build_template,
    BootstrappedCdkBuilder.build_template_with.
  pose proof (Bootstrapped_synthesize_world b stack_class cdk_context
                sceptre_user_data w) as Hw.
  rewrite bind_run, Hs. rewrite Hs in Hw. cbn [snd] in Hw.
  set (call := publish_call (file a)
                 (envs_after (deref w (BootstrappedCdkBuilder._environment_variables b))
                    (BootstrappedCdkBuilder._connection_manager b) c)) in *.
  assert (BootstrappedCdkBuilder._subprocess_run b call (fs w1) =
          (if negb (code =? 0)%Z
           then Raise (CalledProcessError code (call_command call))
           else Ok {| cp_args := call_command call; cp_returncode := code |}, f)) as Hr.
  { rewrite Hrun, Hw. unfold subprocess_run.
    change (fs (add_event _ (add_event _ w))) with (fs w). rewrite Hexec.
    unfold call, publish_call. cbn [call_check call_command andb].
    by destruct (negb (code =? 0)%Z). }
  assert (deref w1 (BootstrappedCdkBuilder._environment_variables b) =
          deref w (BootstrappedCdkBuilder._environment_variables b)) as Hd
    by by rewrite Hw.
  unfold call in Hr. rewrite <- Hd in Hr.
  destruct (Bootstrapped_publish_run b ca a c w1 _ f Ha Ho Hc Hr) as (w2' & Hp & Hfs).
  rewrite bind_run.
  assert ((BootstrappedCdkBuilder._publish b ca w1).1 =
          call_outcome (if negb (code =? 0)%Z
                        then Raise (CalledProcessError code (call_command call))
                        else Ok {| cp_args := call_command call; cp_returncode := code |}))
    as Hres by by rewrite Hp.
  assert (fs (BootstrappedCdkBuilder._publish b ca w1).2 = f) as Hfs' by by rewrite Hp.
  clear Hp Hfs.
  destruct (BootstrappedCdkBuilder._publish b ca w1) as [[[]|e] w2]; cbn [fst snd] in *.
  - rewrite bind_run.
    pose proof (Bootstrapped_get_template_world ca w2) as Ht.
    assert ((BootstrappedCdkBuilder._get_template ca w2).1 =
            (stack ← get_stack_by_name ca "CDKStack"; Ok (template stack))) as Hg.
    { unfold BootstrappedCdkBuilder._get_template, lift. rewrite bind_run.
      unfold BootstrappedCdkBuilder.STACK_LOGICAL_ID, CdkBuilder.STACK_LOGICAL_ID.
      by destruct (get_stack_by_name ca "CDKStack"). }
    destruct (BootstrappedCdkBuilder._get_template ca w2) as [[t|e] w3];
      cbn [fst snd] in *; subst w3; unfold mret, M_ret; cbn [fst snd];
      (split_and!; [|done|done]); intros Hcode;
      apply Z.eqb_neq in Hcode; rewrite Hcode in Hres; done.
  - split_and!; [| |done].
    + intros Hcode. apply Z.eqb_neq in Hcode. rewrite Hcode in Hres.
      cbn [negb call_outcome] in Hres. by injection Hres as ->.
    + intros ->. done.
Qed.

Lemma in_process_publish_exit_code_decides_witness :
  fst (BootstrappedCdkBuilder.build_template
         (Demo.bootstrapped Demo.credentials (subprocess_run (Demo.exits_with 3)))
         (Demo.stack_class Demo.with_zip) [] tt Demo.world0) =
  Raise (CalledProcessError 3
           ("npx cdk-assets -v publish --path " +:+ "cdk.out/CDKStack.assets.json")).
Proof.
  assert ((3 ≠ 0)%Z) as Hcode by done.
  refine (proj1 (in_process_publish_exit_code_decides (H := Demo.cdk)
                   (Demo.bootstrapped Demo.credentials (subprocess_run (Demo.exits_with 3)))
                   (Demo.stack_class Demo.with_zip) [] tt Demo.world0 _
                   (Demo.assembly Demo.with_zip) (Demo.artifact Demo.with_zip)
                   Demo.credentials (Demo.exits_with 3) 3 (fs Demo.world0)
                   eq_refl eq_refl _ _ eq_refl eq_refl) Hcode).
  - vm_compute. reflexivity.
  - eexists. split; reflexivity.
Defined.


